(** * CloudRAG document-ingestion pipeline: a shallow embedding

    The development follows the Python sources of the backend:
    - [backend/providers.py]   text extraction, OAuth token refresh, the three
      provider adapters and the provider registry;
    - [backend/storage.py]     the [user_connections] and [document_cache]
      tables with their upsert statements;
    - [backend/chat_router.py] the document collection loop of [chat_ask].

    Python values are modelled as they are at run time: a [str] is a list of
    code points, [bytes] a list of bytes, an [int] an unbounded [Z].  Code that
    can raise returns an [outcome]; code that touches the database, the clock
    or the network threads a [World] and keeps it when an exception unwinds. *)

From Stdlib Require Import ZArith NArith List String Ascii Strings.Byte Bool Lia DecimalString.
From stdpp Require Import base option list gmap.
Import ListNotations.

Local Open Scope Z_scope.

(** ** Python built-ins used by the sources *)
Module Py.

(** A [str] is a sequence of Unicode code points, [bytes] a sequence of bytes. *)
Abbreviation str := (list N).
Abbreviation bytes := (list Byte.byte).

(** *** Exceptions *)

Inductive exn : Type :=
| RuntimeError (msg : str)
| HTTPException (status_code : Z) (detail : str)
| TypeError
| ValueError
| KeyError
| AttributeError
| ImportError
| OverflowError
| TransportError      (* httpx.RequestError and its subclasses *)
| LibraryError.       (* raised inside zipfile, fitz, pdfminer, json or
                         the database driver *)

Inductive outcome (A : Type) : Type :=
| Returned (a : A)
| Raised (e : exn).
Arguments Returned {A} a.
Arguments Raised {A} e.

Definition obind {A B} (c : outcome A) (k : A -> outcome B) : outcome B :=
  match c with
  | Returned a => k a
  | Raised e => Raised e
  end.

(** [try: c  except Exception: h]; every [exn] above derives from [Exception]. *)
Definition try_except {A} (c : outcome A) (h : exn -> outcome A) : outcome A :=
  match c with
  | Returned a => Returned a
  | Raised e => h e
  end.

Fixpoint omap_list {A B} (f : A -> outcome B) (l : list A) : outcome (list B) :=
  match l with
  | [] => Returned []
  | x :: t => obind (f x) (fun y => obind (omap_list f t) (fun ys => Returned (y :: ys)))
  end.

(** *** Decoding bytes: [data.decode("utf-8", errors="ignore")]

    CPython's decoder, with the [ignore] handler resuming right after the
    offending bytes: an invalid start byte drops one byte, an invalid
    continuation drops the bytes read so far, and a sequence cut short by the
    end of the data drops the rest. *)

Definition is_continuation (b : N) : bool := ((0x80 <=? b) && (b <=? 0xBF))%N.

Fixpoint utf8_ignore (data : list N) : str :=
  match data with
  | [] => []
  | b0 :: t0 =>
    if (b0 <? 0x80)%N then b0 :: utf8_ignore t0
    else if (b0 <? 0xC2)%N then utf8_ignore t0
    else if (b0 <? 0xE0)%N then
      match t0 with
      | [] => []
      | b1 :: t1 =>
        if is_continuation b1
        then ((b0 - 0xC0) * 64 + (b1 - 0x80))%N :: utf8_ignore t1
        else utf8_ignore t0
      end
    else if (b0 <? 0xF0)%N then
      match t0 with
      | [] => []
      | b1 :: t1 =>
        if negb (is_continuation b1)
           || (if (b1 <? 0xA0)%N then (b0 =? 0xE0)%N else (b0 =? 0xED)%N)
        then utf8_ignore t0
        else
          match t1 with
          | [] => []
          | b2 :: t2 =>
            if is_continuation b2
            then ((b0 - 0xE0) * 4096 + (b1 - 0x80) * 64 + (b2 - 0x80))%N
                   :: utf8_ignore t2
            else utf8_ignore t1
          end
      end
    else if (b0 <? 0xF5)%N then
      match t0 with
      | [] => []
      | b1 :: t1 =>
        if negb (is_continuation b1)
           || (if (b1 <? 0x90)%N then (b0 =? 0xF0)%N else (b0 =? 0xF4)%N)
        then utf8_ignore t0
        else
          match t1 with
          | [] => []
          | b2 :: t2 =>
            if negb (is_continuation b2) then utf8_ignore t1
            else
              match t2 with
              | [] => []
              | b3 :: t3 =>
                if is_continuation b3
                then ((b0 - 0xF0) * 262144 + (b1 - 0x80) * 4096
                      + (b2 - 0x80) * 64 + (b3 - 0x80))%N :: utf8_ignore t3
                else utf8_ignore t2
              end
          end
      end
    else utf8_ignore t0
  end.

Definition decode_utf8_ignore (data : bytes) : str :=
  utf8_ignore (map Byte.to_N data).

(** A string literal of the (UTF-8 encoded) Python source. *)
Definition py (s : string) : str := decode_utf8_ignore (list_byte_of_string s).
Arguments py : simpl never.

(** *** Whitespace: [str.isspace], the regex class [\s], [str.strip] *)

Definition isspace (c : N) : bool :=
  ((9 <=? c) && (c <=? 13) || (28 <=? c) && (c <=? 32)
   || (c =? 0x85) || (c =? 0xA0) || (c =? 0x1680)
   || (0x2000 <=? c) && (c <=? 0x200A)
   || (c =? 0x2028) || (c =? 0x2029) || (c =? 0x202F)
   || (c =? 0x205F) || (c =? 0x3000))%N.

(** [re.sub(r"\s+", " ", s)]: [in_run] tells that the previous character
    belonged to a whitespace run that was already replaced. *)
Fixpoint sub_ws (in_run : bool) (s : str) : str :=
  match s with
  | [] => []
  | c :: t =>
    if isspace c
    then (if in_run then sub_ws true t else 32%N :: sub_ws true t)
    else c :: sub_ws false t
  end.

Definition re_sub_ws (s : str) : str := sub_ws false s.

Fixpoint lstrip (s : str) : str :=
  match s with
  | [] => []
  | c :: t => if isspace c then lstrip t else s
  end.

Definition rstrip (s : str) : str := rev (lstrip (rev s)).

Definition strip (s : str) : str := rstrip (lstrip s).

(** *** Slices, suffixes, joins *)

(** [s[:k]] for an [int] [k]; a negative [k] counts from the end. *)
Definition slice_to {A} (k : Z) (s : list A) : list A :=
  if 0 <=? k then firstn (Z.to_nat k) s
  else firstn (length s - Z.to_nat (- k)) s.

Definition len {A} (s : list A) : Z := Z.of_nat (length s).

Fixpoint startswith (s p : str) : bool :=
  match p, s with
  | [], _ => true
  | _ :: _, [] => false
  | a :: p', b :: s' => (a =? b)%N && startswith s' p'
  end.

Definition endswith (s x : str) : bool := startswith (rev s) (rev x).

Fixpoint join (sep : str) (l : list str) : str :=
  match l with
  | [] => []
  | [x] => x
  | x :: t => x ++ sep ++ join sep t
  end.

(** [x in s] for strings: [x] occurs as a contiguous substring. *)
Fixpoint contains (s x : str) : bool :=
  startswith s x ||
  match s with
  | [] => false
  | _ :: t => contains t x
  end.

(** Code point order, which is how [sorted] compares strings. *)
Fixpoint str_leb (a b : str) : bool :=
  match a, b with
  | [], _ => true
  | _ :: _, [] => false
  | x :: a', y :: b' => (x <? y)%N || ((x =? y)%N && str_leb a' b')
  end.

Fixpoint insert_sorted (x : str) (l : list str) : list str :=
  match l with
  | [] => [x]
  | y :: t => if str_leb x y then x :: l else y :: insert_sorted x t
  end.

Definition sorted (l : list str) : list str := foldr insert_sorted [] l.

(** [str(n)] for a non-negative [int]. *)
Definition str_of_nat (n : nat) : str :=
  py (NilZero.string_of_uint (Nat.to_uint n)).

(** [x or ""] for an optional string. *)
Definition or_empty (x : option str) : str := default [] x.

(** *** JSON documents as Python objects

    What [r.json()] and [json.loads] return.  Numbers are integers here: the
    fields the sources compute with ([expires_in], [size]) are integral. *)
#[warnings="-register-all"]
Inductive json : Type :=
| JNull
| JBool (b : bool)
| JInt (z : Z)
| JStr (s : str)
| JList (l : list json)
| JDict (d : list (str * json)).

(** A number as SQLite reads it from a text: an integer, or a REAL given by
    the 64 bits of its double. *)
Inductive number : Type :=
| Integer (z : Z)
| Real (x : Z).

(** *** Library functions that are taken as given

    These depend on tables or parsers that live outside the repository: the
    Unicode case mapping, the numeric parser of [int], [json], [re] with the
    patterns of [_extract_xml_text], [html.unescape] (which raises on a
    character reference of too many digits), [zipfile], the PDF back ends
    and [base64].  A member of an archive is listed with what [ZipFile.read]
    gives for it; a PDF page with what [get_text] gives.

    The last five belong to the database engine and to [float]:
    [sqlite_numeric s] is the number SQLite stores in an INTEGER column for a
    text that spells one ([None] for every other text), [sqlite_real_text]
    the text it stores in a TEXT column for a REAL, [sqlite_real_integer]
    the integer a REAL is equal to, if there is one; [int_of_real] and
    [str_of_real] are [int(x)] and [str(x)] of a [float]. *)

Class Runtime : Type := {
  lower : str -> str;
  int_of_str : str -> outcome Z;
  repr_container : json -> str;
  json_dumps : json -> str;
  json_loads : str -> outcome json;
  re_findall_tag : str -> str -> list str;
  re_sub_tags : str -> str;
  html_unescape : str -> outcome str;
  zipfile_open : bytes -> outcome (list (str * outcome bytes));
  fitz_open : bytes -> outcome (list (outcome str));
  pdfminer_extract_text : bytes -> nat -> outcome str;
  urlsafe_b64encode_utf8 : str -> outcome str;
  sqlite_numeric : str -> option number;
  sqlite_real_text : Z -> str;
  sqlite_real_integer : Z -> option Z;
  int_of_real : Z -> outcome Z;
  str_of_real : Z -> str;
}.

(** ASCII-only lower-casing; agrees with [str.lower] on ASCII text. *)
Definition ascii_lower_char (c : N) : N :=
  if ((65 <=? c) && (c <=? 90))%N then (c + 32)%N else c.

(** *** Operations on Python objects

    The sources are untyped: they call [.get], index, slice and format
    whatever the JSON document holds, and the call raises when the object is
    of another type.  [repr_container] is [str()] of a list or a dict. *)

Definition truthy (j : json) : bool :=
  match j with
  | JNull => false
  | JBool b => b
  | JInt z => negb (z =? 0)
  | JStr s => negb (bool_decide (s = []))
  | JList l => match l with [] => false | _ => true end
  | JDict d => match d with [] => false | _ => true end
  end.

(** [a or b] *)
Definition por (a b : json) : json := if truthy a then a else b.

Fixpoint assoc {V} (d : list (str * V)) (k : str) : option V :=
  match d with
  | [] => None
  | (k', v) :: t => if bool_decide (k' = k) then Some v else assoc t k
  end.

(** [d[k] = v] on a dict: the key keeps its place if it is there already. *)
Fixpoint dict_set {V} (d : list (str * V)) (k : str) (v : V) : list (str * V) :=
  match d with
  | [] => [(k, v)]
  | (k', v') :: t =>
    if bool_decide (k' = k) then (k, v) :: t else (k', v') :: dict_set t k v
  end.

(** [obj.get(k, dflt)]; [obj.get(k)] is [get obj k JNull]. *)
Definition get (obj : json) (k : str) (dflt : json) : outcome json :=
  match obj with
  | JDict d => Returned (default dflt (assoc d k))
  | _ => Raised AttributeError
  end.

(** [obj[k]] for a string key *)
Definition getitem (obj : json) (k : str) : outcome json :=
  match obj with
  | JDict d => match assoc d k with Some v => Returned v | None => Raised KeyError end
  | _ => Raised TypeError
  end.

(** [obj[0]] *)
Definition getitem0 (obj : json) : outcome json :=
  match obj with
  | JList (x :: _) => Returned x
  | JList [] => Raised KeyError
  | JStr (c :: _) => Returned (JStr [c])
  | JStr [] => Raised KeyError
  | JDict _ => Raised KeyError
  | _ => Raised TypeError
  end.

(** [k in obj] *)
Definition key_in (k : str) (obj : json) : outcome bool :=
  match obj with
  | JDict d => Returned (bool_decide (is_Some (assoc d k)))
  | JStr s => Returned (contains s k)
  | JList l => Returned (existsb (fun x => match x with
                                           | JStr s => bool_decide (s = k)
                                           | _ => false
                                           end) l)
  | _ => Raised TypeError
  end.

(** [obj == "literal"] *)
Definition eq_str (obj : json) (s : str) : bool :=
  match obj with
  | JStr x => bool_decide (x = s)
  | _ => false
  end.

(** [for x in obj] *)
Definition iterate (obj : json) : outcome (list json) :=
  match obj with
  | JList l => Returned l
  | JDict d => Returned (map (fun kv => JStr (fst kv)) d)
  | JStr s => Returned (map (fun c => JStr [c]) s)
  | _ => Raised TypeError
  end.

(** [obj.items()] *)
Definition items (obj : json) : outcome (list (str * json)) :=
  match obj with
  | JDict d => Returned d
  | _ => Raised AttributeError
  end.

(** [str(z)] *)
Definition str_of_Z (z : Z) : str := py (NilZero.string_of_int (Z.to_int z)).

End Py.

Import Py.

(** ** Text extraction ([backend/providers.py], "텍스트 추출 유틸") *)
Module Extract.
Section WithRuntime.
Context `{Runtime}.

Definition _OFFICE_EXTS : list str := [py ".docx"; py ".pptx"; py ".xlsx"].

Definition _is_office_zip (name : option str) : bool :=
  let lower_name := lower (or_empty name) in
  existsb (fun ext => endswith lower_name ext) _OFFICE_EXTS.

(** [" ".join(...)] runs the generator part by part; the first part on
    which [html.unescape] raises ends the [try], and the handler returns
    [""]. *)
Definition _extract_xml_text (xml_bytes : bytes) (tag : str) : str :=
  match
    (let txt := decode_utf8_ignore xml_bytes in
     let parts := re_findall_tag tag txt in
     obind (omap_list (fun s => html_unescape (re_sub_tags s)) parts) (fun unescaped =>
     let joined := join (py " ") unescaped in
     Returned (strip (re_sub_ws joined))))
  with
  | Returned text => text
  | Raised _ => []
  end.

(** [zf.namelist()] and [zf.read(name)]; of two members with one name
    [ZipFile] keeps the later one. *)
Definition namelist (zf : list (str * outcome bytes)) : list str := map fst zf.

Definition zf_read (zf : list (str * outcome bytes)) (name : str) : outcome bytes :=
  match find (fun e => bool_decide (fst e = name)) (rev zf) with
  | Some e => snd e
  | None => Raised KeyError
  end.

Definition str_in (x : str) (l : list str) : bool := bool_decide (x ∈ l).

Fixpoint ofold_left {A B} (f : A -> B -> outcome A) (l : list B) (a : A) : outcome A :=
  match l with
  | [] => Returned a
  | x :: t => obind (f a x) (ofold_left f t)
  end.

(** The marker appended to a cut preview and the "could not extract" text. *)
Definition ellipsis : str := py " ...".

Definition binary_sentinel (data : bytes) : str :=
  py "[binary " ++ str_of_nat (length data) ++ py " bytes]".

(** [text[:max_chars] + (" ..." if len(text) > max_chars else "")] *)
Definition clip (text : str) (max_chars : Z) : str :=
  slice_to max_chars text ++ (if max_chars <? len text then ellipsis else []).

Definition nonempty (s : str) : bool := negb (bool_decide (s = [])).

(** The body of the [with zipfile.ZipFile(...)] block of
    [_preview_office_zip] up to [text = (text or "").strip()]. *)
Definition office_text (filename : option str) (data : bytes) : outcome str :=
  obind (zipfile_open data) (fun zf =>
  let name_lower := lower (or_empty filename) in
  obind
    (if endswith name_lower (py ".docx") then
       ofold_left (fun text candidate =>
           if str_in candidate (namelist zf)
           then obind (zf_read zf candidate) (fun part =>
                  Returned (text ++ py " " ++ _extract_xml_text part (py "w:t")))
           else Returned text)
         [py "word/document.xml"] []
     else if endswith name_lower (py ".pptx") then
       ofold_left (fun text nm =>
           obind (zf_read zf nm) (fun part =>
             Returned (text ++ py " " ++ _extract_xml_text part (py "a:t"))))
         (sorted (filter (fun n => startswith n (py "ppt/slides/slide")
                                   && endswith n (py ".xml")) (namelist zf)))
         []
     else if endswith name_lower (py ".xlsx") then
       if str_in (py "xl/sharedStrings.xml") (namelist zf)
       then obind (zf_read zf (py "xl/sharedStrings.xml")) (fun part =>
              Returned (_extract_xml_text part (py "t")))
       else Returned []
     else Returned [])
    (fun text => Returned (strip text))).

(** A [return] inside a [try] gives [Some]; falling out of it, or [pass] in
    the handler, gives [None] and control reaches the code after the [try]. *)
Definition try_return (c : outcome (option str)) : option str :=
  match c with
  | Returned r => r
  | Raised _ => None
  end.

Definition _preview_office_zip (filename : option str) (data : bytes)
    (max_chars : Z) : outcome str :=
  match try_return
          (obind (office_text filename data) (fun text =>
             if nonempty text then Returned (Some (clip text max_chars))
             else Returned None)) with
  | Some s => Returned s
  | None => Returned (binary_sentinel data)
  end.

(** The first [try] of [_preview_pdf_bytes] (PyMuPDF) up to the collapsed
    [txt]; [get_text] runs on the first [max_pages] pages only. *)
Definition fitz_text (data : bytes) (max_pages : nat) : outcome str :=
  obind (fitz_open data) (fun doc =>
  obind (omap_list (fun page => page) (firstn max_pages doc)) (fun texts =>
  let txt := strip (join (py " ") texts) in
  Returned (re_sub_ws txt))).

(** The second [try] (pdfminer) up to the collapsed and stripped [txt]. *)
Definition pdfminer_text (data : bytes) (max_pages : nat) : outcome str :=
  obind (pdfminer_extract_text data max_pages) (fun txt =>
  Returned (strip (re_sub_ws txt))).

Definition _preview_pdf_bytes (data : bytes) (max_pages : nat)
    (max_chars : Z) : outcome str :=
  match try_return
          (obind (fitz_text data max_pages) (fun txt =>
             if nonempty txt then Returned (Some (clip txt max_chars))
             else Returned None)) with
  | Some s => Returned s
  | None =>
    match try_return
            (obind (pdfminer_text data max_pages) (fun txt =>
               if nonempty txt then Returned (Some (clip txt max_chars))
               else Returned None)) with
    | Some s => Returned s
    | None => Returned (binary_sentinel data)
    end
  end.

(** The text the plain branch of [text_preview] cuts: the first 4096 bytes,
    decoded, whitespace runs collapsed, stripped. *)
Definition plain_text (data : bytes) : str :=
  let sample := firstn 4096 data in
  let text := decode_utf8_ignore sample in
  strip (re_sub_ws text).

(** [text_preview(title, data, max_chars=600)] *)
Definition text_preview (title : option str) (data : bytes)
    (max_chars : Z) : outcome str :=
  let name := lower (or_empty title) in
  if endswith name (py ".pdf") then _preview_pdf_bytes data 3 900
  else if _is_office_zip (Some name) then _preview_office_zip title data max_chars
  else
    try_except (Returned (clip (plain_text data) max_chars))
               (fun _ => Returned (binary_sentinel data)).

(** [cut_text title data max_chars text budget]: for this input the
    extractor reaches a truncation [text[:budget] + ...] with the collapsed
    text [text]. *)
Inductive cut_text (title : option str) (data : bytes) (max_chars : Z) :
    str -> Z -> Prop :=
| cut_pdf_primary txt :
    endswith (lower (or_empty title)) (py ".pdf") = true ->
    fitz_text data 3 = Returned txt -> txt <> [] ->
    cut_text title data max_chars txt 900
| cut_pdf_fallback txt :
    endswith (lower (or_empty title)) (py ".pdf") = true ->
    (forall t, fitz_text data 3 = Returned t -> t = []) ->
    pdfminer_text data 3 = Returned txt -> txt <> [] ->
    cut_text title data max_chars txt 900
| cut_office text :
    endswith (lower (or_empty title)) (py ".pdf") = false ->
    _is_office_zip (Some (lower (or_empty title))) = true ->
    office_text title data = Returned text -> text <> [] ->
    cut_text title data max_chars text max_chars
| cut_plain :
    endswith (lower (or_empty title)) (py ".pdf") = false ->
    _is_office_zip (Some (lower (or_empty title))) = false ->
    cut_text title data max_chars (plain_text data) max_chars.

End WithRuntime.
End Extract.


(** ** The connection and document tables ([backend/storage.py])

    The process uses SQLite unless [DATABASE_URL] names a PostgreSQL server;
    the tables are modelled as SQLite keeps them.  [cur.execute] first binds
    its parameters, which fails for an [int] outside 64 bits, and the engine
    then converts each value to the affinity of its column: a number stored
    in a TEXT column becomes its text, a text that spells a number becomes
    that number in an INTEGER column.  A statement that raises stores
    nothing.  The surrogate key [id], which no code reads, is left out.
    [now] is the value of [int(time.time())] read at the start of a call. *)
Module Storage.
Section WithRuntime.
Context `{Runtime}.

(** A bound parameter or a cell: [None]/NULL, an integer, a text, or a
    REAL given by the 64 bits of its double. *)
Inductive value : Type :=
| VNone
| VInt (z : Z)
| VStr (s : str)
| VReal (x : Z).

#[export] Instance value_eq_dec : EqDecision value.
Proof. solve_decision. Defined.

Definition INT64_MIN : Z := - 2 ^ 63.
Definition INT64_MAX : Z := 2 ^ 63 - 1.

(** [sqlite3] raises [OverflowError] for an [int] that SQLite's 64-bit
    INTEGER cannot hold; every other value of the type can be bound. *)
Definition bindable (v : value) : bool :=
  match v with
  | VInt z => (INT64_MIN <=? z) && (z <=? INT64_MAX)
  | _ => true
  end.

(** A NaN: exponent bits all set, mantissa not zero. *)
Definition real_is_nan (x : Z) : bool :=
  (Z.land (Z.shiftr x 52) 2047 =? 2047) && negb (Z.land x (2 ^ 52 - 1) =? 0).

(** A REAL that is zero, of either sign: the only false [float]. *)
Definition real_is_zero (x : Z) : bool := Z.land x (2 ^ 63 - 1) =? 0.

(** What the statement receives for a parameter: a NaN is bound as NULL. *)
Definition bound (v : value) : value :=
  match v with
  | VReal x => if real_is_nan x then VNone else v
  | _ => v
  end.

(** Binding one parameter of a statement. *)
Definition bind_parameter (v : value) : outcome value :=
  if bindable v then Returned (bound v) else Raised OverflowError.



(** The value a column of affinity TEXT keeps. *)
Definition text_affinity (v : value) : value :=
  match v with
  | VInt z => VStr (str_of_Z z)
  | VReal x => VStr (sqlite_real_text x)
  | _ => v
  end.

(** The value a column of affinity INTEGER keeps. *)
Definition integer_affinity (v : value) : value :=
  match v with
  | VStr s =>
    match sqlite_numeric s with
    | Some (Integer z) => VInt z
    | Some (Real x) => VReal x
    | None => v
    end
  | VReal x =>
    match sqlite_real_integer x with
    | Some z => VInt z
    | None => v
    end
  | _ => v
  end.

(** A row of [user_connections]; [UNIQUE(user_name, provider)]. *)
Record connection : Type := Connection {
  user_name : str;
  provider : str;
  access_token : value;
  refresh_token : value;
  token_type : value;
  scope : value;
  expires_at : value;
  meta_json : value;
  provider_account_id : value;
  provider_account_email : value;
  created_at : Z;
  updated_at : Z;
}.

(** A row of [document_cache]; [UNIQUE(user_name, provider, doc_id)]. *)
Record cached_document : Type := CachedDocument {
  doc_user_name : str;
  doc_provider : str;
  doc_id : value;
  doc_title : value;
  content_preview : value;
  summary : value;
  doc_created_at : Z;
  doc_updated_at : Z;
}.

Record database : Type := Database {
  user_connections : gmap (str * str) connection;
  document_cache : list cached_document;
}.

(** SQL [COALESCE(a, b)] *)
Definition COALESCE (a b : value) : value :=
  match a with
  | VNone => b
  | _ => a
  end.

(** [token.get(key)] and [token.get(key, default)] on the token dict. *)
Definition token_get (token : gmap str value) (key : str) : value :=
  default VNone (token !! key).

Definition token_get_default (token : gmap str value) (key : str)
    (dflt : value) : value :=
  default dflt (token !! key).

(** [meta or {}] *)
Definition meta_or_empty (meta : option json) : json :=
  match meta with
  | None => JDict []
  | Some m => if truthy m then m else JDict []
  end.

(** The row the [VALUES] clause of [save_connection] describes, each
    parameter converted to the affinity of its column: [excluded] in the
    [ON CONFLICT] clause. *)
Definition excluded_connection (now : Z) (user_name_ provider_ : str)
    (access_token_ refresh_token_ token_type_ scope_ expires_at_ : value)
    (meta_json_ : str) (provider_account_id_ provider_account_email_ : value)
    : connection :=
  {| user_name := strip user_name_;
     provider := lower provider_;
     access_token := text_affinity access_token_;
     refresh_token := text_affinity refresh_token_;
     token_type := text_affinity token_type_;
     scope := text_affinity scope_;
     expires_at := integer_affinity expires_at_;
     meta_json := VStr meta_json_;
     provider_account_id := text_affinity provider_account_id_;
     provider_account_email := text_affinity provider_account_email_;
     created_at := now;
     updated_at := now |}.

(** [INSERT INTO user_connections ... ON CONFLICT(user_name, provider) DO
    UPDATE SET ...]: every column but [created_at] takes the new value, and
    [refresh_token] keeps the old one when the new one is NULL. *)
Definition upsert_connection (db : database) (excluded : connection) : database :=
  let key := (user_name excluded, provider excluded) in
  let row :=
    match user_connections db !! key with
    | None => excluded
    | Some old => {|
        user_name := user_name excluded;    (* the conflicting row has the *)
        provider := provider excluded;      (* same two key columns        *)
        access_token := access_token excluded;
        refresh_token := COALESCE (refresh_token excluded) (refresh_token old);
        token_type := token_type excluded;
        scope := scope excluded;
        expires_at := expires_at excluded;
        meta_json := meta_json excluded;
        provider_account_id := provider_account_id excluded;
        provider_account_email := provider_account_email excluded;
        created_at := created_at old;
        updated_at := updated_at excluded;
      |}
    end in
  {| user_connections := <[key := row]> (user_connections db);
     document_cache := document_cache db |}.

(** The parameters of the statement of [save_connection] besides the three
    strings ([user_name.strip()], [provider.lower()], [meta_json]), in the
    order of the tuple. *)
Definition connection_parameters (now : Z) (token : gmap str value)
    (provider_account_id_ provider_account_email_ : value) : list value :=
  [ token_get token (py "access_token");
    token_get token (py "refresh_token");
    token_get_default token (py "token_type") (VStr (py "Bearer"));
    token_get token (py "scope");
    token_get token (py "expires_at");
    provider_account_id_; provider_account_email_;
    VInt now; VInt now ].

(** [save_connection(user_name, provider, token, provider_account_id,
    provider_account_email, meta)]: the parameters are bound in the order
    of the tuple (the strings among them always can be), then the statement
    runs. *)
Definition save_connection (now : Z) (db : database)
    (user_name_ provider_ : str) (token : gmap str value)
    (provider_account_id_ provider_account_email_ : value)
    (meta : option json) : outcome database :=
  let meta_json_ := json_dumps (meta_or_empty meta) in
  obind (bind_parameter (token_get token (py "access_token"))) (fun at_ =>
  obind (bind_parameter (token_get token (py "refresh_token"))) (fun rt_ =>
  obind (bind_parameter
           (token_get_default token (py "token_type") (VStr (py "Bearer")))) (fun tt_ =>
  obind (bind_parameter (token_get token (py "scope"))) (fun sc_ =>
  obind (bind_parameter (token_get token (py "expires_at"))) (fun ex_ =>
  obind (bind_parameter provider_account_id_) (fun pid_ =>
  obind (bind_parameter provider_account_email_) (fun pemail_ =>
  obind (bind_parameter (VInt now)) (fun _ =>
  Returned (upsert_connection db
              (excluded_connection now user_name_ provider_ at_ rt_ tt_ sc_ ex_
                 meta_json_ pid_ pemail_)))))))))).

(** [SELECT * FROM user_connections WHERE user_name = ? AND provider = ?] *)
Definition get_connection_row (db : database) (user_name_ provider_ : str)
    : option connection :=
  user_connections db !! (strip user_name_, lower provider_).

Definition get_provider_token (db : database) (user_name_ provider_ : str)
    : option connection :=
  get_connection_row db user_name_ provider_.

Definition delete_connection (db : database) (user_name_ provider_ : str)
    : database :=
  {| user_connections := delete (strip user_name_, lower provider_) (user_connections db);
     document_cache := document_cache db |}.

(** [cache_document]: the same upsert on [document_cache], where title,
    preview and summary keep the old value when the new one is NULL.  All
    four columns have affinity TEXT.  [doc_id] is [NOT NULL]: binding
    [None] raises an integrity error. *)
Definition same_document (u p : str) (d : value) (r : cached_document) : bool :=
  bool_decide (doc_user_name r = u /\ doc_provider r = p /\ doc_id r = d).

Fixpoint upsert_document (now : Z) (u p : str) (d title preview summ : value)
    (rows : list cached_document) : list cached_document :=
  match rows with
  | [] => [ {| doc_user_name := u; doc_provider := p; doc_id := d;
               doc_title := title; content_preview := preview; summary := summ;
               doc_created_at := now; doc_updated_at := now |} ]
  | r :: rest =>
    if same_document u p d r
    then {| doc_user_name := doc_user_name r; doc_provider := doc_provider r;
            doc_id := doc_id r;
            doc_title := COALESCE title (doc_title r);
            content_preview := COALESCE preview (content_preview r);
            summary := COALESCE summ (summary r);
            doc_created_at := doc_created_at r; doc_updated_at := now |} :: rest
    else r :: upsert_document now u p d title preview summ rest
  end.

Definition cache_document (now : Z) (db : database) (user_name_ provider_ : str)
    (doc_id_ doc_title_ content_preview_ summary_ : value) : outcome database :=
  obind (bind_parameter doc_id_) (fun d =>
  obind (bind_parameter doc_title_) (fun title =>
  obind (bind_parameter content_preview_) (fun preview =>
  obind (bind_parameter summary_) (fun summ =>
  obind (bind_parameter (VInt now)) (fun _ =>
  match text_affinity d with
  | VNone => Raised LibraryError
  | d' =>
    Returned {| user_connections := user_connections db;
                document_cache :=
                  upsert_document now (strip user_name_) (lower provider_) d'
                    (text_affinity title) (text_affinity preview)
                    (text_affinity summ) (document_cache db) |}
  end))))).

End WithRuntime.
End Storage.

(** ** The other tables and statements of [backend/storage.py] *)

(** *** Connection listing and metadata *)
Module Connections.
Import Storage.
Section WithRuntime.
Context `{Runtime}.

(** [SELECT provider, provider_account_email FROM user_connections WHERE
    user_name = ?]; the key of the table is the pair of the columns
    [user_name] and [provider].  SQL fixes no order for the rows. *)
Definition get_all_connections (db : database) (user_name_ : str)
    : list (str * value) :=
  map (fun kr => (snd (fst kr), provider_account_email (snd kr)))
    (filter (fun kr => fst (fst kr) = strip user_name_)
       (map_to_list (user_connections db))).

(** [json.loads(row.get("meta_json") or "{}")], and [{}] when that raises. *)
Definition get_connection_meta (db : database) (user_name_ provider_ : str)
    : option json :=
  match get_connection_row db user_name_ provider_ with
  | None => None
  | Some row =>
    let text :=
      match meta_json row with
      | VStr (c :: s) => Returned (c :: s)
      | VStr [] | VNone | VInt 0 => Returned (py "{}")
      | VInt _ => Raised TypeError
      | VReal x => if real_is_zero x then Returned (py "{}") else Raised TypeError
      end in
    match obind text json_loads with
    | Returned j => Some j
    | Raised _ => Some (JDict [])
    end
  end.

(** [current.update(meta_updates)] *)
Definition dict_update (current : json) (updates : list (str * json))
    : outcome json :=
  match current with
  | JDict d => Returned (JDict (fold_left (fun d kv => dict_set d (fst kv) (snd kv)) updates d))
  | _ => Raised AttributeError
  end.

(** [UPDATE user_connections SET meta_json = ?, updated_at = ? WHERE
    user_name = ? AND provider = ?] after the merge; [now] is the clock
    reading of the call. *)
Definition update_connection_meta (now : Z) (db : database)
    (user_name_ provider_ : str) (meta_updates : list (str * json))
    : outcome database :=
  let current :=
    match get_connection_meta db user_name_ provider_ with
    | Some j => if truthy j then j else JDict []
    | None => JDict []
    end in
  obind (dict_update current meta_updates) (fun merged =>
  obind (bind_parameter (VInt now)) (fun _ =>
  let key := (strip user_name_, lower provider_) in
  Returned
    {| user_connections :=
         match user_connections db !! key with
         | None => user_connections db
         | Some row =>
           <[key := {| user_name := user_name row; provider := provider row;
                       access_token := access_token row;
                       refresh_token := refresh_token row;
                       token_type := token_type row; scope := scope row;
                       expires_at := expires_at row;
                       meta_json := VStr (json_dumps merged);
                       provider_account_id := provider_account_id row;
                       provider_account_email := provider_account_email row;
                       created_at := created_at row; updated_at := now |}]>
             (user_connections db)
         end;
       document_cache := document_cache db |})).

(** A sequence of [save_connection] calls for one user and provider; a
    call that raises leaves the table as it is. *)
Fixpoint save_all (db : database) (user prov : str)
    (calls : list (Z * gmap str value)) : database :=
  match calls with
  | [] => db
  | (now, token) :: rest =>
    match save_connection now db user prov token VNone VNone None with
    | Returned db' => save_all db' user prov rest
    | Raised _ => save_all db user prov rest
    end
  end.

(** [get_cached_document]: the row of a document, if it is cached.  The
    parameter is compared as a TEXT, and nothing is equal to NULL. *)
Definition get_cached_document (db : database) (user_name_ provider_ : str)
    (doc_id_ : value) : outcome (option cached_document) :=
  obind (bind_parameter doc_id_) (fun d =>
  match text_affinity d with
  | VNone => Returned None
  | d' =>
    Returned (find (same_document (strip user_name_) (lower provider_) d')
                (document_cache db))
  end).

(** The three columns of the [UNIQUE] constraint of [document_cache]. *)
Definition document_key (r : cached_document) : str * str * value :=
  (doc_user_name r, doc_provider r, doc_id r).

End WithRuntime.
End Connections.

(** *** Chat history *)
Module ChatHistory.

(** A row of [chat_history]; rows are kept in the order of their [id]. *)
Record message : Type := Message {
  msg_user_name : str;
  role : str;
  content : str;
  msg_provider : option str;
  msg_created_at : Z;
}.

(** The rows of a user. *)
Definition messages_of (table : list message) (user_name_ : str) : list message :=
  filter (fun m => msg_user_name m = strip user_name_) table.

(** [add_chat_history]; [now] is the clock of the database, which fills
    [created_at]. *)
Definition add_chat_history (now : Z) (table : list message)
    (user_name_ role_ content_ : str) (provider_ : option str) : list message :=
  table ++ [ {| msg_user_name := strip user_name_; role := role_;
                content := content_; msg_provider := provider_;
                msg_created_at := now |} ].

(** [... WHERE user_name = ? ORDER BY id DESC LIMIT ?], then reversed.  A
    negative limit means no limit to SQLite and is an error to PostgreSQL; a
    limit outside 64 bits cannot be bound to SQLite and is out of range for
    PostgreSQL. *)
Definition get_chat_history (use_postgres : bool) (table : list message)
    (user_name_ : str) (limit : Z) : outcome (list message) :=
  let mine := messages_of table user_name_ in
  if negb (Storage.bindable (Storage.VInt limit))
  then Raised (if use_postgres then LibraryError else OverflowError)
  else if limit <? 0 then
    if use_postgres then Raised LibraryError else Returned mine
  else Returned (rev (firstn (Z.to_nat limit) (rev mine))).

(** [DELETE FROM chat_history WHERE user_name = ?] *)
Definition clear_chat_history (table : list message) (user_name_ : str)
    : list message :=
  filter (fun m => msg_user_name m <> strip user_name_) table.

End ChatHistory.

(** *** Users *)
Module Users.

Record user : Type := User {
  u_user_name : str;
  u_password : str;
  u_display_name : option str;
  u_email : option str;
  u_phone : option str;
  u_created_at : Z;
  u_updated_at : Z;
}.

(** The messages of the [ValueError]s the module raises. *)
Inductive user_error : Type := USERNAME_TAKEN | EMAIL_IN_USE | PHONE_IN_USE.

Definition has_user_name (n : str) (u : user) : bool :=
  bool_decide (u_user_name u = n).

(** [create_user]: [user_name] is [UNIQUE]; a new row has neither e-mail
    nor phone, so no other constraint can fail. *)
Definition create_user (now : Z) (table : list user) (user_name_ password_ : str)
    : user_error + list user :=
  let n := strip user_name_ in
  if existsb (has_user_name n) table then inl USERNAME_TAKEN
  else inr (table ++ [ {| u_user_name := n; u_password := password_;
                          u_display_name := None; u_email := None;
                          u_phone := None; u_created_at := now;
                          u_updated_at := now |} ]).

(** [verify_login]: the stored password is compared as it is. *)
Definition verify_login (table : list user) (user_name_ password_ : str) : bool :=
  match find (has_user_name (strip user_name_)) table with
  | Some u => bool_decide (u_password u = password_)
  | None => false
  end.

Definition get_user (table : list user) (user_name_ : str) : option user :=
  find (has_user_name (strip user_name_)) table.

Section WithSqlLower.
(** The SQL function [lower] of the database in use. *)
Variable sql_lower : str -> str.

(** [is_unique_user_name]: no row whose name equals the given one up to
    [lower]. *)
Definition is_unique_user_name (table : list user) (user_name_ : str) : bool :=
  negb (existsb (fun u => bool_decide (sql_lower (u_user_name u)
                                       = sql_lower (strip user_name_))) table).

(** [is_unique_email]: the same on the rows that have an e-mail. *)
Definition is_unique_email (table : list user) (email : str) : bool :=
  negb (existsb (fun u => match u_email u with
                          | Some e => bool_decide (sql_lower e = sql_lower (strip email))
                          | None => false
                          end) table).

End WithSqlLower.

End Users.

(** ** The world around one request: database, clock, network

    One task is followed from call to return; every [await] runs to
    completion before the next statement.  What other tasks do in between is
    not part of the model.  The clock is read through [clock], one reading
    per call of [time.time()]; the [n]-th HTTP request is answered by
    [network n]; every request sent and every step of the download semaphore
    is appended to [trace]. *)
Module Effects.
Import Storage.

Inductive method : Type := GET | POST.

Record Request : Type := {
  req_method : method;
  req_url : str;
  req_headers : list (str * str);
  req_params : list (str * json);
  req_data : list (str * str);
  req_json : option json;
  req_timeout : Z;
  req_follow_redirects : bool;
}.

Record Response : Type := {
  status_code : Z;
  content : bytes;
  text : str;
  json_body : outcome json;      (* what [r.json()] gives *)
}.

Inductive event : Type :=
| Sent (r : Request)
| Acquired         (* entering [async with _DL_SEMAPHORE] *)
| Released.        (* leaving it *)

Record World : Type := {
  db : database;
  clock : nat -> Z;
  clock_reads : nat;
  network : nat -> Request -> outcome Response;
  requests_sent : nat;
  environ : str -> option str;
  trace : list event;
}.

Definition set_db (d : database) (w : World) : World :=
  {| db := d; clock := clock w; clock_reads := clock_reads w;
     network := network w; requests_sent := requests_sent w;
     environ := environ w; trace := trace w |}.

Definition tick_clock (w : World) : World :=
  {| db := db w; clock := clock w; clock_reads := S (clock_reads w);
     network := network w; requests_sent := requests_sent w;
     environ := environ w; trace := trace w |}.

Definition record (e : event) (w : World) : World :=
  {| db := db w; clock := clock w; clock_reads := clock_reads w;
     network := network w; requests_sent := requests_sent w;
     environ := environ w; trace := trace w ++ [e] |}.

Definition count_request (w : World) : World :=
  {| db := db w; clock := clock w; clock_reads := clock_reads w;
     network := network w; requests_sent := S (requests_sent w);
     environ := environ w; trace := trace w |}.

(** Computations that may raise and that change the world; the world
    survives an exception. *)
Definition M (A : Type) : Type := World -> outcome A * World.

Definition ret {A} (a : A) : M A := fun w => (Returned a, w).

Definition bind {A B} (c : M A) (k : A -> M B) : M B :=
  fun w =>
    match c w with
    | (Returned a, w') => k a w'
    | (Raised e, w') => (Raised e, w')
    end.

Definition raise {A} (e : exn) : M A := fun w => (Raised e, w).

Definition lift {A} (o : outcome A) : M A := fun w => (o, w).

(** [try: c  except Exception as e: h e] *)
Definition catch {A} (c : M A) (h : exn -> M A) : M A :=
  fun w =>
    match c w with
    | (Returned a, w') => (Returned a, w')
    | (Raised e, w') => h e w'
    end.

(** [try: c  finally: f] *)
Definition finally {A} (c : M A) (f : M unit) : M A :=
  fun w =>
    match c w with
    | (r, w') =>
      match f w' with
      | (Returned _, w'') => (r, w'')
      | (Raised e, w'') => (Raised e, w'')
      end
    end.

Declare Scope world_scope.
Delimit Scope world_scope with world.
Notation "'do' x <- c ; k" := (bind c (fun x => k))
  (at level 10, x name, c at level 100, k at level 200) : world_scope.
Notation "'do' ' p <- c ; k" := (bind c (fun x => match x with p => k end))
  (at level 10, p pattern, c at level 100, k at level 200) : world_scope.
Notation "'run' c ; k" := (bind c (fun _ => k))
  (at level 10, c at level 100, k at level 200) : world_scope.
Local Open Scope world_scope.

(** A block of statements that assigns local variables of type [S]: it
    ends normally or by an exception, and either way the variables hold
    what the statements run so far gave them. *)
Definition block (S : Type) : Type := World -> (S * option exn) * World.

(** A computation whose result is assigned only when it returns. *)
Definition assign {S} (s : S) (c : M S) : block S :=
  fun w =>
    match c w with
    | (Returned s', w') => ((s', None), w')
    | (Raised e, w') => ((s, Some e), w')
    end.

(** [for x in xs: body]; an iteration that raises ends the loop. *)
Fixpoint for_in {S X} (body : S -> X -> block S) (xs : list X) (s : S) : block S :=
  fun w =>
    match xs with
    | [] => ((s, None), w)
    | x :: rest =>
      match body s x w with
      | ((s', None), w') => for_in body rest s' w'
      | ((s', Some e), w') => ((s', Some e), w')
      end
    end.

(** [x = c] followed by a block that uses [x]. *)
Definition after {A S} (c : M A) (k : A -> block S) (s : S) : block S :=
  fun w =>
    match c w with
    | (Returned a, w') => k a w'
    | (Raised e, w') => ((s, Some e), w')
    end.

(** A block as a statement of a function: an exception leaves the function. *)
Definition propagate {S} (b : block S) : M S :=
  fun w =>
    match b w with
    | ((s, None), w') => (Returned s, w')
    | ((_, Some e), w') => (Raised e, w')
    end.

(** [try: b  except Exception as e: LOG...(e)]: the handler only logs. *)
Definition try_log {S} (b : block S) : M S :=
  fun w =>
    match b w with
    | ((s, _), w') => (Returned s, w')
    end.

(** A loop whose body assigns its variables only at the end of an
    iteration, as a statement of a function. *)
Definition for_each {S X} (body : S -> X -> M S) (xs : list X) (s : S) : M S :=
  propagate (for_in (fun s x => assign s (body s x)) xs s).

(** The methods of the requests a trace holds, in the order sent. *)
Definition sent_methods (t : list event) : list method :=
  omap (fun e => match e with Sent r => Some (req_method r) | _ => None end) t.

(** [int(time.time())] *)
Definition time_now : M Z :=
  fun w => (Returned (clock w (clock_reads w)), tick_clock w).

(** [os.getenv(key, dflt)] *)
Definition getenv (key dflt : str) : M str :=
  fun w => (Returned (default dflt (environ w key)), w).

(** One request through an [httpx.AsyncClient]. *)
Definition send (r : Request) : M Response :=
  fun w => (network w (requests_sent w) r, count_request (record (Sent r) w)).

Definition http_get (url : str) (headers : list (str * str))
    (params : list (str * json)) (timeout : Z) (follow : bool) : M Response :=
  send {| req_method := GET; req_url := url; req_headers := headers;
          req_params := params; req_data := []; req_json := None;
          req_timeout := timeout; req_follow_redirects := follow |}.

Definition http_post_form (url : str) (data : list (str * str))
    (timeout : Z) : M Response :=
  send {| req_method := POST; req_url := url; req_headers := [];
          req_params := []; req_data := data; req_json := None;
          req_timeout := timeout; req_follow_redirects := false |}.

(** [async with _DL_SEMAPHORE: body] *)
Definition with_dl_semaphore {A} (body : M A) : M A :=
  run (fun w => (Returned tt, record Acquired w));
  finally body (fun w => (Returned tt, record Released w)).

(** How the database driver adapts a Python object bound as a parameter:
    an [int] must fit in 64 bits; lists and dicts are not bindable. *)
Definition adapt (j : json) : outcome value :=
  match j with
  | JNull => Returned VNone
  | JBool b => Returned (VInt (if b then 1 else 0))
  | JInt z => bind_parameter (VInt z)
  | JStr s => Returned (VStr s)
  | JList _ | JDict _ => Raised LibraryError
  end.

(** The five keys [save_connection] reads from the token dict. *)
Definition token_keys : list str :=
  [py "access_token"; py "refresh_token"; py "token_type"; py "scope";
   py "expires_at"].

Definition bind_token (token : list (str * json)) : outcome (gmap str value) :=
  Extract.ofold_left (fun m k =>
      match assoc token k with
      | None => Returned m
      | Some j => obind (adapt j) (fun v => Returned (<[k := v]> m))
      end)
    token_keys ∅.

Section WithRuntime.
Context `{Runtime}.

(** [storage.save_connection] as the providers call it: the clock is read,
    the parameters are bound, the row is written.  The database is as it
    was when the statement raises. *)
Definition save_connection (user_name_ provider_ : str)
    (token : list (str * json)) (provider_account_id_ provider_account_email_ : value)
    (meta : option json) : M bool :=
  do now <- time_now;
  do params <- lift (bind_token token);
  fun w =>
    match Storage.save_connection now (db w) user_name_ provider_ params
            provider_account_id_ provider_account_email_ meta with
    | Returned db' => (Returned true, set_db db' w)
    | Raised e => (Raised e, w)
    end.

Definition get_connection_row (user_name_ provider_ : str)
    : M (option connection) :=
  fun w => (Returned (Storage.get_connection_row (db w) user_name_ provider_), w).

Definition get_provider_token (user_name_ provider_ : str)
    : M (option connection) :=
  get_connection_row user_name_ provider_.

Definition cache_document (user_name_ provider_ : str)
    (doc_id_ doc_title_ content_preview_ : json) : M unit :=
  do now <- time_now;
  do d <- lift (adapt doc_id_);
  do t <- lift (adapt doc_title_);
  do c <- lift (adapt content_preview_);
  fun w =>
    match Storage.cache_document now (db w) user_name_ provider_ d t c VNone with
    | Returned db' => (Returned tt, set_db db' w)
    | Raised e => (Raised e, w)
    end.

End WithRuntime.
End Effects.

(** ** Provider adapters ([backend/providers.py]) *)
Module Providers.
Import Storage Effects Extract.
Local Open Scope world_scope.

(** A document as the adapters return it: a dict. *)
Abbreviation doc := (list (str * json)).

Definition MAX_PREVIEW_BYTES : Z := 8 * 1024 * 1024.

Section WithRuntime.
Context `{Runtime}.

(** *** Truth values, [int()], [str()] of stored and of JSON values *)

Definition value_truthy (v : value) : bool :=
  match v with
  | VNone => false
  | VInt z => negb (z =? 0)
  | VStr s => nonempty s
  | VReal x => negb (real_is_zero x)
  end.

(** [a or b] on cells *)
Definition vor (a b : value) : value := if value_truthy a then a else b.

Definition int_of_value (v : value) : outcome Z :=
  match v with
  | VInt z => Returned z
  | VStr s => int_of_str s
  | VReal x => int_of_real x
  | VNone => Raised TypeError
  end.

Definition int_of_json (j : json) : outcome Z :=
  match j with
  | JInt z => Returned z
  | JBool b => Returned (if b then 1 else 0)
  | JStr s => int_of_str s
  | _ => Raised TypeError
  end.

Definition str_of_value (v : value) : str :=
  match v with
  | VNone => py "None"
  | VInt z => str_of_Z z
  | VStr s => s
  | VReal x => str_of_real x
  end.

Definition str_of_json (j : json) : str :=
  match j with
  | JNull => py "None"
  | JBool true => py "True"
  | JBool false => py "False"
  | JInt z => str_of_Z z
  | JStr s => s
  | _ => repr_container j
  end.

(** A method of [str] called on an object: [AttributeError] on anything else. *)
Definition as_str (j : json) : outcome str :=
  match j with
  | JStr s => Returned s
  | _ => Raised AttributeError
  end.

(** [obj[:k]] *)
Definition slice_json (obj : json) (k : Z) : outcome (list json) :=
  match obj with
  | JList l => Returned (slice_to k l)
  | _ => Raised TypeError
  end.

(** The [title] argument of [text_preview]: [title or ""] accepts every
    false object, [.lower()] needs a string. *)
Definition preview_of (title : json) (data : bytes) : outcome str :=
  if truthy title
  then obind (as_str title) (fun s => text_preview (Some s) data 600)
  else text_preview None data 600.

(** *** Common helpers *)

(** [_json_load_maybe(raw)] on a cell *)
Definition _json_load_maybe (raw : value) : json :=
  match raw with
  | VStr s => match json_loads s with
              | Returned j => j
              | Raised _ => JDict []
              end
  | _ => JDict []
  end.

(** [get_provider_token(...) or {}]; the empty dict is [None] here. *)
Definition _read_token_row (user_name_ provider_ : str)
    : M (option connection) :=
  Effects.get_provider_token user_name_ provider_.

(** The dict [_extract_tokens] returns; [None] is the empty dict.  A row
    read from the table has all its columns, so the function always takes
    its first [return] and never looks into [meta_json]. *)
Record tokens : Type := {
  tok_access_token : value;
  tok_refresh_token : value;
  tok_expires_at : Z;
  tok_scope : value;
  tok_token_type : value;
}.

Definition _extract_tokens (row : option connection) : outcome (option tokens) :=
  match row with
  | None => Returned None
  | Some r =>
    obind (int_of_value (vor (expires_at r) (VInt 0))) (fun e =>
    Returned (Some {|
      tok_access_token := access_token r;
      tok_refresh_token := refresh_token r;
      tok_expires_at := e;
      tok_scope := scope r;
      tok_token_type := vor (token_type r) (VStr (py "Bearer"));
    |}))
  end.

(** [tok.get("access_token")], [tok.get("refresh_token")],
    [tok.get("expires_at") or 0] *)
Definition get_access_token (tok : option tokens) : value :=
  from_option tok_access_token VNone tok.

Definition get_refresh_token (tok : option tokens) : value :=
  from_option tok_refresh_token VNone tok.

Definition get_expires_at (tok : option tokens) : Z :=
  from_option tok_expires_at 0 tok.

(** [x.strip()] for what [... or ""] left *)
Definition strip_value (v : value) : outcome str :=
  match v with
  | VStr s => Returned (strip s)
  | _ => Raised AttributeError
  end.

(** [_http_get_bytes(url, headers=None, timeout=60)] *)
Definition _http_get_bytes (url : json) (headers : option (list (str * str)))
    (timeout : Z) : M bytes :=
  with_dl_semaphore
    (catch
       (do u <- lift (match url with
                      | JStr s => Returned s
                      | _ => Raised TypeError
                      end);
        do r <- http_get u (default [] headers) [] timeout true;
        ret (if status_code r =? 200 then content r else []))
       (fun _ => ret [])).

Definition _get_google_env : M (str * str) :=
  do cid <- getenv (py "GOOGLE_CLIENT_ID") [];
  do csec <- getenv (py "GOOGLE_CLIENT_SECRET") [];
  ret (cid, csec).

(** The dict [new_tokens] both [refresh_token] methods build from the token
    endpoint's answer [tok], the refresh token [rt] in use and the clock. *)
Definition new_tokens_of (tok : json) (rt : str) (now : Z)
    : outcome (list (str * json)) :=
  obind (get tok (py "access_token") JNull) (fun at_ =>
  obind (get tok (py "refresh_token") JNull) (fun rt_ =>
  obind (get tok (py "scope") JNull) (fun sc =>
  obind (get tok (py "expires_in") (JInt 3600)) (fun ei =>
  obind (int_of_json ei) (fun e =>
  Returned [ (py "access_token", at_);
             (py "refresh_token", por rt_ (JStr rt));
             (py "scope", sc);
             (py "expires_at", JInt (now + e)) ]))))).

End WithRuntime.
End Providers.

(** *** Google Drive *)
Module GoogleProvider.
Import Storage Effects Extract Providers.
Local Open Scope world_scope.

Definition name : str := py "google".
Definition TOKEN_URL : str := py "https://oauth2.googleapis.com/token".
Definition FILES_URL : str := py "https://www.googleapis.com/drive/v3/files".

Section WithRuntime.
Context `{Runtime}.

Definition refresh_token (user_name_ : str) : M unit :=
  do row <- _read_token_row user_name_ name;
  do rt_obj <-
    (let direct := from_option Storage.refresh_token VNone row in
     if value_truthy direct then ret direct
     else do tok <- lift (_extract_tokens row);
          ret (vor (get_refresh_token tok) (VStr [])));
  do rt <- lift (strip_value rt_obj);
  if negb (nonempty rt) then ret tt
  else
    do ' (cid, csec) <- _get_google_env;
    if negb (nonempty cid) || negb (nonempty csec)
    then raise (RuntimeError (py "Google Client ID/Secret not configured"))
    else
      do r <- http_post_form TOKEN_URL
                [ (py "grant_type", py "refresh_token");
                  (py "refresh_token", rt);
                  (py "client_id", cid);
                  (py "client_secret", csec) ] 20;
      if negb (status_code r =? 200) then ret tt
      else
        do tok <- lift (json_body r);
        do now <- time_now;
        do new_tokens <- lift (new_tokens_of tok rt now);
        run Effects.save_connection user_name_ name new_tokens VNone VNone None;
        ret tt.

Definition _get_valid_token (user_name_ : str) : M value :=
  do row <- _read_token_row user_name_ name;
  do tok <- lift (_extract_tokens row);
  do now <- time_now;
  do tok <-
    (if get_expires_at tok <? now + 60
     then run refresh_token user_name_;
          do row <- _read_token_row user_name_ name;
          lift (_extract_tokens row)
     else ret tok);
  ret (vor (get_access_token tok) (VStr [])).

(** The character class [[a-zA-Z0-9_-]]. *)
Definition is_id_char (c : N) : bool :=
  ((97 <=? c) && (c <=? 122) || (65 <=? c) && (c <=? 90)
   || (48 <=? c) && (c <=? 57) || (c =? 95) || (c =? 45))%N.

Fixpoint take_while (f : N -> bool) (s : str) : str :=
  match s with
  | [] => []
  | c :: t => if f c then c :: take_while f t else []
  end.

(** [re.search(prefix + "([a-zA-Z0-9_-]+)", s)]: group 1 of the leftmost
    match. *)
Fixpoint search_id_after (prefix s : str) : option str :=
  match s with
  | [] => None
  | _ :: t =>
    let group := take_while is_id_char (skipn (length prefix) s) in
    if startswith s prefix && nonempty group then Some group
    else search_id_after prefix t
  end.

(** [re.match(r"^[a-zA-Z0-9_-]{20,}$", s)]; [$] also matches before a
    final newline. *)
Definition looks_like_id (s : str) : bool :=
  let run_ := take_while is_id_char s in
  (20 <=? length run_)%nat
  && (bool_decide (run_ = s) || bool_decide (run_ ++ [10%N] = s)).

Definition _extract_id_from_link (link : str) : option str :=
  let patterns := [ py "/folders/"; py "/file/d/"; py "/document/d/";
                    py "/spreadsheets/d/"; py "/presentation/d/"; py "id=" ] in
  match list_find (fun p => bool_decide (is_Some (search_id_after p link))) patterns with
  | Some (_, p) => search_id_after p link
  | None => if looks_like_id link then Some link else None
  end.

Definition bearer (token : value) : list (str * str) :=
  [ (py "Authorization", py "Bearer " ++ str_of_value token) ].

(** [r.json() if r.status_code == 200 else None] *)
Definition _get_file_metadata (token : value) (file_id : json) : M json :=
  do r <- http_get (FILES_URL ++ py "/" ++ str_of_json file_id) (bearer token)
            [ (py "fields", JStr (py "id,name,mimeType,size")) ] 20 false;
  if status_code r =? 200 then lift (json_body r) else ret JNull.

(** [r.content if r.status_code == 200 else None] *)
Definition _download_file (token : value) (file_id : json) : M (option bytes) :=
  do r <- http_get (FILES_URL ++ py "/" ++ str_of_json file_id) (bearer token)
            [ (py "alt", JStr (py "media")) ] 120 true;
  ret (if status_code r =? 200 then Some (content r) else None).

Definition export_map : list (str * str) :=
  [ (py "application/vnd.google-apps.document",
     py "application/vnd.openxmlformats-officedocument.wordprocessingml.document");
    (py "application/vnd.google-apps.spreadsheet",
     py "application/vnd.openxmlformats-officedocument.spreadsheetml.sheet");
    (py "application/vnd.google-apps.presentation",
     py "application/vnd.openxmlformats-officedocument.presentationml.presentation") ].

Definition _export_native_file (token : value) (file_id : json) (mime : str)
    : M (option bytes) :=
  let target := default (py "application/pdf") (assoc export_map mime) in
  do r <- http_get (FILES_URL ++ py "/" ++ str_of_json file_id ++ py "/export")
            (bearer token) [ (py "mimeType", JStr target) ] 120 true;
  ret (if status_code r =? 200 then Some (content r) else None).

Definition _list_folder (token : value) (folder_id : str) (limit : Z) : M json :=
  let query := py "'" ++ folder_id ++ py "' in parents and trashed = false" in
  do r <- http_get FILES_URL (bearer token)
            [ (py "q", JStr query); (py "pageSize", JInt limit);
              (py "fields", JStr (py "files(id,name,mimeType,size)")) ] 30 false;
  if negb (status_code r =? 200) then ret (JList [])
  else do js <- lift (json_body r); lift (get js (py "files") (JList [])).

(** [if data:] for an optional byte string *)
Definition some_bytes (data : option bytes) : option bytes :=
  match data with
  | Some (b :: t) => Some (b :: t)
  | _ => None
  end.

(** The [try] block that fills [preview] for one item; [file_id] is [f["id"]]
    in a folder listing (a missing key raises inside the block) and the id
    taken from the link for a single file. *)
Definition item_preview (token : value) (name_ mt : json) (size : Z)
    (file_id : outcome json) : M str :=
  catch
    (do mime <- lift (as_str mt);
     if startswith mime (py "application/vnd.google-apps.") then
       do fid <- lift file_id;
       do data <- _export_native_file token fid mime;
       match some_bytes data with
       | Some d =>
         let ext := if contains mime (py "document") then py ".docx"
                    else if contains mime (py "spreadsheet") then py ".xlsx"
                    else py ".pptx" in
         match name_ with
         | JStr n => lift (text_preview (Some (n ++ ext)) d 600)
         | _ => raise TypeError
         end
       | None => ret []
       end
     else if size <=? MAX_PREVIEW_BYTES then
       do fid <- lift file_id;
       do data <- _download_file token fid;
       match some_bytes data with
       | Some d => lift (preview_of name_ d)
       | None => ret []
       end
     else ret [])
    (fun _ => ret []).

Definition type_placeholder (mt : json) : str :=
  [ 91; 0xC720; 0xD615; 58; 32 ]%N ++ str_of_json mt ++ py "]".

Definition make_doc (id_ name_ mt : json) (preview : str) : doc :=
  [ (py "id", id_); (py "title", name_); (py "mimeType", mt);
    (py "content", JStr (if nonempty preview then preview else type_placeholder mt)) ].

Definition enumerate_from_link (user_name_ link : str) (max_files : Z)
    : M (list doc) :=
  do token <- _get_valid_token user_name_;
  if negb (value_truthy token) then ret []
  else
    match _extract_id_from_link link with
    | None => ret []
    | Some item_id =>
      if negb (nonempty item_id) then ret []
      else
        do meta <- _get_file_metadata token (JStr item_id);
        if negb (truthy meta) then ret []
        else
          do mime <- lift (get meta (py "mimeType") (JStr []));
          do is_folder <- lift (key_in (py "application/vnd.google-apps.folder") mime);
          if is_folder then
            do files <- _list_folder token item_id max_files;
            do fs <- lift (iterate files);
            for_each (fun docs f =>
                do name_ <- lift (get f (py "name") (JStr []));
                do mt <- lift (get f (py "mimeType") (JStr []));
                do sz <- lift (get f (py "size") JNull);
                do size <- lift (int_of_json (por sz (JInt 0)));
                do preview <- item_preview token name_ mt size (getitem f (py "id"));
                do id_ <- lift (getitem f (py "id"));
                ret (docs ++ [make_doc id_ name_ mt preview]))
              fs []
          else
            do name_ <- lift (get meta (py "name") (JStr []));
            do mt <- lift (get meta (py "mimeType") (JStr []));
            do sz <- lift (get meta (py "size") JNull);
            do size <- lift (int_of_json (por sz (JInt 0)));
            do preview <- item_preview token name_ mt size (Returned (JStr item_id));
            ret [make_doc (JStr item_id) name_ mt preview]
    end.

End WithRuntime.
End GoogleProvider.

(** *** OneDrive *)
Module OneDriveProvider.
Import Storage Effects Extract Providers.
Local Open Scope world_scope.

Definition name : str := py "onedrive".
Definition GRAPH_BASE : str := py "https://graph.microsoft.com/v1.0".

(** [f"https://login.microsoftonline.com/{ONEDRIVE_TENANT}/oauth2/v2.0/token"] *)
Definition ONEDRIVE_TOKEN_URL (tenant : str) : str :=
  py "https://login.microsoftonline.com/" ++ tenant ++ py "/oauth2/v2.0/token".

Section WithRuntime.
Context `{Runtime}.

Definition refresh_token (user_name_ : str) : M unit :=
  do row <- _read_token_row user_name_ name;
  do tok <- lift (_extract_tokens row);
  do rt <- lift (strip_value (vor (get_refresh_token tok) (VStr [])));
  if negb (nonempty rt)
  then raise (RuntimeError (py "onedrive refresh_token not found"))
  else
    do cid <- getenv (py "ONEDRIVE_CLIENT_ID") [];
    do csec <- getenv (py "ONEDRIVE_CLIENT_SECRET") [];
    if negb (nonempty cid) || negb (nonempty csec)
    then raise (RuntimeError (py "ONEDRIVE_CLIENT_ID/SECRET not configured"))
    else
      do tenant <- getenv (py "ONEDRIVE_TENANT") (py "common");
      do r <- http_post_form (ONEDRIVE_TOKEN_URL tenant)
                [ (py "client_id", cid);
                  (py "client_secret", csec);
                  (py "grant_type", py "refresh_token");
                  (py "refresh_token", rt) ] 30;
      if negb (status_code r =? 200)
      then raise (RuntimeError (py "OneDrive token refresh failed: " ++ text r))
      else
        do js <- lift (json_body r);
        do now <- time_now;
        do new_tokens <- lift (new_tokens_of js rt now);
        run Effects.save_connection user_name_ name new_tokens VNone VNone None;
        ret tt.

Definition _get_valid_token (user_name_ : str) : M value :=
  do row <- _read_token_row user_name_ name;
  do tok <- lift (_extract_tokens row);
  do now <- time_now;
  do tok <-
    (if get_expires_at tok <? now + 60
     then run refresh_token user_name_;
          do row <- _read_token_row user_name_ name;
          lift (_extract_tokens row)
     else ret tok);
  ret (vor (get_access_token tok) (VStr [])).

(** [b64.rstrip("=")] *)
Fixpoint lstrip_char (c : N) (s : str) : str :=
  match s with
  | [] => []
  | x :: t => if (x =? c)%N then lstrip_char c t else s
  end.

Definition rstrip_char (c : N) (s : str) : str := rev (lstrip_char c (rev s)).

Definition _to_share_id (link : str) : option str :=
  match urlsafe_b64encode_utf8 link with
  | Returned b64 => Some (py "u!" ++ rstrip_char 61 b64)
  | Raised _ => None
  end.

Definition folder_title (name_ : json) : str :=
  [ 91; 0xD3F4; 0xB354; 93; 32 ]%N ++ str_of_json name_.

Definition bearer (token : value) : list (str * str) :=
  [ (py "Authorization", py "Bearer " ++ str_of_value token) ].

Definition listing_url (folder_id : str) : str :=
  if bool_decide (folder_id = py "root")
  then GRAPH_BASE ++ py "/me/drive/root/children"
  else GRAPH_BASE ++ py "/me/drive/items/" ++ folder_id ++ py "/children".

(** The listing request of [list_my_drive] with a given token. *)
Definition listing_request (folder_id : str) (limit : Z) (token : value) : Request :=
  {| req_method := GET; req_url := listing_url folder_id;
     req_headers := bearer token;
     req_params := [ (py "$top", JInt limit) ];
     req_data := []; req_json := None;
     req_timeout := 20; req_follow_redirects := false |}.

(** The end of [list_my_drive]: the documents of a 200 answer.  Nothing
    here touches the world. *)
Definition drive_items (r : Response) (limit : Z) : outcome (list doc) :=
  obind (json_body r) (fun js =>
  obind (get js (py "value") (JList [])) (fun value_ =>
  obind (slice_json value_ limit) (fun its =>
  ofold_left (fun docs it =>
      obind (get it (py "name") (JStr [])) (fun name_ =>
      obind (key_in (py "folder") it) (fun is_folder =>
      obind (getitem it (py "id")) (fun id_ =>
      if is_folder
      then Returned (docs ++ [[ (py "id", id_);
                                (py "title", JStr (folder_title name_));
                                (py "content", JStr []) ]])
      else Returned (docs ++ [[ (py "id", id_); (py "title", name_);
                                (py "content", JStr (py "[OneDrive item]")) ]])))))
    its []))).

Definition list_my_drive (user_name_ folder_id : str) (limit : Z) : M (list doc) :=
  do token <- _get_valid_token user_name_;
  do r <- send (listing_request folder_id limit token);
  do r <-
    (if status_code r =? 401
     then run refresh_token user_name_;
          do token <- _get_valid_token user_name_;
          send (listing_request folder_id limit token)
     else ret r);
  if negb (status_code r =? 200) then ret []
  else lift (drive_items r limit).

(** Step 1 of [enumerate_from_link], the body of the [try] after a 200
    answer: the children of the shared item, appended to [docs] one by one. *)
Definition share_children (item : json) (max_files : Z)
    : block (list doc) :=
  fun w =>
    match
      obind (get item (py "children") JNull) (fun a =>
      obind (if truthy a then Returned a
             else obind (get item (py "value") JNull) (fun b =>
                  Returned (por b (JList [])))) (fun children =>
      slice_json children max_files))
    with
    | Raised e => (([], Some e), w)
    | Returned chs =>
      for_in (fun docs ch => assign docs (
          do name_ <- lift (get ch (py "name") (JStr []));
          do is_folder <- lift (key_in (py "folder") ch);
          if is_folder then
            do id_ <- lift (getitem ch (py "id"));
            ret (docs ++ [[ (py "id", id_); (py "title", JStr (folder_title name_));
                            (py "content", JStr []) ]])
          else
            do a <- lift (get ch (py "@content.downloadUrl") JNull);
            do dl <- (if truthy a then ret a
                      else do b <- lift (get ch (py "@microsoft.graph.downloadUrl") JNull);
                           ret (por b (JStr [])));
            do preview <-
              (if truthy dl
               then catch
                      (do data <- _http_get_bytes dl None 60;
                       match data with
                       | [] => ret []
                       | _ => lift (preview_of name_ data)
                       end)
                      (fun _ => ret [])
               else ret []);
            do id_ <- lift (getitem ch (py "id"));
            ret (docs ++ [[ (py "id", id_); (py "title", name_);
                            (py "content",
                             JStr (if nonempty preview then preview
                                   else py "[OneDrive file]")) ]])))
        chs [] w
    end.

Definition enumerate_from_link (user_name_ link : str) (max_files : Z)
    : M (list doc) :=
  fun w =>
    (* 1) the public shares API *)
    let '(docs, early, w1) :=
      match _to_share_id link with
      | None => ([], false, w)
      | Some share_id =>
        match http_get (py "https://api.onedrive.com/v1.0/shares/" ++ share_id
                        ++ py "/driveItem?expand=children") [] [] 30 true w with
        | (Raised _, w') => ([], false, w')
        | (Returned r, w') =>
          if status_code r =? 200 then
            match json_body r with
            | Raised _ => ([], false, w')
            | Returned item =>
              match share_children item max_files w' with
              | ((docs, None), w'') =>
                (docs, match docs with [] => false | _ => true end, w'')
              | ((docs, Some _), w'') => (docs, false, w'')
              end
            end
          else ([], false, w')
        end
      end in
    if early then (Returned docs, w1)
    else
      (* 2) the user's own drive through the Graph API *)
      match list_my_drive user_name_ (py "root") max_files w1 with
      | (Returned docs', w2) => (Returned docs', w2)
      | (Raised _, w2) => (Returned docs, w2)
      end.

End WithRuntime.
End OneDriveProvider.

(** *** Notion *)
Module NotionProvider.
Import Storage Effects Extract Providers.
Local Open Scope world_scope.

Definition name : str := py "notion".
Definition NOTION_API_SEARCH : str := py "https://api.notion.com/v1/search".
Definition NOTION_VERSION : str := py "2022-06-28".

(** ["제목 없음"] *)
Definition untitled : str := [ 0xC81C; 0xBAA9; 32; 0xC5C6; 0xC74C ]%N.

Section WithRuntime.
Context `{Runtime}.

Definition _get_token (user_name_ : str) : M value :=
  do row <- _read_token_row user_name_ name;
  let direct := from_option Storage.access_token VNone row in
  if value_truthy direct then ret direct
  else do tok <- lift (_extract_tokens row);
       ret (vor (get_access_token tok) (VStr [])).

(** [x[0].get("plain_text")] is true: then the title is [x[0]["plain_text"]]. *)
Definition first_plain_text (x : json) : outcome (option json) :=
  if truthy x then
    obind (getitem0 x) (fun x0 =>
    obind (get x0 (py "plain_text") JNull) (fun p =>
    if truthy p then obind (getitem x0 (py "plain_text")) (fun t => Returned (Some t))
    else Returned None))
  else Returned None.

(** The scan of [props.items()] for the first property of type [title]
    with a text; [None] when the loop ends without [break]. *)
Fixpoint scan_properties (props : list (str * json)) : outcome (option json) :=
  match props with
  | [] => Returned None
  | (_, v) :: rest =>
    if truthy v then
      obind (get v (py "type") JNull) (fun ty =>
      if eq_str ty (py "title") then
        obind (get v (py "title") JNull) (fun t =>
        obind (first_plain_text (por t (JList []))) (fun found =>
        match found with
        | Some title => Returned (Some title)
        | None => scan_properties rest
        end))
      else scan_properties rest)
    else scan_properties rest
  end.

(** The [try] block of [search_pages] that computes [title]. *)
Definition title_of (item : json) : json :=
  match
    obind (get item (py "object") JNull) (fun kind =>
    if eq_str kind (py "page") then
      obind (get item (py "properties") JNull) (fun p =>
      obind (items (por p (JDict []))) scan_properties)
    else if eq_str kind (py "database") then
      obind (get item (py "title") JNull) (fun tt =>
      first_plain_text (por tt (JList [])))
    else Returned None)
  with
  | Returned (Some t) => t
  | _ => JStr untitled
  end.

Definition search_pages (user_name_ query : str) (limit : Z) : M (list doc) :=
  do token <- _get_token user_name_;
  if negb (value_truthy token) then ret []
  else
    let headers :=
      [ (py "Authorization", py "Bearer " ++ str_of_value token);
        (py "Notion-Version", NOTION_VERSION);
        (py "Content-Type", py "application/json") ] in
    let payload :=
      JDict [ (py "query", JStr query);
              (py "page_size", JInt limit);
              (py "sort", JDict [ (py "direction", JStr (py "descending"));
                                  (py "timestamp", JStr (py "last_edited_time")) ]) ] in
    do r <- send {| req_method := POST; req_url := NOTION_API_SEARCH;
                    req_headers := headers; req_params := []; req_data := [];
                    req_json := Some payload; req_timeout := 20;
                    req_follow_redirects := false |};
    if negb (status_code r =? 200) then ret []
    else
      do data <- lift (json_body r);
      do results <- lift (get data (py "results") (JList []));
      do its <- lift (iterate results);
      for_each (fun docs item =>
          do url <- lift (get item (py "url") (JStr []));
          do last_edited <- lift (get item (py "last_edited_time") (JStr []));
          let title := title_of item in
          do id_ <- lift (get item (py "id") (JStr []));
          do kind <- lift (get item (py "object") (JStr (py "page")));
          ret (docs ++ [[ (py "id", id_); (py "title", title); (py "url", url);
                          (py "last_edited_time", last_edited);
                          (py "content",
                           JStr (py "[Notion " ++ str_of_json kind ++ py "]")) ]]))
        its [].

Definition enumerate_from_link (user_name_ link : str) (max_files : Z)
    : M (list doc) :=
  search_pages user_name_ [] max_files.

End WithRuntime.
End NotionProvider.

(** *** The registry *)
Module Registry.
Import Storage Effects Extract Providers.
Local Open Scope world_scope.

Section WithRuntime.
Context `{Runtime}.

(** A provider object, as far as the registry uses it. *)
Record Provider : Type := {
  provider_name : str;
  enumerate_from_link : str -> str -> Z -> M (list doc);
}.

Definition REGISTRY : list (str * Provider) :=
  [ (py "google",
     {| provider_name := GoogleProvider.name;
        enumerate_from_link := GoogleProvider.enumerate_from_link |});
    (py "onedrive",
     {| provider_name := OneDriveProvider.name;
        enumerate_from_link := OneDriveProvider.enumerate_from_link |});
    (py "notion",
     {| provider_name := NotionProvider.name;
        enumerate_from_link := NotionProvider.enumerate_from_link |}) ].

(** [get_documents_from_provider(user_name, provider, link="", max_files=30)] *)
Definition get_documents_from_provider (user_name_ provider_ link : str)
    (max_files : Z) : M (list doc) :=
  match assoc REGISTRY (lower provider_) with
  | None => ret []
  | Some p => enumerate_from_link p user_name_ link max_files
  end.

End WithRuntime.
End Registry.

(** ** Document collection of [chat_ask] ([backend/chat_router.py]) *)
Module ChatRouter.
Import Storage Effects Extract Providers Registry.
Local Open Scope world_scope.

Record AskRequest : Type := {
  ask_user_name : str;
  ask_question : str;
  ask_provider : option str;
  ask_link : option str;
  ask_max_docs : option Z;
}.

Section WithRuntime.
Context `{Runtime}.

(** [req.max_docs or 10] *)
Definition max_docs_or_10 (m : option Z) : Z :=
  match m with
  | Some z => if z =? 0 then 10 else z
  | None => 10
  end.

(** [providers_to_check]: the provider asked for, or in automatic mode
    every provider with a stored connection. *)
Definition providers_to_check (req : AskRequest) (user_name_ : str)
    : M (list str) :=
  match ask_provider req with
  | Some p =>
    if nonempty p && negb (bool_decide (p = py "auto")) then ret [lower p]
    else
      for_each (fun ps p =>
          do row <- Effects.get_connection_row user_name_ p;
          ret (if bool_decide (is_Some row) then ps ++ [p] else ps))
        [py "google"; py "onedrive"; py "notion"] []
  | None =>
    for_each (fun ps p =>
        do row <- Effects.get_connection_row user_name_ p;
        ret (if bool_decide (is_Some row) then ps ++ [p] else ps))
      [py "google"; py "onedrive"; py "notion"] []
  end.

(** The entry appended to [sources_used]. *)
Definition source_of (provider_ : str) (d : doc) : doc :=
  [ (py "provider", JStr provider_);
    (py "title", default (JStr []) (assoc d (py "title")));
    (py "id", default (JStr []) (assoc d (py "id"))) ].

(** [doc.get("content", "")[:500]] *)
Definition content_preview_of (d : doc) : outcome json :=
  match default (JStr []) (assoc d (py "content")) with
  | JStr s => Returned (JStr (slice_to 500 s))
  | JList l => Returned (JList (slice_to 500 l))
  | _ => Raised TypeError
  end.

(** One iteration of [for doc in docs]: the document is tagged and appended
    to [all_docs] and [sources_used] before it is cached, so it stays there
    when caching raises. *)
Definition collect_doc (user_name_ provider_ : str)
    (acc : list doc * list doc) (d : doc) : block (list doc * list doc) :=
  let d' := dict_set d (py "provider") (JStr provider_) in
  let acc' := (fst acc ++ [d'], snd acc ++ [source_of provider_ d']) in
  assign acc'
    (do preview <- lift (content_preview_of d');
     run Effects.cache_document user_name_ provider_
           (default (JStr []) (assoc d' (py "id")))
           (default JNull (assoc d' (py "title")))
           preview;
     ret acc').

(** The body of [for provider in providers_to_check]: a [try] whose handler
    logs a warning. *)
Definition collect_provider (user_name_ link : str) (max_files : Z)
    (acc : list doc * list doc) (provider_ : str) : M (list doc * list doc) :=
  try_log
    (after (get_documents_from_provider user_name_ provider_ link max_files)
       (fun docs => for_in (collect_doc user_name_ provider_) docs acc)
       acc).

(** The loop that fills [all_docs] and [sources_used]. *)
Definition collect_documents (user_name_ link : str) (max_files : Z)
    (providers : list str) (acc : list doc * list doc)
    : M (list doc * list doc) :=
  for_each (collect_provider user_name_ link max_files) providers acc.

(** [chat_ask] up to the end of document collection: the request is
    checked, the providers are chosen, the documents are collected.  An
    empty provider list is answered before the loop. *)
Definition chat_ask_documents (req : AskRequest)
    : M (list str * (list doc * list doc)) :=
  let user_name_ := strip (ask_user_name req) in
  let question := strip (ask_question req) in
  if negb (nonempty user_name_) || negb (nonempty question)
  then raise (HTTPException 400 (py "user_name과 question은 필수입니다"))
  else
    do ps <- providers_to_check req user_name_;
    match ps with
    | [] => ret ([], ([], []))
    | _ =>
      do acc <- collect_documents user_name_ (or_empty (ask_link req))
                  (max_docs_or_10 (ask_max_docs req)) ps ([], []);
      ret (ps, acc)
    end.

End WithRuntime.
End ChatRouter.

(** ** Chunk preparation of [chat_ask] ([backend/chat_router.py]) *)
Module ChatChunks.
Import Extract Providers.

Section WithRuntime.
Context `{Runtime}.

(** ["문서"], the title of a document without one. *)
Definition default_title : str := [ 0xBB38; 0xC11C ]%N.

(** One iteration of [for doc in all_docs]: the chunk [(title, content)],
    unless the content is empty or begins with ["["]. *)
Definition chunk_of (d : doc) : outcome (option (json * json)) :=
  let title := default (JStr default_title) (assoc d (py "title")) in
  let content := default (JStr []) (assoc d (py "content")) in
  if truthy content
  then obind (as_str content) (fun s =>
         Returned (if startswith s (py "[") then None else Some (title, content)))
  else Returned None.

(** The list [chunks] handed to [answer_with_gemini]. *)
Definition prepare_chunks (all_docs : list doc) : outcome (list (json * json)) :=
  ofold_left (fun chunks d =>
      obind (chunk_of d) (fun c =>
      Returned (match c with
                | Some x => chunks ++ [x]
                | None => chunks
                end)))
    all_docs [].

End WithRuntime.


End ChatChunks.

(** ** The OAuth callback of Google Drive ([backend/gdrive/auth_google.py]) *)
Module AuthGoogle.
Import Storage Effects Extract Providers.
Local Open Scope world_scope.

Definition DEFAULT_REDIRECT : str := py "http://localhost:8000/auth/google/callback".
Definition TOKEN_URL : str := py "https://oauth2.googleapis.com/token".
Definition USERINFO_URL : str := py "https://www.googleapis.com/oauth2/v2/userinfo".

Section WithRuntime.
Context `{Runtime}.

Definition _env : M (str * str * str) :=
  do cid <- getenv (py "GOOGLE_CLIENT_ID") [];
  do csec <- getenv (py "GOOGLE_CLIENT_SECRET") [];
  do ruri <- getenv (py "GOOGLE_REDIRECT_URI") DEFAULT_REDIRECT;
  ret (cid, csec, ruri).

(** [tok["expires_at"] = ...] needs a dict, which [tok.get] has checked. *)
Definition set_expires_at (tok : json) (v : Z) : json :=
  match tok with
  | JDict d => JDict (dict_set d (py "expires_at") (JInt v))
  | _ => tok
  end.

(** [save_connection(user_name=state, provider="google", token=tok,
    provider_account_id=..., provider_account_email=..., meta=...)] with
    the objects of the two answers as parameters. *)
Definition save_google_connection (state : str) (tok account_id email meta : json)
    : M bool :=
  do now <- time_now;
  do params <- lift (match tok with
                     | JDict d => bind_token d
                     | _ => Raised AttributeError
                     end);
  do pid <- lift (adapt account_id);
  do pemail <- lift (adapt email);
  fun w =>
    match Storage.save_connection now (db w) state (py "google") params
            pid pemail (Some meta) with
    | Returned db' => (Returned true, set_db db' w)
    | Raised e => (Raised e, w)
    end.

(** [callback(code, state, error=None)]; the result is the redirect to
    [/ui]. *)
Definition callback (code state : str) (error : option str) : M unit :=
  if nonempty (or_empty error)
  then raise (HTTPException 400 (py "OAuth error: " ++ or_empty error))
  else
    do ' (cid, csec, ruri) <- _env;
    if negb (nonempty cid) || negb (nonempty csec)
    then raise (HTTPException 500 (py "GOOGLE_CLIENT_ID/SECRET not configured"))
    else
      do r <- http_post_form TOKEN_URL
                [ (py "grant_type", py "authorization_code");
                  (py "code", code);
                  (py "redirect_uri", ruri);
                  (py "client_id", cid);
                  (py "client_secret", csec) ] 20;
      if negb (status_code r =? 200)
      then raise (HTTPException 400 (py "Token exchange failed: " ++ text r))
      else
        do tok <- lift (json_body r);
        do ei <- lift (get tok (py "expires_in") JNull);
        do tok <-
          (if truthy ei
           then do now <- time_now;
                do ei' <- lift (getitem tok (py "expires_in"));
                do e <- lift (int_of_json ei');
                ret (set_expires_at tok (now + e - 60))
           else ret tok);
        do access_token_ <- lift (get tok (py "access_token") JNull);
        if negb (truthy access_token_)
        then raise (HTTPException 400 (py "No access_token in response"))
        else
          do me <- http_get USERINFO_URL
                     [ (py "Authorization", py "Bearer " ++ str_of_json access_token_) ]
                     [] 15 false;
          do me_json <- (if status_code me =? 200 then lift (json_body me)
                         else ret (JDict []));
          do email <- lift (get me_json (py "email") (JStr []));
          do account_id <- lift (get me_json (py "id") (JStr []));
          do login_at <- time_now;
          do name_ <- lift (get me_json (py "name") (JStr []));
          run save_google_connection state tok account_id email
                (JDict [ (py "login_at", JInt login_at); (py "name", name_) ]);
          ret tt.

End WithRuntime.
End AuthGoogle.

(** ** Shapes of strings the properties below speak of *)
Module Shapes.

(** White space in [s] is the plain space only. *)
Definition only_plain_spaces (s : str) : bool :=
  forallb (fun c => negb (isspace c) || (c =? 32)%N) s.

(** No two spaces in a row. *)
Fixpoint no_double_space (s : str) : bool :=
  match s with
  | a :: (b :: _) as t => negb ((a =? 32)%N && (b =? 32)%N) && no_double_space t
  | _ => true
  end.

(** [s] does not begin with white space. *)
Definition no_leading_space (s : str) : bool :=
  match s with
  | [] => true
  | c :: _ => negb (isspace c)
  end.

(** [s] neither begins nor ends with white space. *)
Definition no_outer_space (s : str) : bool :=
  no_leading_space s && no_leading_space (rev s).

(** A text beginning with ["["], which the callers take for a placeholder. *)
Definition is_placeholder (s : str) : bool := startswith s (py "[").

(** The trace [after] is [before], or [before] with one POST added. *)
Definition at_most_one_post (before after : list Effects.event) : Prop :=
  after = before
  \/ exists post,
       after = before ++ [Effects.Sent post]
       /\ Effects.req_method post = Effects.POST.



End Shapes.
(** ** A small runtime for running the model on concrete inputs

    ASCII lower-casing and decimal [int]; URL-safe base64 of the UTF-8
    encoding; an archive reader that accepts any data as a one-member
    [.docx]; no PDF back end installed; a database that reads decimal
    digits as an integer. *)
Module Demo.

(** [s.encode("utf-8")]: a surrogate cannot be encoded. *)
Fixpoint encode_utf8 (s : str) : outcome (list N) :=
  match s with
  | [] => Returned []
  | c :: t =>
    obind (encode_utf8 t) (fun rest =>
    if (c <? 0x80)%N then Returned (c :: rest)
    else if (c <? 0x800)%N
    then Returned ((0xC0 + c / 64) :: (0x80 + c mod 64) :: rest)%N
    else if ((0xD800 <=? c) && (c <=? 0xDFFF))%N then Raised ValueError
    else if (c <? 0x10000)%N
    then Returned ((0xE0 + c / 4096) :: (0x80 + (c / 64) mod 64)
                   :: (0x80 + c mod 64) :: rest)%N
    else if (c <? 0x110000)%N
    then Returned ((0xF0 + c / 262144) :: (0x80 + (c / 4096) mod 64)
                   :: (0x80 + (c / 64) mod 64) :: (0x80 + c mod 64) :: rest)%N
    else Raised ValueError)
  end.

(** The alphabet of [base64.urlsafe_b64encode]. *)
Definition b64_char (n : N) : N :=
  (if n <? 26 then 65 + n
   else if n <? 52 then 97 + (n - 26)
   else if n <? 62 then 48 + (n - 52)
   else if n =? 62 then 45 else 95)%N.

Fixpoint b64_encode (data : list N) : str :=
  match data with
  | [] => []
  | [a] => [b64_char (a / 4); b64_char ((a mod 4) * 16); 61; 61]%N
  | [a; b] =>
    [b64_char (a / 4); b64_char ((a mod 4) * 16 + b / 16);
     b64_char ((b mod 16) * 4); 61]%N
  | a :: b :: c :: t =>
    ([b64_char (a / 4); b64_char ((a mod 4) * 16 + b / 16);
      b64_char ((b mod 16) * 4 + c / 64); b64_char (c mod 64)]
     ++ b64_encode t)%N
  end.

Definition urlsafe_b64 (s : str) : outcome str :=
  obind (encode_utf8 s) (fun data => Returned (b64_encode data)).

Definition ascii_lower (s : str) : str := map ascii_lower_char s.

Definition digit_value (c : N) : option Z :=
  if ((48 <=? c) && (c <=? 57))%N then Some (Z.of_N c - 48) else None.

Fixpoint parse_digits (acc : Z) (s : str) : outcome Z :=
  match s with
  | [] => Returned acc
  | c :: t =>
    match digit_value c with
    | Some d => parse_digits (10 * acc + d) t
    | None => Raised ValueError
    end
  end.

Definition parse_decimal (s : str) : outcome Z :=
  match s with
  | [] => Raised ValueError
  | _ => parse_digits 0 s
  end.

(** A text of decimal digits is an integer to the database. *)
Definition numeric_of_digits (s : str) : option number :=
  match parse_decimal s with
  | Returned z => Some (Integer z)
  | Raised _ => None
  end.

Definition runtime : Runtime := {|
  lower := ascii_lower;
  int_of_str := parse_decimal;
  repr_container := fun _ => py "[...]";
  json_dumps := fun _ => py "{}";
  json_loads := fun _ => Returned (JDict []);
  re_findall_tag := fun _ txt => [txt];
  re_sub_tags := fun s => s;
  html_unescape := fun s => Returned s;
  zipfile_open := fun data => Returned [(py "word/document.xml", Returned data)];
  fitz_open := fun _ => Raised ImportError;
  pdfminer_extract_text := fun _ _ => Raised ImportError;
  urlsafe_b64encode_utf8 := urlsafe_b64;
  sqlite_numeric := numeric_of_digits;
  sqlite_real_text := fun _ => py "0.0";
  sqlite_real_integer := fun _ => None;
  int_of_real := fun _ => Raised ValueError;
  str_of_real := fun _ => py "nan";
|}.

(** The same with PyMuPDF installed, reading every file as a one-page PDF. *)
Definition runtime_with_fitz : Runtime := {|
  lower := ascii_lower;
  int_of_str := parse_decimal;
  repr_container := fun _ => py "[...]";
  json_dumps := fun _ => py "{}";
  json_loads := fun _ => Returned (JDict []);
  re_findall_tag := fun _ txt => [txt];
  re_sub_tags := fun s => s;
  html_unescape := fun s => Returned s;
  zipfile_open := fun data => Returned [(py "word/document.xml", Returned data)];
  fitz_open := fun data => Returned [Returned (decode_utf8_ignore data)];
  pdfminer_extract_text := fun _ _ => Raised ImportError;
  urlsafe_b64encode_utf8 := urlsafe_b64;
  sqlite_numeric := numeric_of_digits;
  sqlite_real_text := fun _ => py "0.0";
  sqlite_real_integer := fun _ => None;
  int_of_real := fun _ => Raised ValueError;
  str_of_real := fun _ => py "nan";
|}.

(** A world at the start of a request. *)
Definition world (d : Storage.database) (clk : nat -> Z)
    (net : nat -> Effects.Request -> outcome Effects.Response)
    (env : list (str * str)) : Effects.World :=
  {| Effects.db := d; Effects.clock := clk; Effects.clock_reads := 0;
     Effects.network := net; Effects.requests_sent := 0;
     Effects.environ := assoc env; Effects.trace := [] |}.

Definition reply (status : Z) (body : json) : outcome Effects.Response :=
  Returned {| Effects.status_code := status; Effects.content := [];
              Effects.text := []; Effects.json_body := Returned body |}.

Definition credentials : list (str * str) :=
  [ (py "GOOGLE_CLIENT_ID", py "gid"); (py "GOOGLE_CLIENT_SECRET", py "gsecret");
    (py "ONEDRIVE_CLIENT_ID", py "oid"); (py "ONEDRIVE_CLIENT_SECRET", py "osecret") ].

Definition empty_db : Storage.database :=
  {| Storage.user_connections := ∅; Storage.document_cache := [] |}.

(** A connection as the OAuth callback stores it: access token [at-1],
    refresh token [rt-1], a given expiry. *)
Definition token_with_expiry (expiry : Z) : gmap str Storage.value :=
  {[ py "access_token" := Storage.VStr (py "at-1");
     py "refresh_token" := Storage.VStr (py "rt-1");
     py "expires_at" := Storage.VInt expiry ]}.

Definition first_token : gmap str Storage.value := token_with_expiry 5000.

(** What a refresh hands to [save_connection] when the token endpoint
    sends no new refresh token. *)
Definition refreshed_token : gmap str Storage.value :=
  {[ py "access_token" := Storage.VStr (py "at-2");
     py "scope" := Storage.VStr (py "drive.readonly");
     py "expires_at" := Storage.VInt 9000 ]}.

(** The table after a call that returned; as it was after one that raised. *)
Definition saved (d : Storage.database) (r : outcome Storage.database)
    : Storage.database :=
  match r with
  | Returned d' => d'
  | Raised _ => d
  end.

Definition db_connected : Storage.database :=
  saved empty_db
    (@Storage.save_connection runtime 1000 empty_db (py " alice ") (py "Google")
       first_token Storage.VNone Storage.VNone None).

(** [n] bytes ["x"]. *)
Definition xs (n : nat) : bytes := repeat "x"%byte n.

Definition connected (provider_ : str) (expiry : Z) (d : Storage.database)
    : Storage.database :=
  saved d
    (@Storage.save_connection runtime 900 d (py "alice") provider_
       (token_with_expiry expiry) Storage.VNone Storage.VNone None).

(** The answer of a token endpoint. *)
Definition token_reply (expires_in : Z) : outcome Effects.Response :=
  reply 200 (JDict [ (py "access_token", JStr (py "at-2"));
                     (py "expires_in", JInt expires_in) ]).

(** Alice's token has expired at 950; the clock stands at 1000 and the
    token endpoint answers every request with a token valid for 3600 s. *)
Definition refresh_scenario (provider_ : str) : Effects.World :=
  world (connected provider_ 950 empty_db) (fun _ => 1000)
    (fun _ _ => token_reply 3600) credentials.

(** Alice's Google token is valid; the link names one plain file, whose
    metadata and content the server delivers. *)
Definition file_metadata : json :=
  JDict [ (py "id", JStr (py "F1")); (py "name", JStr (py "notes.txt"));
          (py "mimeType", JStr (py "text/plain")); (py "size", JStr (py "11")) ].

Definition download_scenario : Effects.World :=
  world (connected (py "google") 5000 empty_db) (fun _ => 1000)
    (fun n _ =>
       match n with
       | O => reply 200 file_metadata
       | _ => Returned {| Effects.status_code := 200;
                          Effects.content := list_byte_of_string "hello world";
                          Effects.text := []; Effects.json_body := Raised LibraryError |}
       end)
    credentials.

(** Alice's OneDrive token is valid until 5000 and the clock stands at
    1000, but the Graph API answers every listing with 401; the token
    endpoint answers with [token] . *)
Definition unauthorized_scenario (token : outcome Effects.Response)
    : Effects.World :=
  world (connected (py "onedrive") 5000 empty_db) (fun _ => 1000)
    (fun _ r =>
       match Effects.req_method r with
       | Effects.POST => token
       | Effects.GET => reply 401 JNull
       end)
    credentials.

(** Alice has connected all three providers.  Her Google token has
    expired and the Google client credentials are not configured, so the
    Google adapter raises while it refreshes; Notion and OneDrive answer. *)
Definition notion_results : json :=
  JDict [ (py "results",
           JList [ JDict [ (py "object", JStr (py "page"));
                           (py "id", JStr (py "P1"));
                           (py "url", JStr (py "https://notion.so/P1"));
                           (py "properties",
                            JDict [ (py "Name",
                                     JDict [ (py "type", JStr (py "title"));
                                             (py "title",
                                              JList [ JDict [ (py "plain_text",
                                                               JStr (py "Plan")) ] ]) ]) ]) ] ]) ].

Definition drive_listing : json :=
  JDict [ (py "value",
           JList [ JDict [ (py "id", JStr (py "O1"));
                           (py "name", JStr (py "budget.xlsx")) ] ]) ].

(** A request to the public shares API of OneDrive. *)
Definition is_share_request (r : Effects.Request) : bool :=
  startswith (Effects.req_url r) (py "https://api.onedrive.com/v1.0/shares/").

Definition three_providers : Effects.World :=
  world (connected (py "onedrive") 5000
           (connected (py "google") 950
              (connected (py "notion") 0 empty_db)))
    (fun _ => 1000)
    (fun _ r =>
       match Effects.req_method r with
       | Effects.POST => reply 200 notion_results
       | Effects.GET =>
         if is_share_request r then reply 404 JNull else reply 200 drive_listing
       end)
    [ (py "ONEDRIVE_CLIENT_ID", py "oid"); (py "ONEDRIVE_CLIENT_SECRET", py "osecret") ].




(** What the runs below look at. *)
Definition stored_expiry (w : Effects.World) (provider_ : str) : option Storage.value :=
  Storage.expires_at <$> @Storage.get_connection_row runtime (Effects.db w) (py "alice") provider_.

Definition is_permit_event (e : Effects.event) : bool :=
  match e with
  | Effects.Acquired | Effects.Released => true
  | Effects.Sent _ => false
  end.

(** "Exactly one refresh followed by exactly one retry" after a listing
    answered with 401: the call sends GET, POST, GET. *)
Definition one_refresh_one_retry (out : outcome (list Providers.doc) * Effects.World) : Prop :=
  Effects.sent_methods (Effects.trace (snd out))
  = [Effects.GET; Effects.POST; Effects.GET].

Definition alice_listing (token : str) : Effects.Request :=
  @OneDriveProvider.listing_request runtime (py "root") 50 (Storage.VStr token).



End Demo.


(** ** More runtimes and inputs for concrete runs *)
Module Scenarios.

(** A toy codec for one-entry dicts of strings, [key=value]; every other
    object is written as [{}]. *)
Definition kv_dumps (j : json) : str :=
  match j with
  | JDict [(k, JStr v)] => k ++ py "=" ++ v
  | _ => py "{}"
  end.

Fixpoint split_eq (s : str) : option (str * str) :=
  match s with
  | [] => None
  | c :: t =>
    if (c =? 61)%N then Some ([], t)
    else match split_eq t with
         | Some (k, v) => Some (c :: k, v)
         | None => None
         end
  end.

Definition kv_loads (s : str) : outcome json :=
  match split_eq s with
  | Some (k, v) => Returned (JDict [(k, JStr v)])
  | None => Returned (JDict [])
  end.

Definition kv_runtime : Runtime := {|
  lower := Demo.ascii_lower;
  int_of_str := Demo.parse_decimal;
  repr_container := fun _ => py "[...]";
  json_dumps := kv_dumps;
  json_loads := kv_loads;
  re_findall_tag := fun _ txt => [txt];
  re_sub_tags := fun s => s;
  html_unescape := fun s => Returned s;
  zipfile_open := fun data => Returned [(py "word/document.xml", Returned data)];
  fitz_open := fun _ => Raised ImportError;
  pdfminer_extract_text := fun _ _ => Raised ImportError;
  urlsafe_b64encode_utf8 := Demo.urlsafe_b64;
  sqlite_numeric := Demo.numeric_of_digits;
  sqlite_real_text := fun _ => py "0.0";
  sqlite_real_integer := fun _ => None;
  int_of_real := fun _ => Raised ValueError;
  str_of_real := fun _ => py "nan";
|}.

Definition quick_link : list (str * json) :=
  [(py "quick_link", JStr (py "https://example.org/docs"))].

End Scenarios.
(** ** Properties of the extractor *)
Module ExtractFacts.
Import Extract.

Lemma lstrip_blank (s : str) : forallb isspace s = true -> lstrip s = [].
Proof.
  induction s as [|c t IH]; simpl; [reflexivity|].
  intros Hs. apply andb_prop in Hs as [Hc Ht]. rewrite Hc. auto.
Qed.

Lemma sub_ws_blank (s : str) (b : bool) :
  forallb isspace s = true -> forallb isspace (sub_ws b s) = true.
Proof.
  revert b. induction s as [|c t IH]; intros b; simpl; [reflexivity|].
  intros Hs. apply andb_prop in Hs as [Hc Ht]. rewrite Hc.
  destruct b; simpl; auto.
Qed.

Lemma strip_blank (s : str) : forallb isspace s = true -> strip s = [].
Proof. intros Hs. unfold strip. rewrite (lstrip_blank s Hs). reflexivity. Qed.

Lemma len_ellipsis : len ellipsis = 4.
Proof. reflexivity. Qed.

Lemma slice_to_nonneg {A} (k : Z) (s : list A) :
  0 <= k -> slice_to k s = firstn (Z.to_nat k) s.
Proof.
  intros Hk. unfold slice_to.
  destruct (Z.leb_spec 0 k); [reflexivity | lia].
Qed.

Lemma clip_long (text : str) (k : Z) :
  0 <= k < len text -> clip text k = firstn (Z.to_nat k) text ++ ellipsis.
Proof.
  intros [Hk Hlt]. unfold clip. rewrite slice_to_nonneg by assumption.
  destruct (Z.ltb_spec k (len text)); [reflexivity | lia].
Qed.

Lemma clip_short (text : str) (k : Z) : len text <= k -> clip text k = text.
Proof.
  intros Hle. unfold clip, len in *. rewrite slice_to_nonneg by lia.
  destruct (Z.ltb_spec k (Z.of_nat (length text))); [lia|].
  rewrite app_nil_r. apply firstn_all2. lia.
Qed.

Lemma len_clip_long (text : str) (k : Z) :
  0 <= k < len text -> len (clip text k) = k + len ellipsis.
Proof.
  intros Hk. rewrite clip_long by assumption. unfold len in *.
  rewrite length_app, length_firstn. lia.
Qed.

Lemma firstn_prefix {A} (n : nat) (l : list A) : firstn n l `prefix_of` l.
Proof. exists (skipn n l). symmetry. apply firstn_skipn. Qed.

Section WithRuntime.
Context `{Runtime}.

Lemma nonempty_true (s : str) : s <> [] -> nonempty s = true.
Proof. intros Hs. unfold nonempty. rewrite bool_decide_eq_false_2; auto. Qed.

Lemma text_preview_cut title data max_chars text budget :
  cut_text title data max_chars text budget ->
  text_preview title data max_chars = Returned (clip text budget).
Proof.
  intros Hcut. unfold text_preview.
  destruct Hcut as [txt Hpdf Hf Hne | txt Hpdf Hf Hm Hne
                   | text Hpdf Hoff Ho Hne | Hpdf Hoff]; rewrite Hpdf.
  - unfold _preview_pdf_bytes. rewrite Hf. simpl.
    rewrite nonempty_true by assumption. reflexivity.
  - unfold _preview_pdf_bytes.
    destruct (fitz_text data 3) as [t|e] eqn:Ef; simpl.
    + rewrite (Hf t eq_refl). simpl. rewrite Hm. simpl.
      rewrite nonempty_true by assumption. reflexivity.
    + rewrite Hm. simpl. rewrite nonempty_true by assumption. reflexivity.
  - rewrite Hoff. unfold _preview_office_zip. rewrite Ho. simpl.
    rewrite nonempty_true by assumption. reflexivity.
  - rewrite Hoff. reflexivity.
Qed.


Lemma nonempty_inv (s : str) : nonempty s = true -> s <> [].
Proof.
  unfold nonempty. intros Hs Hnil. subst s. discriminate Hs.
Qed.

Lemma nonempty_false (s : str) : nonempty s = false -> s = [].
Proof.
  unfold nonempty. intros Hs. apply negb_false_iff, bool_decide_eq_true in Hs.
  exact Hs.
Qed.

(** Whatever the input, the preview is the "could not extract" text or a
    cut of a collapsed text: [cut_text] names every way to a truncation. *)
Lemma text_preview_shape title data max_chars out :
  text_preview title data max_chars = Returned out ->
  out = binary_sentinel data
  \/ exists text budget,
       cut_text title data max_chars text budget /\ out = clip text budget.
Proof.
  unfold text_preview.
  destruct (endswith (lower (or_empty title)) (py ".pdf")) eqn:Hpdf.
  - unfold _preview_pdf_bytes.
    destruct (fitz_text data 3) as [t|e] eqn:Hf; cbn.
    + destruct (nonempty t) eqn:Ht; cbn.
      * intros [= <-]. right. exists t, 900. split; [|reflexivity].
        apply cut_pdf_primary; auto using nonempty_inv.
      * apply nonempty_false in Ht. subst t.
        destruct (pdfminer_text data 3) as [m|e] eqn:Hm; cbn.
        -- destruct (nonempty m) eqn:Hne; cbn; intros [= <-]; [right | left; reflexivity].
           exists m, 900. split; [|reflexivity].
           apply cut_pdf_fallback; auto using nonempty_inv.
           intros t' Ht'. congruence.
        -- intros [= <-]. left. reflexivity.
    + destruct (pdfminer_text data 3) as [m|e'] eqn:Hm; cbn.
      * destruct (nonempty m) eqn:Hne; cbn; intros [= <-]; [right | left; reflexivity].
        exists m, 900. split; [|reflexivity].
        apply cut_pdf_fallback; auto using nonempty_inv.
        intros t' Ht'. congruence.
      * intros [= <-]. left. reflexivity.
  - destruct (_is_office_zip (Some (lower (or_empty title)))) eqn:Hoff.
    + unfold _preview_office_zip.
      destruct (office_text title data) as [t|e] eqn:Ho; cbn.
      * destruct (nonempty t) eqn:Ht; cbn; intros [= <-]; [right | left; reflexivity].
        exists t, max_chars. split; [|reflexivity].
        apply cut_office; auto using nonempty_inv.
      * intros [= <-]. left. reflexivity.
    + cbn. intros [= <-]. right. exists (plain_text data), max_chars.
      split; [|reflexivity]. apply cut_plain; assumption.
Qed.

(** An archive that does not open gives the "could not extract" text. *)
Lemma unreadable_archive_gives_sentinel title data max_chars e :
  endswith (lower (or_empty title)) (py ".pdf") = false ->
  _is_office_zip (Some (lower (or_empty title))) = true ->
  zipfile_open data = Raised e ->
  text_preview title data max_chars = Returned (binary_sentinel data).
Proof.
  intros Hpdf Hoff Hzip. unfold text_preview. rewrite Hpdf, Hoff.
  unfold _preview_office_zip, office_text. rewrite Hzip. reflexivity.
Qed.

(** C2 (amended).  When the collapsed text is longer than a non-negative
    budget, the extractor returns the first [budget] characters of that text
    followed by the marker [" ..."]: the result is [budget + 4] characters
    long, and it is the part before the marker that is a prefix of the
    collapsed text. *)
Theorem text_preview_truncates title data max_chars text budget :
  cut_text title data max_chars text budget ->
  0 <= budget < len text ->
  exists head,
    text_preview title data max_chars = Returned (head ++ ellipsis)
    /\ head = firstn (Z.to_nat budget) text
    /\ len (head ++ ellipsis) = budget + len ellipsis
    /\ head `prefix_of` text.
Proof.
  intros Hcut Hb. exists (firstn (Z.to_nat budget) text).
  rewrite (text_preview_cut _ _ _ _ _ Hcut).
  rewrite <- (clip_long text budget Hb).
  repeat split.
  - apply len_clip_long; assumption.
  - apply firstn_prefix.
Qed.

(** C4.  [text_preview] returns a string for every file name, every byte
    input and every budget, whatever the archive and PDF libraries do: it
    never raises. *)
Theorem text_preview_total title data max_chars :
  exists s : str, text_preview title data max_chars = Returned s.
Proof.
  unfold text_preview.
  destruct (endswith (lower (or_empty title)) (py ".pdf")).
  - unfold _preview_pdf_bytes.
    destruct (try_return _); [eauto|].
    destruct (try_return _); eauto.
  - destruct (_is_office_zip _).
    + unfold _preview_office_zip. destruct (try_return _); eauto.
    + simpl. eauto.
Qed.

(** C10.  For a name that is neither a PDF nor an office file, when the
    first 4096 bytes decode to white space only (or to nothing), the preview
    is the empty string, not the ["[binary N bytes]"] text. *)
Theorem text_preview_blank title data max_chars :
  endswith (lower (or_empty title)) (py ".pdf") = false ->
  _is_office_zip (Some (lower (or_empty title))) = false ->
  forallb isspace (decode_utf8_ignore (firstn 4096 data)) = true ->
  0 <= max_chars ->
  text_preview title data max_chars = Returned []
  /\ binary_sentinel data <> [].
Proof.
  intros Hpdf Hoff Hblank Hk. split; [|discriminate].
  unfold text_preview. rewrite Hpdf, Hoff.
  unfold try_except, plain_text, re_sub_ws.
  rewrite (strip_blank _ (sub_ws_blank _ false Hblank)).
  rewrite clip_short; [reflexivity | unfold len; simpl; lia].
Qed.

End WithRuntime.

(** *** Runs on concrete inputs *)

Example plain_short :
  @text_preview Demo.runtime (Some (py "Notes.TXT"))
    (list_byte_of_string "  hello
   world  ") 600 = Returned (py "hello world").
Proof. vm_compute. reflexivity. Qed.

Example pptx_without_slides :
  @text_preview Demo.runtime (Some (py "report.pptx")) (Demo.xs 12) 600
  = Returned (py "[binary 12 bytes]").
Proof. vm_compute. reflexivity. Qed.

Example pdf_without_backend :
  @text_preview Demo.runtime (Some (py "a.PDF")) (Demo.xs 5) 600
  = Returned (py "[binary 5 bytes]").
Proof. vm_compute. reflexivity. Qed.

Example docx_cut_at_600 :
  @text_preview Demo.runtime (Some (py "Report.DOCX")) (Demo.xs 650) 600
  = Returned (repeat 120%N 600 ++ py " ...").
Proof. vm_compute. reflexivity. Qed.

Example pdf_cut_at_900 :
  @text_preview Demo.runtime_with_fitz (Some (py "paper.pdf")) (Demo.xs 1000) 600
  = Returned (repeat 120%N 900 ++ py " ...").
Proof. vm_compute. reflexivity. Qed.

(** A negative budget cuts from the end, and the marker is always added. *)
Example plain_negative_budget :
  @text_preview Demo.runtime (Some (py "a.txt")) (Demo.xs 5) (-2)
  = Returned (py "xxx ...")
  /\ @text_preview Demo.runtime (Some (py "a.txt")) [] (-2)
    = Returned (py " ...").
Proof. split; vm_compute; reflexivity. Qed.

(** The claim of C2 as the specification words it fails: the returned
    string ends in the marker, which the collapsed text does not contain at
    that place, so the returned string is no prefix of it. *)
Lemma text_preview_result_not_prefix :
  let title := Some (py "notes.txt") in
  let text := @plain_text (Demo.xs 700) in
  @cut_text Demo.runtime title (Demo.xs 700) 600 text 600
  /\ 600 < len text
  /\ exists out,
       @text_preview Demo.runtime title (Demo.xs 700) 600 = Returned out
       /\ len out = 600 + len ellipsis
       /\ ~ out `prefix_of` text.
Proof.
  cbv zeta. split; [|split].
  - apply (@cut_plain Demo.runtime); vm_compute; reflexivity.
  - vm_compute. reflexivity.
  - eexists. split; [vm_compute; reflexivity|]. split; [vm_compute; reflexivity|].
    intros [k Hk]. apply (f_equal (fun l => nth 600 l 0%N)) in Hk.
    vm_compute in Hk. discriminate Hk.
Qed.

Lemma text_preview_truncates_witness :
  exists head,
    @text_preview Demo.runtime (Some (py "notes.txt")) (Demo.xs 700) 600
      = Returned (head ++ ellipsis)
    /\ head = firstn (Z.to_nat 600) (plain_text (Demo.xs 700))
    /\ len (head ++ ellipsis) = 600 + len ellipsis
    /\ head `prefix_of` plain_text (Demo.xs 700).
Proof.
  apply (@text_preview_truncates Demo.runtime (Some (py "notes.txt")) (Demo.xs 700) 600).
  - apply (@cut_plain Demo.runtime); vm_compute; reflexivity.
  - split; [lia | vm_compute; reflexivity].
Defined.

Lemma text_preview_blank_witness :
  @text_preview Demo.runtime (Some (py "blank.txt"))
    (list_byte_of_string "   ") 600 = Returned []
  /\ binary_sentinel (list_byte_of_string "   ") <> [].
Proof.
  apply (@text_preview_blank Demo.runtime); [reflexivity .. | lia].
Defined.

End ExtractFacts.

(** ** Properties of the connection table *)
Module StorageFacts.
Import Storage.

Section WithRuntime.
Context `{Runtime}.

Lemma COALESCE_null (b : value) : COALESCE VNone b = b.
Proof. reflexivity. Qed.

(** *** Binding and column affinity *)

Lemma bind_parameter_fits (v : value) :
  bindable v = true -> bind_parameter v = Returned (bound v).
Proof. unfold bind_parameter. intros ->. reflexivity. Qed.



Lemma COALESCE_text_null (v b : value) :
  v = VNone -> COALESCE (text_affinity (bound v)) b = b.
Proof. intros ->. reflexivity. Qed.

(** The statement runs when every parameter can be bound, with the bound
    values; it raises [OverflowError] for the first [int] that cannot. *)
Lemma save_connection_returned now db user prov token pid pemail meta :
  forallb bindable (connection_parameters now token pid pemail) = true ->
  save_connection now db user prov token pid pemail meta
  = Returned
      (upsert_connection db
         (excluded_connection now user prov
            (bound (token_get token (py "access_token")))
            (bound (token_get token (py "refresh_token")))
            (bound (token_get_default token (py "token_type") (VStr (py "Bearer"))))
            (bound (token_get token (py "scope")))
            (bound (token_get token (py "expires_at")))
            (json_dumps (meta_or_empty meta)) (bound pid) (bound pemail))).
Proof.
  unfold connection_parameters. cbn [forallb]. intros Hfit.
  repeat (apply andb_prop in Hfit; destruct Hfit as [? Hfit]).
  unfold save_connection.
  rewrite !bind_parameter_fits by assumption. reflexivity.
Qed.

Lemma save_connection_raised now db user prov token pid pemail meta :
  forallb bindable (connection_parameters now token pid pemail) = false ->
  save_connection now db user prov token pid pemail meta = Raised OverflowError.
Proof.
  unfold connection_parameters, save_connection, bind_parameter.
  cbn [forallb]. intros Hfit.
  repeat match goal with
         | |- context [if bindable ?v then _ else _] =>
           destruct (bindable v); cbn [obind andb] in *
         end; try reflexivity; discriminate.
Qed.

Lemma save_connection_fits now db user prov token pid pemail meta db' :
  save_connection now db user prov token pid pemail meta = Returned db' ->
  forallb bindable (connection_parameters now token pid pemail) = true.
Proof.
  intros Hsave.
  destruct (forallb bindable (connection_parameters now token pid pemail)) eqn:Hfit;
    [reflexivity|].
  rewrite (save_connection_raised _ _ _ _ _ _ _ _ Hfit) in Hsave. discriminate.
Qed.

Lemma get_after_upsert db excluded :
  exists row,
    user_connections (upsert_connection db excluded)
      !! (user_name excluded, provider excluded) = Some row
    /\ user_name row = user_name excluded
    /\ provider row = provider excluded
    /\ access_token row = access_token excluded
    /\ refresh_token row =
         COALESCE (refresh_token excluded)
           (from_option refresh_token VNone
              (user_connections db !! (user_name excluded, provider excluded)))
    /\ scope row = scope excluded
    /\ expires_at row = expires_at excluded
    /\ updated_at row = updated_at excluded
    /\ created_at row =
         from_option created_at (created_at excluded)
           (user_connections db !! (user_name excluded, provider excluded))
    /\ meta_json row = meta_json excluded
    /\ provider_account_id row = provider_account_id excluded
    /\ provider_account_email row = provider_account_email excluded.
Proof.
  unfold upsert_connection. cbn [user_connections].
  rewrite lookup_insert_eq. eexists. split; [reflexivity|].
  destruct (user_connections db !! (user_name excluded, provider excluded))
    as [old|]; cbn; repeat split; try reflexivity.
  destruct (refresh_token excluded); reflexivity.
Qed.

Lemma get_after_save now db user prov token pid pemail meta :
  forallb bindable (connection_parameters now token pid pemail) = true ->
  exists db' row,
    save_connection now db user prov token pid pemail meta = Returned db'
    /\ get_connection_row db' user prov = Some row
    /\ user_name row = strip user
    /\ provider row = lower prov
    /\ access_token row = text_affinity (bound (token_get token (py "access_token")))
    /\ refresh_token row =
         COALESCE (text_affinity (bound (token_get token (py "refresh_token"))))
           (from_option refresh_token VNone (get_connection_row db user prov))
    /\ scope row = text_affinity (bound (token_get token (py "scope")))
    /\ expires_at row = integer_affinity (bound (token_get token (py "expires_at")))
    /\ updated_at row = now
    /\ created_at row = from_option created_at now (get_connection_row db user prov)
    /\ meta_json row = VStr (json_dumps (meta_or_empty meta))
    /\ provider_account_id row = text_affinity (bound pid)
    /\ provider_account_email row = text_affinity (bound pemail).
Proof.
  intros Hfit. rewrite (save_connection_returned _ _ _ _ _ _ _ _ Hfit).
  eexists. 
  destruct (get_after_upsert db
              (excluded_connection now user prov
                 (bound (token_get token (py "access_token")))
                 (bound (token_get token (py "refresh_token")))
                 (bound (token_get_default token (py "token_type") (VStr (py "Bearer"))))
                 (bound (token_get token (py "scope")))
                 (bound (token_get token (py "expires_at")))
                 (json_dumps (meta_or_empty meta)) (bound pid) (bound pemail)))
    as (row & Hrow & Hu & Hp & Hat & Hrt & Hsc & Hex & Hup & Hcr & Hm & Hpi & Hpe).
  exists row. split; [reflexivity|]. cbn in *.
  unfold get_connection_row. repeat split; assumption.
Qed.

(** Rows of other users or providers are not touched. *)
Lemma get_other_after_save now db user prov token pid pemail meta db' user' prov' :
  save_connection now db user prov token pid pemail meta = Returned db' ->
  (strip user', lower prov') <> (strip user, lower prov) ->
  get_connection_row db' user' prov' = get_connection_row db user' prov'.
Proof.
  intros Hsave Hne.
  destruct (forallb bindable (connection_parameters now token pid pemail)) eqn:Hfit.
  - rewrite (save_connection_returned _ _ _ _ _ _ _ _ Hfit) in Hsave.
    injection Hsave as <-.
    unfold get_connection_row, upsert_connection. cbn [user_connections].
    apply lookup_insert_ne. cbn. congruence.
  - rewrite (save_connection_raised _ _ _ _ _ _ _ _ Hfit) in Hsave. discriminate.
Qed.



End WithRuntime.

(** *** Runs on concrete inputs *)

Example stored_under_lower_case_key :
  @get_connection_row Demo.runtime Demo.db_connected (py "alice") (py "GOOGLE")
  = Some {| user_name := py "alice"; provider := py "google";
            access_token := VStr (py "at-1"); refresh_token := VStr (py "rt-1");
            token_type := VStr (py "Bearer"); scope := VNone;
            expires_at := VInt 5000; meta_json := VStr (py "{}");
            provider_account_id := VNone; provider_account_email := VNone;
            created_at := 1000; updated_at := 1000 |}.
Proof. vm_compute. reflexivity. Qed.

(** An access token that is a number is kept as its text, an expiry that
    is a text of digits as the integer; an expiry outside 64 bits raises and
    stores nothing. *)
Example numbers_and_texts_are_converted :
  let token : gmap str value :=
    {[ py "access_token" := VInt 123; py "scope" := VInt 7;
       py "expires_at" := VStr (py "5000") ]} in
  (fun row => (access_token row, scope row, expires_at row))
    <$> @get_connection_row Demo.runtime
          (Demo.saved Demo.empty_db
             (@save_connection Demo.runtime 1000 Demo.empty_db (py "alice")
                (py "google") token VNone VNone None))
          (py "alice") (py "google")
  = Some (VStr (py "123"), VStr (py "7"), VInt 5000).
Proof. vm_compute. reflexivity. Qed.

Example expiry_outside_64_bits_raises :
  @save_connection Demo.runtime 1000 Demo.db_connected (py "alice") (py "google")
    {[ py "access_token" := VStr (py "at-2"); py "expires_at" := VInt (2 ^ 63) ]}
    VNone VNone None
  = Raised OverflowError.
Proof. vm_compute. reflexivity. Qed.



End StorageFacts.

(** ** Properties of token refresh, downloads and the registry *)
Module ProviderFacts.
Import Storage Effects Extract Providers Registry.
Local Open Scope world_scope.

Section WithRuntime.
Context `{Runtime}.

(** *** Running a computation step by step *)

Lemma bind_returned {A B} (c : M A) (k : A -> M B) w a w' :
  c w = (Returned a, w') -> bind c k w = k a w'.
Proof. intros Hc. unfold bind. rewrite Hc. reflexivity. Qed.

Lemma bind_raised {A B} (c : M A) (k : A -> M B) w e w' :
  c w = (Raised e, w') -> bind c k w = (Raised e, w').
Proof. intros Hc. unfold bind. rewrite Hc. reflexivity. Qed.

Lemma send_trace (r : Request) (w : World) :
  trace (snd (send r w)) = trace w ++ [Sent r]
  /\ requests_sent (snd (send r w)) = S (requests_sent w)
  /\ db (snd (send r w)) = db w.
Proof. repeat split; reflexivity. Qed.

(** Case analysis on every test met while a computation is unfolded,
    innermost scrutinee first. *)
Ltac run_case Hc :=
  match type of Hc with
  | context [match ?x with _ => _ end] =>
    lazymatch x with
    | context [match _ with _ => _ end] => fail
    | _ => let E := fresh "E" in destruct x eqn:E; try discriminate Hc
    end
  end.

Ltac run_cases Hc := repeat (run_case Hc; cbn [fst snd] in Hc).

(** The expiry both [refresh_token] methods hand to [save_connection] is the
    clock reading plus [expires_in] (3600 when the answer has none). *)
Lemma new_tokens_of_expiry (tok : json) (rt : str) (now : Z) new_tokens :
  new_tokens_of tok rt now = Returned new_tokens ->
  exists ei e,
    get tok (py "expires_in") (JInt 3600) = Returned ei
    /\ int_of_json ei = Returned e
    /\ assoc new_tokens (py "expires_at") = Some (JInt (now + e)).
Proof.
  unfold new_tokens_of. intros Hnew.
  destruct (get tok (py "access_token") JNull) as [a|]; [|discriminate].
  destruct (get tok (py "refresh_token") JNull) as [r|]; [|discriminate].
  destruct (get tok (py "scope") JNull) as [s|]; [|discriminate].
  destruct (get tok (py "expires_in") (JInt 3600)) as [ei|] eqn:Hei;
    [|discriminate].
  cbn [obind] in Hnew.
  destruct (int_of_json ei) as [e|] eqn:He; [|discriminate].
  cbn [obind] in Hnew. injection Hnew as <-.
  exists ei, e. split; [reflexivity|]. split; [exact He | reflexivity].
Qed.

(** C8.  A provider name that lower-cases to none of the three registered
    names yields the empty list; nothing is raised and the world is left as
    it was. *)
Theorem unknown_provider_gives_no_documents
    (user_name_ provider_ link : str) (max_files : Z) (w : World) :
  lower provider_ <> py "google" ->
  lower provider_ <> py "onedrive" ->
  lower provider_ <> py "notion" ->
  get_documents_from_provider user_name_ provider_ link max_files w
  = (Returned [], w).
Proof.
  intros Hg Ho Hn. unfold get_documents_from_provider, REGISTRY.
  cbn [assoc].
  rewrite !bool_decide_eq_false_2 by congruence.
  reflexivity.
Qed.

(** [_http_get_bytes] takes the permit before anything is sent and gives it
    back once, whatever the request does; it never raises. *)
Lemma http_get_bytes_throttled (url : json) headers (timeout : Z) (w : World) :
  exists data sent,
    _http_get_bytes url headers timeout w
    = (Returned data, snd (_http_get_bytes url headers timeout w))
    /\ trace (snd (_http_get_bytes url headers timeout w))
       = trace w ++ [Acquired] ++ sent ++ [Released]
    /\ (sent = [] \/ exists r, sent = [Sent r]).
Proof.
  unfold _http_get_bytes, with_dl_semaphore, finally, catch, bind, lift,
    http_get, send, ret.
  destruct url as [| | |u| |]; cbn.
  all: try (exists [], []; cbn; rewrite <- ?app_assoc; cbn; auto; fail).
  destruct (network w (requests_sent w) _) as [r|e]; cbn.
  - eexists; eexists [Sent _]; cbn; rewrite <- ?app_assoc; cbn.
    split; [reflexivity|]. split; [reflexivity|]. right. eauto.
  - exists []; eexists [Sent _]; cbn; rewrite <- ?app_assoc; cbn.
    split; [reflexivity|]. split; [reflexivity|]. right. eauto.
Qed.

(** C7 (as the code is).  A Google Drive download sends its GET at once:
    the trace grows by that request alone, so no permit of the download
    semaphore is taken before it and none is released after it. *)
Theorem google_download_skips_throttle
    (token : value) (file_id : json) (w : World) :
  exists req,
    trace (snd (GoogleProvider._download_file token file_id w))
    = trace w ++ [Sent req]
    /\ req_method req = GET
    /\ req_params req = [ (py "alt", JStr (py "media")) ].
Proof.
  unfold GoogleProvider._download_file, http_get, send, bind, ret.
  eexists. cbn.
  destruct (network w (requests_sent w) _); cbn; repeat split; reflexivity.
Qed.

(** The export of a native Google document does the same. *)
Lemma google_export_skips_throttle
    (token : value) (file_id : json) (mime : str) (w : World) :
  exists req,
    trace (snd (GoogleProvider._export_native_file token file_id mime w))
    = trace w ++ [Sent req]
    /\ req_method req = GET.
Proof.
  unfold GoogleProvider._export_native_file, http_get, send, bind, ret.
  eexists. cbn.
  destruct (network w (requests_sent w) _); cbn; repeat split; reflexivity.
Qed.

(** *** OneDrive: token refresh and the retry after a 401 *)

(** A [refresh_token] that returns has sent exactly one request, the POST
    to the token endpoint. *)
Lemma onedrive_refresh_returned (user_name_ : str) (w w' : World) :
  OneDriveProvider.refresh_token user_name_ w = (Returned tt, w') ->
  exists post,
    trace w' = trace w ++ [Sent post]
    /\ req_method post = POST
    /\ requests_sent w' = S (requests_sent w).
Proof.
  unfold OneDriveProvider.refresh_token, _read_token_row,
    Effects.get_provider_token, Effects.get_connection_row,
    Effects.save_connection, http_post_form, send, getenv, time_now,
    bind, lift, ret, raise.
  intros Hc. run_cases Hc.
  injection Hc as <-. cbn. eexists. repeat split; reflexivity.
Qed.

(** A [refresh_token] that raises has sent that one request or none. *)
Lemma onedrive_refresh_raised (user_name_ : str) (w w' : World) e :
  OneDriveProvider.refresh_token user_name_ w = (Raised e, w') ->
  trace w' = trace w
  \/ exists post, trace w' = trace w ++ [Sent post] /\ req_method post = POST.
Proof.
  unfold OneDriveProvider.refresh_token, _read_token_row,
    Effects.get_provider_token, Effects.get_connection_row,
    Effects.save_connection, http_post_form, send, getenv, time_now,
    bind, lift, ret, raise.
  intros Hc. run_cases Hc; injection Hc as <- <-; cbn;
    first [ left; reflexivity | right; eexists; split; reflexivity ].
Qed.

(** A stored token that is good for 60 seconds more is returned as it is:
    one clock reading, no request. *)
Lemma onedrive_valid_token_fresh (user_name_ : str) (w : World) row x :
  Storage.get_connection_row (db w) user_name_ OneDriveProvider.name = Some row ->
  expires_at row = VInt x ->
  clock w (clock_reads w) + 60 <= x ->
  OneDriveProvider._get_valid_token user_name_ w
  = (Returned (vor (access_token row) (VStr [])), tick_clock w).
Proof.
  intros Hrow Hx Hfresh.
  unfold OneDriveProvider._get_valid_token, _read_token_row,
    Effects.get_provider_token, Effects.get_connection_row, time_now,
    bind, lift, ret.
  rewrite Hrow. unfold _extract_tokens. rewrite Hx.
  assert (Hint : int_of_value (vor (VInt x) (VInt 0)) = Returned x).
  { unfold vor, value_truthy. destruct (Z.eqb_spec x 0) as [->|]; reflexivity. }
  rewrite Hint. cbn.
  destruct (Z.ltb_spec x (clock w (clock_reads w) + 60)); [lia | reflexivity].
Qed.

(** C6 (amended).  Let a listing call be answered with 401.  When the
    refresh that follows returns and leaves a token good for 60 seconds
    more, the call sends exactly one refresh request and then exactly one
    retry of the listing, and nothing after it; a retry answered with
    another status than 200 makes the call return the empty list.  When the
    refresh raises, the call raises the same exception and sends no retry. *)
Theorem list_my_drive_retries_once
    (user_name_ folder_id : str) (limit : Z) (w w1 : World) tok1 r1 :
  OneDriveProvider._get_valid_token user_name_ w = (Returned tok1, w1) ->
  network w1 (requests_sent w1)
    (OneDriveProvider.listing_request folder_id limit tok1) = Returned r1 ->
  status_code r1 = 401 ->
  let first := OneDriveProvider.listing_request folder_id limit tok1 in
  let w2 := count_request (record (Sent first) w1) in
  let out := OneDriveProvider.list_my_drive user_name_ folder_id limit w in
  (forall w3 row x,
      OneDriveProvider.refresh_token user_name_ w2 = (Returned tt, w3) ->
      Storage.get_connection_row (db w3) user_name_ OneDriveProvider.name
        = Some row ->
      expires_at row = VInt x ->
      clock w3 (clock_reads w3) + 60 <= x ->
      let retry := OneDriveProvider.listing_request folder_id limit
                     (vor (access_token row) (VStr [])) in
      exists post,
        req_method post = POST
        /\ trace (snd out) = trace w1 ++ [Sent first; Sent post; Sent retry]
        /\ (forall r2,
              network w3 (requests_sent w3) retry = Returned r2 ->
              status_code r2 <> 200 -> fst out = Returned []))
  /\ (forall w3 e,
        OneDriveProvider.refresh_token user_name_ w2 = (Raised e, w3) ->
        out = (Raised e, w3)
        /\ (trace w3 = trace w1 ++ [Sent first]
            \/ exists post, req_method post = POST
                 /\ trace w3 = trace w1 ++ [Sent first; Sent post])).
Proof.
  intros Htok Hr1 H401 first w2 out.
  assert (Hout : out =
            bind (bind (OneDriveProvider.refresh_token user_name_)
                    (fun _ => bind (OneDriveProvider._get_valid_token user_name_)
                       (fun token => send (OneDriveProvider.listing_request
                                             folder_id limit token))))
              (fun r => if negb (status_code r =? 200) then ret []
                        else lift (OneDriveProvider.drive_items r limit)) w2).
  { unfold out, OneDriveProvider.list_my_drive.
    rewrite (bind_returned _ _ _ _ _ Htok).
    unfold bind at 1. unfold send at 1. rewrite Hr1.
    rewrite H401. reflexivity. }
  split.
  - intros w3 row x Href Hrow Hx Hfresh retry.
    destruct (onedrive_refresh_returned _ _ _ Href) as (post & Htr & Hpost & Hn).
    exists post. split; [exact Hpost|].
    pose proof (onedrive_valid_token_fresh _ _ _ _ Hrow Hx Hfresh) as Hvalid.
    set (w4 := count_request (record (Sent retry) (tick_clock w3))).
    assert (Hout' : out =
              match network w3 (requests_sent w3) retry with
              | Returned r2 =>
                (if negb (status_code r2 =? 200) then Returned []
                 else OneDriveProvider.drive_items r2 limit, w4)
              | Raised e => (Raised e, w4)
              end).
    { rewrite Hout. unfold bind at 1.
      rewrite (bind_returned _ _ _ _ _ Href).
      rewrite (bind_returned _ _ _ _ _ Hvalid).
      unfold send.
      change (requests_sent (tick_clock w3)) with (requests_sent w3).
      change (network (tick_clock w3)) with (network w3).
      fold retry. fold w4.
      destruct (network w3 (requests_sent w3) retry) as [r2|e2];
        [destruct (negb (status_code r2 =? 200))|]; reflexivity. }
    assert (Htr4 : trace w4 = trace w1 ++ [Sent first; Sent post; Sent retry]).
    { unfold w4. cbn. rewrite Htr. cbn. rewrite <- !app_assoc. reflexivity. }
    rewrite Hout'.
    destruct (network w3 (requests_sent w3) retry) as [r2|e2].
    + split; [exact Htr4|]. intros r2' [= <-] Hne. cbn.
      destruct (Z.eqb_spec (status_code r2) 200); [contradiction | reflexivity].
    + split; [exact Htr4|]. intros r2 [=].
  - intros w3 e Href. rewrite Hout.
    unfold bind at 1. rewrite (bind_raised _ _ _ _ _ Href).
    split; [reflexivity|].
    destruct (onedrive_refresh_raised _ _ _ _ Href) as [Htr | (post & Htr & Hpost)].
    + left. rewrite Htr. reflexivity.
    + right. exists post. split; [exact Hpost|]. rewrite Htr. cbn.
      rewrite <- !app_assoc. reflexivity.
Qed.

(** *** Adapters without a usable token *)

(** Without a stored connection [refresh_token] of the Google adapter
    gives up at once, and the adapter returns no document and sends
    nothing. *)
Lemma google_refresh_without_connection (user_name_ : str) (w : World) :
  Storage.get_connection_row (db w) user_name_ GoogleProvider.name = None ->
  GoogleProvider.refresh_token user_name_ w = (Returned tt, w).
Proof.
  intros Hrow.
  unfold GoogleProvider.refresh_token, _read_token_row,
    Effects.get_provider_token, Effects.get_connection_row.
  unfold bind at 1. rewrite Hrow. reflexivity.
Qed.

Lemma google_token_without_connection (user_name_ : str) (w : World) :
  Storage.get_connection_row (db w) user_name_ GoogleProvider.name = None ->
  GoogleProvider._get_valid_token user_name_ w = (Returned (VStr []), tick_clock w).
Proof.
  intros Hrow.
  assert (Hrow' : Storage.get_connection_row (db (tick_clock w)) user_name_
                    GoogleProvider.name = None) by exact Hrow.
  unfold GoogleProvider._get_valid_token, _read_token_row,
    Effects.get_provider_token, Effects.get_connection_row.
  unfold bind at 1. rewrite Hrow. cbn [_extract_tokens].
  unfold bind at 1, lift at 1. unfold bind at 1, time_now at 1.
  unfold get_expires_at. cbn [from_option].
  destruct (0 <? clock w (clock_reads w) + 60).
  - unfold bind at 1. unfold bind at 1.
    rewrite (google_refresh_without_connection _ _ Hrow').
    unfold bind at 1. rewrite Hrow'. reflexivity.
  - reflexivity.
Qed.

Lemma google_without_connection (user_name_ link : str) (max_files : Z) (w : World) :
  Storage.get_connection_row (db w) user_name_ GoogleProvider.name = None ->
  GoogleProvider.enumerate_from_link user_name_ link max_files w
  = (Returned [], tick_clock w).
Proof.
  intros Hrow. unfold GoogleProvider.enumerate_from_link.
  rewrite (bind_returned _ _ _ _ _ (google_token_without_connection _ _ Hrow)).
  reflexivity.
Qed.

(** The OneDrive adapter never raises: what goes wrong with the share or
    inside [list_my_drive], a failed token refresh included, is caught. *)
Lemma onedrive_enumeration_returns (user_name_ link : str) (max_files : Z)
    (w : World) :
  exists docs w',
    OneDriveProvider.enumerate_from_link user_name_ link max_files w
    = (Returned docs, w').
Proof.
  unfold OneDriveProvider.enumerate_from_link.
  repeat match goal with
         | |- context [match ?x with _ => _ end] =>
           lazymatch x with
           | context [match _ with _ => _ end] => fail
           | _ => destruct x
           end
         end; eauto.
Qed.

End WithRuntime.

(** *** Runs on concrete inputs *)

(** C1 (as the code is).  With the clock at 1000 and [expires_in = 3600]
    both refresh methods succeed and store [1000 + 3600 = 4600] as expiry:
    the 60 seconds that the OAuth callbacks subtract are not subtracted
    here. *)
Theorem refresh_stores_expiry_without_margin :
  let g := @GoogleProvider.refresh_token Demo.runtime (py "alice")
             (Demo.refresh_scenario (py "google")) in
  let o := @OneDriveProvider.refresh_token Demo.runtime (py "alice")
             (Demo.refresh_scenario (py "onedrive")) in
  fst g = Returned tt
  /\ Demo.stored_expiry (snd g) (py "google") = Some (VInt (1000 + 3600))
  /\ fst o = Returned tt
  /\ Demo.stored_expiry (snd o) (py "onedrive") = Some (VInt (1000 + 3600))
  /\ 1000 + 3600 <> 1000 + 3600 - 60.
Proof.
  cbv zeta. repeat split; try (vm_compute; reflexivity). lia.
Qed.

(** A single Google Drive file is fetched with two requests, metadata and
    content, and its text is previewed; the download semaphore is never
    touched. *)
Example google_file_downloaded_unthrottled :
  let out := @GoogleProvider.enumerate_from_link Demo.runtime (py "alice")
               (py "https://drive.google.com/file/d/F1/view") 30
               Demo.download_scenario in
  fst out = Returned [ [ (py "id", JStr (py "F1"));
                         (py "title", JStr (py "notes.txt"));
                         (py "mimeType", JStr (py "text/plain"));
                         (py "content", JStr (py "hello world")) ] ]
  /\ map Demo.is_permit_event (trace (snd out)) = [false; false].
Proof. cbv zeta. split; vm_compute; reflexivity. Qed.

(** It fails when the refreshed token is good for 30 seconds only: the
    listing is answered with 401, [refresh_token] fetches a token, and
    [_get_valid_token] finds it too close to its expiry and fetches another
    one before the retry. *)
Lemma list_my_drive_refreshes_twice :
  let w := Demo.unauthorized_scenario (Demo.token_reply 30) in
  let out := @OneDriveProvider.list_my_drive Demo.runtime (py "alice")
               (py "root") 50 w in
  @OneDriveProvider._get_valid_token Demo.runtime (py "alice") w
    = (Returned (VStr (py "at-1")), tick_clock w)
  /\ network w 0%nat (Demo.alice_listing (py "at-1")) = Demo.reply 401 JNull
  /\ fst out = Returned []
  /\ sent_methods (trace (snd out)) = [GET; POST; POST; GET]
  /\ ~ Demo.one_refresh_one_retry out.
Proof.
  cbv zeta. repeat split; try (vm_compute; reflexivity).
  unfold Demo.one_refresh_one_retry. vm_compute. discriminate.
Qed.

(** When the token endpoint refuses the refresh, the call raises and does
    not retry. *)
Example list_my_drive_refresh_refused :
  let w := Demo.unauthorized_scenario (Demo.reply 400 JNull) in
  let out := @OneDriveProvider.list_my_drive Demo.runtime (py "alice")
               (py "root") 50 w in
  fst out = Raised (RuntimeError (py "OneDrive token refresh failed: "))
  /\ sent_methods (trace (snd out)) = [GET; POST].
Proof. cbv zeta. split; vm_compute; reflexivity. Qed.

Lemma list_my_drive_retries_once_witness :
  let w := Demo.unauthorized_scenario (Demo.token_reply 3600) in
  let out := @OneDriveProvider.list_my_drive Demo.runtime (py "alice")
               (py "root") 50 w in
  exists post,
    req_method post = POST
    /\ trace (snd out)
       = [Sent (Demo.alice_listing (py "at-1")); Sent post;
          Sent (Demo.alice_listing (py "at-2"))]
    /\ fst out = Returned [].
Proof.
  intros w out.
  pose (r401 := {| status_code := 401; content := []; text := [];
                   json_body := Returned JNull |}).
  destruct (@list_my_drive_retries_once Demo.runtime (py "alice") (py "root")
              50 w (tick_clock w) (VStr (py "at-1")) r401)
    as [Hok _].
  - vm_compute. reflexivity.
  - vm_compute. reflexivity.
  - reflexivity.
  - edestruct Hok as (post & Hpost & Htrace & Hempty).
    + vm_compute. reflexivity.
    + vm_compute. reflexivity.
    + reflexivity.
    + vm_compute. discriminate.
    + exists post. split; [exact Hpost|]. split; [exact Htrace|].
      apply (Hempty r401); [vm_compute; reflexivity | vm_compute; discriminate].
Defined.

Lemma unknown_provider_gives_no_documents_witness :
  let w := Demo.refresh_scenario (py "google") in
  @get_documents_from_provider Demo.runtime (py "alice") (py "Dropbox")
    (py "https://www.dropbox.com/s/abc") 30 w = (Returned [], w).
Proof.
  apply (@unknown_provider_gives_no_documents Demo.runtime);
    vm_compute; discriminate.
Defined.

End ProviderFacts.

(** ** Properties of document collection *)
Module ChatFacts.
Import Storage Effects Extract Providers Registry ChatRouter ChatChunks Shapes.
Local Open Scope world_scope.

Section Loops.
Context {S X : Type}.

Lemma for_each_nil (body : S -> X -> M S) (s : S) (w : World) :
  for_each body [] s w = (Returned s, w).
Proof. reflexivity. Qed.

Lemma for_each_cons (body : S -> X -> M S) (x : X) (xs : list X) (s : S)
    (w : World) :
  for_each body (x :: xs) s w
  = match body s x w with
    | (Returned s', w') => for_each body xs s' w'
    | (Raised e, w') => (Raised e, w')
    end.
Proof.
  unfold for_each, propagate. cbn [for_in]. unfold assign at 1.
  destruct (body s x w) as [[s'|e] w']; reflexivity.
Qed.


End Loops.

Section WithRuntime.
Context `{Runtime}.






(** *** What a provider that returns adds *)







End WithRuntime.

(** *** Runs on concrete inputs *)

Example google_enumeration_raises :
  fst (@get_documents_from_provider Demo.runtime (py "alice") (py "google") []
         10 Demo.three_providers)
  = Raised (RuntimeError (py "Google Client ID/Secret not configured")).
Proof. vm_compute. reflexivity. Qed.



End ChatFacts.

(** ** More about the extractor *)
Module ExtractMore.
Import Extract ExtractFacts Shapes.

(** *** Collapsed text *)

Lemma sub_ws_plain (s : str) (b : bool) : only_plain_spaces (sub_ws b s) = true.
Proof.
  unfold only_plain_spaces.
  revert b. induction s as [|c t IH]; intros b; cbn [sub_ws]; [reflexivity|].
  destruct (isspace c) eqn:Hc.
  - destruct b; [apply IH|]. cbn [forallb]. rewrite IH.
    rewrite N.eqb_refl, orb_true_r. reflexivity.
  - cbn [forallb]. rewrite Hc, IH. reflexivity.
Qed.

Lemma sub_ws_in_run_head (s : str) :
  match sub_ws true s with
  | [] => True
  | c :: _ => c <> 32%N
  end.
Proof.
  induction s as [|c t IH]; cbn; [exact I|].
  destruct (isspace c) eqn:Hc; [exact IH|].
  intros ->. discriminate Hc.
Qed.

Lemma no_double_space_cons (a b : N) (t : str) :
  no_double_space (a :: b :: t)
  = negb ((a =? 32)%N && (b =? 32)%N) && no_double_space (b :: t).
Proof. reflexivity. Qed.

Lemma sub_ws_single (s : str) (b : bool) : no_double_space (sub_ws b s) = true.
Proof.
  revert b. induction s as [|c t IH]; intros b; cbn [sub_ws]; [reflexivity|].
  destruct (isspace c) eqn:Hc.
  - destruct b; [apply IH|].
    pose proof (sub_ws_in_run_head t) as Hhead. pose proof (IH true) as Ht.
    destruct (sub_ws true t) as [|d u]; [reflexivity|].
    rewrite no_double_space_cons, Ht.
    destruct (N.eqb_spec d 32); [contradiction|].
    rewrite andb_false_r. reflexivity.
  - pose proof (IH false) as Ht.
    destruct (sub_ws false t) as [|d u]; [reflexivity|].
    rewrite no_double_space_cons, Ht.
    destruct (N.eqb_spec c 32) as [->|]; [discriminate Hc|]. reflexivity.
Qed.

Lemma plain_tail (c : N) (s : str) :
  only_plain_spaces (c :: s) = true -> only_plain_spaces s = true.
Proof. cbn. intros Hs. apply andb_prop in Hs. tauto. Qed.

Lemma single_tail (c : N) (s : str) :
  no_double_space (c :: s) = true -> no_double_space s = true.
Proof.
  destruct s as [|d u]; [reflexivity|]. rewrite no_double_space_cons.
  intros Hs. apply andb_prop in Hs. tauto.
Qed.

Lemma lstrip_plain (s : str) :
  only_plain_spaces s = true -> only_plain_spaces (lstrip s) = true.
Proof.
  induction s as [|c t IH]; [reflexivity|]. intros Hs. cbn [lstrip].
  destruct (isspace c); [eauto using plain_tail | exact Hs].
Qed.

Lemma lstrip_single (s : str) :
  no_double_space s = true -> no_double_space (lstrip s) = true.
Proof.
  induction s as [|c t IH]; [reflexivity|]. intros Hs. cbn [lstrip].
  destruct (isspace c); [eauto using single_tail | exact Hs].
Qed.

Lemma lstrip_no_leading (s : str) : no_leading_space (lstrip s) = true.
Proof.
  induction s as [|c t IH]; [reflexivity|]. cbn [lstrip].
  destruct (isspace c) eqn:Hc; [exact IH|]. cbn. rewrite Hc. reflexivity.
Qed.

Lemma plain_rev (s : str) : only_plain_spaces (rev s) = only_plain_spaces s.
Proof.
  unfold only_plain_spaces. induction s as [|c t IH]; [reflexivity|].
  cbn [rev]. rewrite forallb_app, IH. cbn. rewrite andb_true_r. apply andb_comm.
Qed.

Lemma single_snoc (s : str) (c : N) :
  no_double_space (s ++ [c])
  = no_double_space s
    && match rev s with
       | [] => true
       | d :: _ => negb ((d =? 32)%N && (c =? 32)%N)
       end.
Proof.
  induction s as [|a t IH]; [reflexivity|].
  destruct t as [|b u].
  - cbn. rewrite andb_true_r. reflexivity.
  - change ((a :: b :: u) ++ [c]) with (a :: ((b :: u) ++ [c])).
    change (no_double_space (a :: (b :: u) ++ [c]))
      with (negb ((a =? 32)%N && (b =? 32)%N) && no_double_space ((b :: u) ++ [c])).
    rewrite IH, no_double_space_cons. rewrite <- andb_assoc. f_equal. f_equal.
    change (rev (a :: b :: u)) with (rev (b :: u) ++ [a]).
    destruct (rev (b :: u)) as [|d v] eqn:Hrev; [|reflexivity].
    apply (f_equal (@length N)) in Hrev. rewrite length_rev in Hrev.
    discriminate Hrev.
Qed.

Lemma single_rev (s : str) : no_double_space (rev s) = no_double_space s.
Proof.
  induction s as [|a t IH]; [reflexivity|].
  cbn [rev]. rewrite single_snoc, IH, rev_involutive.
  destruct t as [|b u]; [reflexivity|]. rewrite no_double_space_cons.
  change (rev (rev (b :: u))) with (rev (rev (b :: u))).
  rewrite (andb_comm (b =? 32)%N). apply andb_comm.
Qed.

Lemma lstrip_suffix (s : str) : exists p, s = p ++ lstrip s.
Proof.
  induction s as [|c t [p Hp]]; [exists []; reflexivity|]. cbn [lstrip].
  destruct (isspace c); [|exists []; reflexivity].
  exists (c :: p). cbn. f_equal. exact Hp.
Qed.

Lemma no_leading_prefix (s p : str) :
  s <> [] -> no_leading_space (s ++ p) = no_leading_space s.
Proof. destruct s; [contradiction | reflexivity]. Qed.

(** The text every branch of the extractor cuts has its white space
    normalised: single plain spaces only, and none at either end. *)
Theorem collapsed_text_normal (s : str) :
  let text := strip (re_sub_ws s) in
  only_plain_spaces text = true
  /\ no_double_space text = true
  /\ no_outer_space text = true.
Proof.
  cbv zeta. unfold strip, rstrip, re_sub_ws.
  set (t := lstrip (sub_ws false s)).
  assert (Hp : only_plain_spaces t = true) by apply lstrip_plain, sub_ws_plain.
  assert (Hs : no_double_space t = true) by apply lstrip_single, sub_ws_single.
  assert (Hl : no_leading_space t = true) by apply lstrip_no_leading.
  repeat split.
  - rewrite plain_rev. apply lstrip_plain. rewrite plain_rev. exact Hp.
  - rewrite single_rev. apply lstrip_single. rewrite single_rev. exact Hs.
  - unfold no_outer_space. rewrite rev_involutive, lstrip_no_leading, andb_true_r.
    destruct (lstrip_suffix (rev t)) as [p Hp'].
    destruct (lstrip (rev t)) as [|c u] eqn:Hu; [reflexivity|].
    apply (f_equal (@rev N)) in Hp'. rewrite rev_involutive, rev_app_distr in Hp'.
    rewrite Hp' in Hl. rewrite no_leading_prefix in Hl; [exact Hl|].
    intros Hnil. apply (f_equal (@length N)) in Hnil.
    rewrite length_rev in Hnil. discriminate Hnil.
Qed.

(** *** Failures and bounds *)

Section WithRuntime.
Context `{Runtime}.

Lemma sentinel_is_placeholder (data : bytes) :
  is_placeholder (binary_sentinel data) = true.
Proof. reflexivity. Qed.

(** For an office name, an archive that does not open, a part that cannot
    be read, or an empty text after stripping gives ["[binary N bytes]"],
    which begins with ["["]. *)
Theorem office_failure_gives_sentinel title data max_chars :
  endswith (lower (or_empty title)) (py ".pdf") = false ->
  _is_office_zip (Some (lower (or_empty title))) = true ->
  (forall text, office_text title data = Returned text -> text = []) ->
  text_preview title data max_chars = Returned (binary_sentinel data)
  /\ is_placeholder (binary_sentinel data) = true.
Proof.
  intros Hpdf Hoff Hfail. split; [|reflexivity].
  unfold text_preview. rewrite Hpdf, Hoff. unfold _preview_office_zip.
  destruct (office_text title data) as [text|e]; [|reflexivity].
  rewrite (Hfail text eq_refl). reflexivity.
Qed.

(** For a PDF name, when both back ends raise or find no text, the preview
    is ["[binary N bytes]"]. *)
Theorem pdf_failure_gives_sentinel title data max_chars :
  endswith (lower (or_empty title)) (py ".pdf") = true ->
  (forall txt, fitz_text data 3 = Returned txt -> txt = []) ->
  (forall txt, pdfminer_text data 3 = Returned txt -> txt = []) ->
  text_preview title data max_chars = Returned (binary_sentinel data).
Proof.
  intros Hpdf Hfitz Hminer. unfold text_preview. rewrite Hpdf.
  unfold _preview_pdf_bytes.
  destruct (fitz_text data 3) as [t|e];
    [rewrite (Hfitz t eq_refl)|];
    (destruct (pdfminer_text data 3) as [m|e'];
     [rewrite (Hminer m eq_refl)|]); reflexivity.
Qed.

Lemma len_clip_bound (text : str) (k : Z) : 0 <= k -> len (clip text k) <= k + 4.
Proof.
  intros Hk. destruct (Z_lt_le_dec k (len text)) as [Hlt|Hge].
  - rewrite len_clip_long by lia. rewrite len_ellipsis. lia.
  - rewrite clip_short by lia. lia.
Qed.

(** With a non-negative budget a preview that is not the "could not
    extract" text has at most [max(max_chars, 900) + 4] characters. *)
Theorem text_preview_length_bound title data max_chars out :
  0 <= max_chars ->
  text_preview title data max_chars = Returned out ->
  out = binary_sentinel data \/ len out <= Z.max max_chars 900 + 4.
Proof.
  intros Hk Hout.
  destruct (text_preview_shape _ _ _ _ Hout) as [Hs | (text & budget & Hcut & ->)];
    [left; exact Hs | right].
  assert (Hb : 0 <= budget <= Z.max max_chars 900).
  { destruct Hcut; lia. }
  pose proof (len_clip_bound text budget (proj1 Hb)). lia.
Qed.

End WithRuntime.

(** *** Runs on concrete inputs *)

Lemma office_failure_gives_sentinel_witness :
  @text_preview Demo.runtime (Some (py "slides.PPTX")) (Demo.xs 12) 600
    = Returned (binary_sentinel (Demo.xs 12))
  /\ is_placeholder (binary_sentinel (Demo.xs 12)) = true.
Proof.
  apply (@office_failure_gives_sentinel Demo.runtime).
  - reflexivity.
  - reflexivity.
  - vm_compute. intros text [= <-]. reflexivity.
Defined.

Lemma pdf_failure_gives_sentinel_witness :
  @text_preview Demo.runtime (Some (py "scan.pdf")) (Demo.xs 12) 600
  = Returned (binary_sentinel (Demo.xs 12)).
Proof.
  apply (@pdf_failure_gives_sentinel Demo.runtime).
  - reflexivity.
  - vm_compute. intros txt [=].
  - vm_compute. intros txt [=].
Defined.

Lemma text_preview_length_bound_witness :
  py "hello world" = binary_sentinel (list_byte_of_string "hello world")
  \/ len (py "hello world") <= Z.max 600 900 + 4.
Proof.
  apply (@text_preview_length_bound Demo.runtime (Some (py "a.txt"))
           (list_byte_of_string "hello world") 600).
  - lia.
  - vm_compute. reflexivity.
Defined.

End ExtractMore.

(** ** More about the connection table *)
Module ConnectionFacts.
Import Storage Connections.

Section WithRuntime.
Context `{Runtime}.

(** Deleting a connection removes it under every spelling of the provider
    that lower-cases to the same string, and touches no other row. *)
Theorem delete_connection_removes db user prov p :
  lower p = lower prov ->
  get_connection_row (delete_connection db user prov) user p = None
  /\ (forall user' prov',
        (strip user', lower prov') <> (strip user, lower prov) ->
        get_connection_row (delete_connection db user prov) user' prov'
        = get_connection_row db user' prov').
Proof.
  intros Hcase. unfold get_connection_row, delete_connection.
  cbn [user_connections]. split.
  - rewrite Hcase. apply lookup_delete_eq.
  - intros user' prov' Hne. apply lookup_delete_ne. congruence.
Qed.

Lemma save_all_row db user prov calls old :
  get_connection_row db user prov = Some old ->
  exists row,
    get_connection_row (save_all db user prov calls) user prov = Some row
    /\ created_at row = created_at old
    /\ (refresh_token old <> VNone -> refresh_token row <> VNone).
Proof.
  revert db old. induction calls as [|[now token] rest IH]; intros db old Hold.
  - exists old. auto.
  - cbn [save_all].
    destruct (forallb bindable (connection_parameters now token VNone VNone))
      eqn:Hfit.
    + destruct (StorageFacts.get_after_save now db user prov token VNone VNone
                  None Hfit)
        as (db1 & row1 & -> & Hrow1 & _ & _ & _ & Hrt & _ & _ & _ & Hcr & _).
      rewrite Hold in Hrt, Hcr. cbn in Hrt, Hcr.
      destruct (IH _ _ Hrow1) as (row & Hrow & Hc & Hkeep).
      exists row. split; [exact Hrow|]. split; [congruence|].
      intros Hnn. apply Hkeep. rewrite Hrt.
      destruct (text_affinity (bound (token_get token (py "refresh_token"))));
        [exact Hnn | discriminate ..].
    + rewrite (StorageFacts.save_connection_raised _ _ _ _ _ _ _ _ Hfit).
      apply IH, Hold.
Qed.

(** Once a refresh token is stored, no number of later [save_connection]
    calls for the same user and provider, whether they return or raise,
    makes the column NULL again, and [created_at] stays the time of the
    first save. *)
Theorem refresh_token_never_erased now0 db user prov token0 calls rt db0 :
  token_get token0 (py "refresh_token") = VStr rt ->
  save_connection now0 db user prov token0 VNone VNone None = Returned db0 ->
  exists first row,
    get_connection_row db0 user prov = Some first
    /\ get_connection_row (save_all db0 user prov calls) user prov = Some row
    /\ refresh_token row <> VNone
    /\ created_at row = created_at first.
Proof.
  intros Hrt Hsave.
  destruct (StorageFacts.get_after_save now0 db user prov token0 VNone VNone None
              (StorageFacts.save_connection_fits _ _ _ _ _ _ _ _ _ Hsave))
    as (db0' & first & Hsave' & Hfirst & _ & _ & _ & Hrt0 & _).
  rewrite Hsave in Hsave'. injection Hsave' as <-.
  destruct (save_all_row db0 user prov calls first Hfirst)
    as (row & Hrow & Hc & Hkeep).
  exists first, row. repeat split; try assumption.
  apply Hkeep. rewrite Hrt0, Hrt. discriminate.
Qed.

(** A save without account data, as the token refresh makes it, resets
    the account id, the account e-mail and the metadata of the row, a stored
    quick link included. *)
Theorem refresh_save_resets_account_data now db user prov token db' :
  save_connection now db user prov token VNone VNone None = Returned db' ->
  exists row,
    get_connection_row db' user prov = Some row
    /\ provider_account_id row = VNone
    /\ provider_account_email row = VNone
    /\ meta_json row = VStr (json_dumps (JDict [])).
Proof.
  intros Hsave.
  destruct (StorageFacts.get_after_save now db user prov token VNone VNone None
              (StorageFacts.save_connection_fits _ _ _ _ _ _ _ _ _ Hsave))
    as (db0 & row & Hsave' & Hrow & _ & _ & _ & _ & _ & _ & _ & _ & Hm & Hpi & Hpe).
  rewrite Hsave in Hsave'. injection Hsave' as <-.
  exists row. split; [exact Hrow|]. split; [exact Hpi|]. split; [exact Hpe|].
  exact Hm.
Qed.

(** The providers listed for a user are those with a stored row. *)
Theorem listed_iff_connected db user (p : str) (email : value) :
  (p, email) ∈ get_all_connections db user
  <-> exists row,
        user_connections db !! (strip user, p) = Some row
        /\ provider_account_email row = email.
Proof.
  unfold get_all_connections. rewrite list_elem_of_fmap. split.
  - intros ([[u q] row] & Heq & Hin). cbn in Heq. injection Heq as -> ->.
    apply list_elem_of_filter in Hin as [Hu Hin]. cbn in Hu. subst u.
    apply elem_of_map_to_list in Hin. eauto.
  - intros (row & Hrow & <-). exists ((strip user, p), row). split; [reflexivity|].
    apply list_elem_of_filter. split; [reflexivity|].
    apply elem_of_map_to_list. exact Hrow.
Qed.

(** Changing the metadata of a connection leaves its tokens and every
    other row as they were; without a row nothing is written. *)
Theorem update_connection_meta_frame now db user prov updates db' :
  update_connection_meta now db user prov updates = Returned db' ->
  (get_connection_row db user prov = None -> db' = db)
  /\ (forall row,
        get_connection_row db user prov = Some row ->
        exists row',
          get_connection_row db' user prov = Some row'
          /\ access_token row' = access_token row
          /\ refresh_token row' = refresh_token row
          /\ expires_at row' = expires_at row
          /\ scope row' = scope row
          /\ provider_account_email row' = provider_account_email row
          /\ updated_at row' = now)
  /\ (forall user' prov',
        (strip user', lower prov') <> (strip user, lower prov) ->
        get_connection_row db' user' prov' = get_connection_row db user' prov')
  /\ document_cache db' = document_cache db.
Proof.
  unfold update_connection_meta, get_connection_row.
  destruct (dict_update _ updates) as [merged|e]; [|discriminate].
  cbn [obind]. destruct (bind_parameter (VInt now)); [|discriminate].
  cbn [obind]. intros [= <-]. cbn [user_connections document_cache].
  repeat split.
  - intros Hnone. rewrite Hnone. destruct db; reflexivity.
  - intros row Hrow. rewrite Hrow. rewrite lookup_insert_eq.
    eexists. split; [reflexivity|]. cbn. repeat split.
  - intros user' prov' Hne.
    destruct (user_connections db !! (strip user, lower prov)); [|reflexivity].
    apply lookup_insert_ne. congruence.
Qed.

(** When [json.loads] reads back what [json.dumps] wrote, the metadata read
    after an update is the old metadata with the updated keys set. *)
Theorem connection_meta_roundtrip now db user prov updates db' row old :
  get_connection_row db user prov = Some row ->
  get_connection_meta db user prov = Some (JDict old) ->
  update_connection_meta now db user prov updates = Returned db' ->
  let merged :=
    JDict (fold_left (fun d kv => dict_set d (fst kv) (snd kv)) updates
             (if truthy (JDict old) then old else [])) in
  json_dumps merged <> [] ->
  json_loads (json_dumps merged) = Returned merged ->
  get_connection_meta db' user prov = Some merged.
Proof.
  intros Hrow Hmeta Hupd merged Hne Hload.
  unfold update_connection_meta in Hupd. rewrite Hmeta in Hupd.
  assert (Hmerged : dict_update (if truthy (JDict old) then JDict old else JDict [])
                      updates = Returned merged).
  { unfold merged. destruct (truthy (JDict old)); reflexivity. }
  rewrite Hmerged in Hupd. cbn [obind] in Hupd.
  destruct (bind_parameter (VInt now)); [|discriminate].
  cbn [obind] in Hupd. injection Hupd as <-.
  unfold get_connection_row in Hrow. rewrite Hrow.
  unfold get_connection_meta, get_connection_row. cbn [user_connections].
  rewrite lookup_insert_eq. cbn [meta_json].
  destruct (json_dumps merged) as [|c t] eqn:Hd; [contradiction|].
  cbn [obind]. rewrite Hload. reflexivity.
Qed.

End WithRuntime.

(** *** Runs on concrete inputs *)

Lemma delete_connection_removes_witness :
  @get_connection_row Demo.runtime
    (@delete_connection Demo.runtime Demo.db_connected (py "alice") (py "google"))
    (py "alice") (py "GOOGLE") = None.
Proof.
  apply (@delete_connection_removes Demo.runtime Demo.db_connected
           (py "alice") (py "google") (py "GOOGLE")).
  reflexivity.
Defined.

Lemma refresh_token_never_erased_witness :
  exists row,
    @get_connection_row Demo.runtime
      (@save_all Demo.runtime Demo.db_connected (py "alice") (py "google")
         [(2000, Demo.refreshed_token); (3000, Demo.refreshed_token)])
      (py "alice") (py "google") = Some row
    /\ refresh_token row <> VNone
    /\ created_at row = 1000.
Proof.
  destruct (@refresh_token_never_erased Demo.runtime 1000 Demo.empty_db
              (py " alice ") (py "Google") Demo.first_token
              [(2000, Demo.refreshed_token); (3000, Demo.refreshed_token)]
              (py "rt-1") Demo.db_connected eq_refl eq_refl)
    as (first & row & Hfirst & Hrow & Hrt & Hc).
  exists row. split; [exact Hrow|]. split; [exact Hrt|].
  rewrite Hc. vm_compute in Hfirst. injection Hfirst as <-. reflexivity.
Defined.

Lemma refresh_save_resets_account_data_witness :
  exists row,
    @get_connection_row Demo.runtime
      (Demo.saved Demo.db_connected
         (@save_connection Demo.runtime 2000 Demo.db_connected (py "alice")
            (py "google") Demo.refreshed_token VNone VNone None))
      (py "alice") (py "google") = Some row
    /\ provider_account_id row = VNone
    /\ provider_account_email row = VNone
    /\ meta_json row = VStr (py "{}").
Proof.
  apply (@refresh_save_resets_account_data Demo.runtime 2000 Demo.db_connected
           (py "alice") (py "google") Demo.refreshed_token).
  vm_compute. reflexivity.
Defined.

Lemma update_connection_meta_frame_witness :
  exists db' row',
    @update_connection_meta Demo.runtime 2000 Demo.db_connected (py "alice")
      (py "google") [(py "quick_link", JStr (py "https://x"))] = Returned db'
    /\ @get_connection_row Demo.runtime db' (py "alice") (py "google") = Some row'
    /\ refresh_token row' = VStr (py "rt-1")
    /\ updated_at row' = 2000.
Proof.
  eexists.
  edestruct (@update_connection_meta_frame Demo.runtime 2000 Demo.db_connected
               (py "alice") (py "google")
               [(py "quick_link", JStr (py "https://x"))])
    as (_ & Hrow & _).
  - vm_compute. reflexivity.
  - edestruct Hrow as (row' & Hget & _ & Hrt & _ & _ & _ & Hup).
    + vm_compute. reflexivity.
    + exists row'. split; [reflexivity|]. split; [exact Hget|].
      split; [exact Hrt | exact Hup].
Defined.

Lemma connection_meta_roundtrip_witness :
  exists db',
    @update_connection_meta Scenarios.kv_runtime 2000 Demo.db_connected
      (py "alice") (py "Google") Scenarios.quick_link = Returned db'
    /\ @get_connection_meta Scenarios.kv_runtime db' (py "alice") (py "google")
       = Some (JDict Scenarios.quick_link).
Proof.
  eexists. split; [vm_compute; reflexivity|].
  eapply (@connection_meta_roundtrip Scenarios.kv_runtime 2000 Demo.db_connected
            (py "alice") (py "google") Scenarios.quick_link _ _ []).
  - vm_compute. reflexivity.
  - vm_compute. reflexivity.
  - vm_compute. reflexivity.
  - vm_compute. discriminate.
  - vm_compute. reflexivity.
Defined.

End ConnectionFacts.

(** ** The document cache *)
Module CacheFacts.
Import Storage Connections.

Lemma same_document_key u p d r :
  same_document u p d r = bool_decide (document_key r = (u, p, d)).
Proof.
  unfold same_document, document_key. apply bool_decide_ext.
  split; [intros (-> & -> & ->); reflexivity | intros [= -> -> ->]; auto].
Qed.

Lemma upsert_keys now u p d t c s rows :
  map document_key (upsert_document now u p d t c s rows)
  = if bool_decide ((u, p, d) ∈ map document_key rows)
    then map document_key rows
    else map document_key rows ++ [(u, p, d)].
Proof.
  induction rows as [|r rest IH]; [reflexivity|].
  cbn [upsert_document map]. rewrite same_document_key.
  destruct (bool_decide_reflect (document_key r = (u, p, d))) as [Hk|Hk].
  - cbn [map document_key doc_user_name doc_provider doc_id].
    rewrite bool_decide_eq_true_2 by (rewrite <- Hk; left).
    reflexivity.
  - cbn [map]. rewrite IH.
    destruct (bool_decide_reflect ((u, p, d) ∈ map document_key rest)) as [Hin|Hin].
    + rewrite bool_decide_eq_true_2 by (right; exact Hin). reflexivity.
    + rewrite bool_decide_eq_false_2; [reflexivity|].
      intros Hin'. apply elem_of_cons in Hin' as [Heq|Hin']; [|contradiction].
      apply Hk. symmetry. exact Heq.
Qed.

Lemma find_upsert now u p d t c s rows :
  exists row,
    find (same_document u p d) (upsert_document now u p d t c s rows) = Some row
    /\ doc_title row
       = COALESCE t (from_option doc_title VNone (find (same_document u p d) rows))
    /\ content_preview row
       = COALESCE c (from_option content_preview VNone
                       (find (same_document u p d) rows))
    /\ summary row
       = COALESCE s (from_option summary VNone (find (same_document u p d) rows))
    /\ doc_updated_at row = now.
Proof.
  induction rows as [|r rest IH]; cbn [upsert_document find].
  - unfold same_document at 1. cbn. rewrite bool_decide_eq_true_2 by auto.
    eexists. split; [reflexivity|]. cbn.
    destruct t, c, s; repeat split; reflexivity.
  - destruct (same_document u p d r) eqn:Hr.
    + cbn [find]. unfold same_document at 1. cbn.
      unfold same_document in Hr. apply bool_decide_eq_true in Hr.
      rewrite bool_decide_eq_true_2 by exact Hr.
      eexists. split; [reflexivity|]. cbn. repeat split.
    + cbn [find]. rewrite Hr. exact IH.
Qed.

Lemma same_document_other u p d u' p' d' r :
  document_key r = (u, p, d) -> (u', p', d') <> (u, p, d) ->
  same_document u' p' d' r = false.
Proof.
  intros Hk Hne. rewrite same_document_key. apply bool_decide_eq_false_2.
  rewrite Hk. intros Heq. apply Hne. symmetry. exact Heq.
Qed.

Lemma find_upsert_other now u p d t c s rows u' p' d' :
  (u', p', d') <> (u, p, d) ->
  find (same_document u' p' d') (upsert_document now u p d t c s rows)
  = find (same_document u' p' d') rows.
Proof.
  intros Hne. induction rows as [|r rest IH]; cbn [upsert_document find].
  - rewrite (same_document_other u p d); [reflexivity | reflexivity | exact Hne].
  - destruct (same_document u p d r) eqn:Hr.
    + cbn [find]. rewrite same_document_key in Hr.
      apply bool_decide_eq_true in Hr.
      rewrite (same_document_other u p d u' p' d' r Hr Hne).
      rewrite (same_document_other u p d); [reflexivity | exact Hr | exact Hne].
    + cbn [find]. rewrite IH. reflexivity.
Qed.

Section WithRuntime.
Context `{Runtime}.

(** What a call of [cache_document] that returns has written. *)
Lemma cache_document_returned now db user prov d t c s db' :
  cache_document now db user prov d t c s = Returned db' ->
  bindable d = true
  /\ text_affinity (bound d) <> VNone
  /\ db' = {| user_connections := user_connections db;
              document_cache :=
                upsert_document now (strip user) (lower prov)
                  (text_affinity (bound d)) (text_affinity (bound t))
                  (text_affinity (bound c)) (text_affinity (bound s))
                  (document_cache db) |}.
Proof.
  unfold cache_document, bind_parameter.
  destruct (bindable d); [|discriminate]. cbn [obind].
  destruct (bindable t); [|discriminate]. cbn [obind].
  destruct (bindable c); [|discriminate]. cbn [obind].
  destruct (bindable s); [|discriminate]. cbn [obind].
  destruct (bindable (VInt now)); [|discriminate]. cbn [obind].
  destruct (text_affinity (bound d)) eqn:Hd; [discriminate | | |];
    intros [= <-]; repeat split; discriminate.
Qed.

(** After [cache_document] has returned the document is found again under
    the id as the column keeps it: title, preview and summary are the new
    values, or the cached ones where the new value is NULL.  Documents
    under another key read as before. *)
Theorem cached_document_roundtrip now db user prov d t c s db' :
  cache_document now db user prov d t c s = Returned db' ->
  let old :=
    find (same_document (strip user) (lower prov) (text_affinity (bound d)))
      (document_cache db) in
  (exists row,
      get_cached_document db' user prov d = Returned (Some row)
      /\ doc_id row = text_affinity (bound d)
      /\ doc_title row
         = COALESCE (text_affinity (bound t)) (from_option doc_title VNone old)
      /\ content_preview row
         = COALESCE (text_affinity (bound c)) (from_option content_preview VNone old)
      /\ summary row
         = COALESCE (text_affinity (bound s)) (from_option summary VNone old)
      /\ doc_updated_at row = now)
  /\ (forall user' prov' d',
        (strip user', lower prov', text_affinity (bound d'))
        <> (strip user, lower prov, text_affinity (bound d)) ->
        get_cached_document db' user' prov' d'
        = get_cached_document db user' prov' d')
  /\ user_connections db' = user_connections db.
Proof.
  intros Hc old.
  destruct (cache_document_returned _ _ _ _ _ _ _ _ _ Hc) as (Hb & Hnn & ->).
  split; [|split; [|reflexivity]].
  - destruct (find_upsert now (strip user) (lower prov) (text_affinity (bound d))
                (text_affinity (bound t)) (text_affinity (bound c))
                (text_affinity (bound s)) (document_cache db))
      as (row & Hfind & Ht & Hcp & Hs & Hup).
    exists row. unfold get_cached_document, bind_parameter. rewrite Hb.
    cbn [obind document_cache].
    assert (Hid : doc_id row = text_affinity (bound d)).
    { apply find_some in Hfind as [_ Hsame]. unfold same_document in Hsame.
      apply bool_decide_eq_true in Hsame. tauto. }
    destruct (text_affinity (bound d)) eqn:Hd; [contradiction | | |];
      rewrite Hfind; repeat split; assumption.
  - intros user' prov' d' Hne. unfold get_cached_document, bind_parameter.
    destruct (bindable d'); [|reflexivity]. cbn [obind document_cache].
    destruct (text_affinity (bound d')) eqn:Hd'; [reflexivity | | |];
      rewrite find_upsert_other by exact Hne; reflexivity.
Qed.

(** The cache never holds two rows for one document: [cache_document] keeps
    the keys [(user_name, provider, doc_id)] distinct, and it adds at most
    one row. *)
Theorem cache_keys_stay_unique now db user prov d t c s db' :
  NoDup (map document_key (document_cache db)) ->
  cache_document now db user prov d t c s = Returned db' ->
  NoDup (map document_key (document_cache db'))
  /\ (length (document_cache db') <= S (length (document_cache db)))%nat.
Proof.
  intros Hnd Hc.
  destruct (cache_document_returned _ _ _ _ _ _ _ _ _ Hc) as (_ & _ & ->).
  cbn [document_cache]. split.
  - rewrite upsert_keys. case_bool_decide as Hin; [exact Hnd|].
    apply NoDup_app. split; [exact Hnd|]. split.
    + intros k Hk Hk'. apply list_elem_of_singleton in Hk'. subst k. contradiction.
    + apply NoDup_singleton.
  - rewrite <- (length_map document_key), upsert_keys.
    case_bool_decide; rewrite ?length_app, !length_map; cbn; lia.
Qed.

End WithRuntime.

Lemma cached_document_roundtrip_witness :
  exists db' row,
    @cache_document Demo.runtime 1500 Demo.empty_db (py "alice") (py "Notion")
      (VStr (py "P1")) (VStr (py "Plan")) VNone VNone = Returned db'
    /\ @get_cached_document Demo.runtime db' (py "alice") (py "notion")
         (VStr (py "P1")) = Returned (Some row)
    /\ doc_title row = VStr (py "Plan")
    /\ doc_updated_at row = 1500.
Proof.
  eexists.
  edestruct (@cached_document_roundtrip Demo.runtime 1500 Demo.empty_db
               (py "alice") (py "Notion") (VStr (py "P1")) (VStr (py "Plan"))
               VNone VNone)
    as ((row & Hget & _ & Ht & _ & _ & Hup) & _).
  - reflexivity.
  - exists row. split; [reflexivity|]. split; [exact Hget|].
    split; [exact Ht | exact Hup].
Defined.

Lemma cache_keys_stay_unique_witness :
  exists db',
    @cache_document Demo.runtime 1500 Demo.empty_db (py "alice") (py "notion")
      (VStr (py "P1")) VNone VNone VNone = Returned db'
    /\ NoDup (map document_key (document_cache db')).
Proof.
  eexists. split; [reflexivity|].
  eapply (@cache_keys_stay_unique Demo.runtime 1500 Demo.empty_db (py "alice")
            (py "notion") (VStr (py "P1")) VNone VNone VNone).
  - apply NoDup_nil_2.
  - reflexivity.
Defined.

End CacheFacts.

(** ** Chat history *)
Module HistoryFacts.
Import ChatHistory.

Lemma lastn_suffix {A} (n : nat) (l : list A) :
  rev (firstn n (rev l)) `suffix_of` l.
Proof.
  exists (rev (skipn n (rev l))).
  rewrite <- rev_app_distr, firstn_skipn, rev_involutive. reflexivity.
Qed.

Lemma limit_fits (limit : Z) :
  0 <= limit <= Storage.INT64_MAX ->
  negb (Storage.bindable (Storage.VInt limit)) = false.
Proof.
  intros [Hlo Hhi]. unfold Storage.bindable.
  assert (Hmin : Storage.INT64_MIN <= 0) by (vm_compute; discriminate).
  destruct (Z.leb_spec Storage.INT64_MIN limit); [|lia].
  destruct (Z.leb_spec limit Storage.INT64_MAX); [reflexivity | lia].
Qed.

(** With a non-negative limit [get_chat_history] returns the newest
    messages of the user in the order they were added: a suffix of the
    user's messages, [min(limit, count)] of them. *)
Theorem get_chat_history_newest use_postgres table user limit :
  0 <= limit <= Storage.INT64_MAX ->
  exists msgs,
    get_chat_history use_postgres table user limit = Returned msgs
    /\ msgs `suffix_of` messages_of table user
    /\ length msgs = Nat.min (Z.to_nat limit) (length (messages_of table user)).
Proof.
  intros Hl. unfold get_chat_history. rewrite (limit_fits _ Hl).
  destruct (Z.ltb_spec limit 0); [lia|].
  eexists. split; [reflexivity|]. split; [apply lastn_suffix|].
  rewrite length_rev, length_firstn, length_rev. reflexivity.
Qed.

(** A message just added is the last one returned, whatever positive limit
    is asked for. *)
Theorem added_message_is_last use_postgres now table user role_ content_ prov limit :
  0 < limit <= Storage.INT64_MAX ->
  exists msgs,
    get_chat_history use_postgres
      (add_chat_history now table user role_ content_ prov) user limit
    = Returned (msgs ++ [ {| msg_user_name := strip user; role := role_;
                             content := content_; msg_provider := prov;
                             msg_created_at := now |} ]).
Proof.
  intros Hl. unfold get_chat_history, add_chat_history, messages_of.
  rewrite limit_fits by lia.
  destruct (Z.ltb_spec limit 0); [lia|].
  rewrite filter_app, filter_cons_True by reflexivity. rewrite filter_nil.
  rewrite rev_app_distr. cbn [rev app].
  destruct (Z.to_nat limit) as [|n] eqn:Hn; [lia|].
  cbn [firstn rev]. eexists. reflexivity.
Qed.

(** Clearing the history of a user empties it and leaves the messages of
    every other user in place. *)
Theorem clear_chat_history_clears use_postgres table user other limit :
  0 <= limit <= Storage.INT64_MAX ->
  get_chat_history use_postgres (clear_chat_history table user) user limit
  = Returned []
  /\ (strip other <> strip user ->
      get_chat_history use_postgres (clear_chat_history table user) other limit
      = get_chat_history use_postgres table other limit).
Proof.
  intros Hl. unfold get_chat_history, clear_chat_history, messages_of.
  rewrite (limit_fits _ Hl).
  destruct (Z.ltb_spec limit 0); [lia|]. split.
  - replace (filter _ (filter _ table)) with (@nil message);
      [destruct (Z.to_nat limit); reflexivity|].
    symmetry. induction table as [|m t IH]; [reflexivity|].
    rewrite (filter_cons (fun m => msg_user_name m <> strip user)).
    case_decide as Hne; [|exact IH].
    rewrite filter_cons_False by exact Hne. exact IH.
  - intros Hother.
    enough (Hsame : filter (fun m => msg_user_name m = strip other)
                      (filter (fun m => msg_user_name m <> strip user) table)
                    = filter (fun m => msg_user_name m = strip other) table)
      by (rewrite Hsame; reflexivity).
    induction table as [|m t IH]; [reflexivity|].
    rewrite (filter_cons (fun m => msg_user_name m <> strip user)).
    rewrite (filter_cons (fun m => msg_user_name m = strip other) m t).
    case_decide as Hne.
    + rewrite filter_cons, IH. reflexivity.
    + rewrite IH. rewrite decide_False; [reflexivity|]. congruence.
Qed.

Lemma get_chat_history_newest_witness :
  exists msgs,
    get_chat_history false
      (add_chat_history 3 (add_chat_history 2 (add_chat_history 1 []
         (py "alice") (py "user") (py "q1") None)
         (py "bob") (py "user") (py "q2") None)
         (py "alice") (py "assistant") (py "a1") None)
      (py " alice ") 1 = Returned msgs
    /\ length msgs = 1%nat.
Proof.
  destruct (get_chat_history_newest false
              (add_chat_history 3 (add_chat_history 2 (add_chat_history 1 []
                 (py "alice") (py "user") (py "q1") None)
                 (py "bob") (py "user") (py "q2") None)
                 (py "alice") (py "assistant") (py "a1") None)
              (py " alice ") 1)
    as (msgs & Hget & _ & Hlen); [vm_compute; split; discriminate|].
  exists msgs. split; [exact Hget|]. rewrite Hlen. reflexivity.
Defined.

Lemma added_message_is_last_witness :
  exists msgs,
    get_chat_history true
      (add_chat_history 7 [] (py "alice") (py "user") (py "hello") (Some (py "auto")))
      (py "alice") 20
    = Returned (msgs ++ [ {| msg_user_name := py "alice"; role := py "user";
                             content := py "hello";
                             msg_provider := Some (py "auto");
                             msg_created_at := 7 |} ]).
Proof.
  apply (added_message_is_last true 7 [] (py "alice") (py "user") (py "hello")
           (Some (py "auto")) 20).
  vm_compute. split; [reflexivity | discriminate].
Defined.

Lemma clear_chat_history_clears_witness :
  get_chat_history false
    (clear_chat_history
       (add_chat_history 1 [] (py "alice") (py "user") (py "q1") None) (py "alice"))
    (py "alice") 20 = Returned [].
Proof.
  destruct (clear_chat_history_clears false
              (add_chat_history 1 [] (py "alice") (py "user") (py "q1") None)
              (py "alice") (py "bob") 20) as [Hclear _];
    [vm_compute; split; discriminate | exact Hclear].
Defined.

End HistoryFacts.

(** ** Users *)
Module UserFacts.
Import Users.

Lemma find_app_new (n : str) (table : list user) (u : user) :
  existsb (has_user_name n) table = false ->
  u_user_name u = n ->
  find (has_user_name n) (table ++ [u]) = Some u.
Proof.
  intros Hfree Hu. induction table as [|x t IH]; cbn [app find].
  - unfold has_user_name. rewrite bool_decide_eq_true_2 by exact Hu. reflexivity.
  - cbn [existsb] in Hfree. apply orb_false_elim in Hfree as [Hx Ht].
    rewrite Hx. auto.
Qed.

Lemma find_app_old (n : str) (table : list user) (u : user) :
  u_user_name u <> n ->
  find (has_user_name n) (table ++ [u]) = find (has_user_name n) table.
Proof.
  intros Hu. induction table as [|x t IH]; cbn [app find].
  - unfold has_user_name. rewrite bool_decide_eq_false_2 by exact Hu. reflexivity.
  - destruct (has_user_name n x); [reflexivity | exact IH].
Qed.

(** After [create_user] has succeeded the user logs in with exactly the
    password given, under the name with or without surrounding white
    space, and every other user logs in as before. *)
Theorem created_user_can_log_in now table name password table' :
  create_user now table name password = inr table' ->
  (forall name' password',
      strip name' = strip name ->
      verify_login table' name' password' = bool_decide (password = password'))
  /\ (forall name' password',
        strip name' <> strip name ->
        verify_login table' name' password' = verify_login table name' password').
Proof.
  unfold create_user.
  destruct (existsb (has_user_name (strip name)) table) eqn:Hfree; [discriminate|].
  intros [= <-]. split.
  - intros name' password' Hn. unfold verify_login. rewrite Hn.
    erewrite find_app_new; [reflexivity | exact Hfree | reflexivity].
  - intros name' password' Hn. unfold verify_login.
    rewrite find_app_old; [reflexivity|]. cbn. congruence.
Qed.

(** A name that is taken is refused with [USERNAME_TAKEN] — and only such
    a name; the table of a successful call has one row more. *)
Theorem create_user_taken now table name password :
  (is_Some (get_user table name)
   -> create_user now table name password = inl USERNAME_TAKEN)
  /\ (get_user table name = None
      -> exists table',
           create_user now table name password = inr table'
           /\ length table' = S (length table)).
Proof.
  unfold get_user, create_user. split.
  - intros [u Hu]. apply find_some in Hu as [Hin Hname].
    assert (Hex : existsb (has_user_name (strip name)) table = true).
    { apply existsb_exists. eauto. }
    rewrite Hex. reflexivity.
  - intros Hnone.
    destruct (existsb (has_user_name (strip name)) table) eqn:Hex.
    + apply existsb_exists in Hex as (u & Hin & Hname).
      pose proof (find_none _ _ Hnone u Hin) as Hn. congruence.
    + eexists. split; [reflexivity|]. rewrite length_app. cbn. lia.
Qed.

(** Names stay distinct: [create_user] never makes two rows with one name. *)
Theorem user_names_stay_unique now table name password table' :
  NoDup (map u_user_name table) ->
  create_user now table name password = inr table' ->
  NoDup (map u_user_name table').
Proof.
  intros Hnd. unfold create_user.
  destruct (existsb (has_user_name (strip name)) table) eqn:Hex; [discriminate|].
  intros [= <-]. rewrite map_app. cbn.
  apply NoDup_app. split; [exact Hnd|]. split; [|apply NoDup_singleton].
  intros n Hn Hn'. apply list_elem_of_singleton in Hn'. subst n.
  apply list_elem_of_fmap in Hn as (u & Hu & Hin).
  assert (Htrue : existsb (has_user_name (strip name)) table = true).
  { apply existsb_exists. exists u. split; [apply list_elem_of_In; exact Hin|].
    unfold has_user_name. apply bool_decide_eq_true. auto. }
  congruence.
Qed.

(** A name that the availability check accepts is accepted by
    [create_user]: the check compares up to [lower], the constraint
    exactly. *)
Theorem available_name_can_be_created sql_lower now table name password :
  is_unique_user_name sql_lower table name = true ->
  exists table', create_user now table name password = inr table'.
Proof.
  unfold is_unique_user_name, create_user. intros Hfree.
  apply negb_true_iff in Hfree.
  destruct (existsb (has_user_name (strip name)) table) eqn:Hex; [|eauto].
  apply existsb_exists in Hex as (u & Hin & Hname).
  unfold has_user_name in Hname. apply bool_decide_eq_true in Hname.
  assert (Htrue : existsb (fun u => bool_decide (sql_lower (u_user_name u)
                     = sql_lower (strip name))) table = true).
  { apply existsb_exists. exists u. split; [exact Hin|].
    apply bool_decide_eq_true. rewrite Hname. reflexivity. }
  congruence.
Qed.

Lemma created_user_can_log_in_witness :
  exists table',
    create_user 10 [] (py " alice ") (py "secret12") = inr table'
    /\ verify_login table' (py "alice") (py "secret12") = true
    /\ verify_login table' (py "alice") (py "secret12 ") = false.
Proof.
  eexists. split; [reflexivity|].
  destruct (created_user_can_log_in 10 [] (py " alice ") (py "secret12") _ eq_refl)
    as [Hsame _].
  split; rewrite Hsame; reflexivity.
Defined.

Lemma user_names_stay_unique_witness :
  exists table',
    create_user 10 [] (py "alice") (py "secret12") = inr table'
    /\ NoDup (map u_user_name table').
Proof.
  eexists. split; [reflexivity|].
  apply (user_names_stay_unique 10 [] (py "alice") (py "secret12"));
    [apply NoDup_nil_2 | reflexivity].
Defined.

Lemma available_name_can_be_created_witness :
  exists table', create_user 10 [] (py "alice") (py "secret12") = inr table'.
Proof.
  apply (available_name_can_be_created Demo.ascii_lower 10 [] (py "alice")
           (py "secret12")).
  reflexivity.
Defined.

End UserFacts.

(** ** More about the adapters *)
Module AdapterFacts.
Import Storage Effects Extract Providers Registry ChatRouter ChatChunks Shapes.
Import ExtractFacts ProviderFacts.
Local Open Scope world_scope.

(** Case analysis on every test of an unfolded computation, innermost
    scrutinee first. *)
Ltac split_case Hc :=
  match type of Hc with
  | context [match ?x with _ => _ end] =>
    lazymatch x with
    | context [match _ with _ => _ end] => fail
    | _ => let E := fresh "E" in destruct x eqn:E; try discriminate Hc
    end
  end.

Ltac split_cases Hc := repeat (split_case Hc; cbn [fst snd] in Hc).

Section WithRuntime.
Context `{Runtime}.

(** *** Downloads *)

(** [_http_get_bytes] gives the body of a 200 answer and the empty byte
    string for every other answer, for a failed request and for a URL that
    is no string. *)
Theorem http_get_bytes_result (url : json) headers (timeout : Z) (w : World) :
  fst (_http_get_bytes url headers timeout w)
  = Returned
      match url with
      | JStr u =>
        match network w (requests_sent w)
                {| req_method := GET; req_url := u;
                   req_headers := default [] headers; req_params := [];
                   req_data := []; req_json := None; req_timeout := timeout;
                   req_follow_redirects := true |} with
        | Returned r => if status_code r =? 200 then content r else []
        | Raised _ => []
        end
      | _ => []
      end.
Proof.
  unfold _http_get_bytes, with_dl_semaphore, finally, catch, bind, lift,
    http_get, send, ret.
  destruct url; cbn; try reflexivity.
  destruct (network w (requests_sent w) _); reflexivity.
Qed.

(** *** Tokens that are still good *)

Lemma google_valid_token_fresh (user_name_ : str) (w : World) row x :
  Storage.get_connection_row (db w) user_name_ GoogleProvider.name = Some row ->
  expires_at row = VInt x ->
  clock w (clock_reads w) + 60 <= x ->
  GoogleProvider._get_valid_token user_name_ w
  = (Returned (vor (access_token row) (VStr [])), tick_clock w).
Proof.
  intros Hrow Hx Hfresh.
  unfold GoogleProvider._get_valid_token, _read_token_row,
    Effects.get_provider_token, Effects.get_connection_row, time_now,
    bind, lift, ret.
  rewrite Hrow. unfold _extract_tokens. rewrite Hx.
  assert (Hint : int_of_value (vor (VInt x) (VInt 0)) = Returned x).
  { unfold vor, value_truthy. destruct (Z.eqb_spec x 0) as [->|]; reflexivity. }
  rewrite Hint. cbn.
  destruct (Z.ltb_spec x (clock w (clock_reads w) + 60)); [lia | reflexivity].
Qed.

(** A stored token with at least 60 seconds left is handed out as it is by
    both adapters: the clock is read once, nothing is sent, the database is
    not written.  So is it on the next call, while the 60 seconds last. *)
Theorem valid_token_needs_no_refresh (user_name_ provider_ : str) (w : World) row x :
  provider_ = GoogleProvider.name \/ provider_ = OneDriveProvider.name ->
  Storage.get_connection_row (db w) user_name_ provider_ = Some row ->
  expires_at row = VInt x ->
  clock w (clock_reads w) + 60 <= x ->
  let get_token := if bool_decide (provider_ = GoogleProvider.name)
                   then GoogleProvider._get_valid_token
                   else OneDriveProvider._get_valid_token in
  exists w',
    get_token user_name_ w = (Returned (vor (access_token row) (VStr [])), w')
    /\ trace w' = trace w /\ db w' = db w
    /\ (clock w' (clock_reads w') + 60 <= x ->
        exists w'',
          get_token user_name_ w'
          = (Returned (vor (access_token row) (VStr [])), w'')
          /\ trace w'' = trace w).
Proof.
  intros Hp Hrow Hx Hfresh get_token. exists (tick_clock w).
  destruct Hp as [-> | ->]; unfold get_token;
    [rewrite bool_decide_eq_true_2 by reflexivity
    |rewrite bool_decide_eq_false_2 by discriminate].
  - rewrite (google_valid_token_fresh _ _ _ _ Hrow Hx Hfresh).
    repeat split. intros Hfresh'. exists (tick_clock (tick_clock w)).
    rewrite (google_valid_token_fresh _ (tick_clock w) _ _ Hrow Hx Hfresh').
    split; reflexivity.
  - rewrite (onedrive_valid_token_fresh _ _ _ _ Hrow Hx Hfresh).
    repeat split. intros Hfresh'. exists (tick_clock (tick_clock w)).
    rewrite (onedrive_valid_token_fresh _ (tick_clock w) _ _ Hrow Hx Hfresh').
    split; reflexivity.
Qed.

(** *** At most one refresh *)

Lemma google_refresh_at_most_one_post (user_name_ : str) (w w' : World) r :
  GoogleProvider.refresh_token user_name_ w = (r, w') ->
  at_most_one_post (trace w) (trace w').
Proof.
  unfold GoogleProvider.refresh_token, _read_token_row, _get_google_env,
    Effects.get_provider_token, Effects.get_connection_row,
    Effects.save_connection, http_post_form, send, getenv, time_now,
    bind, lift, ret, raise.
  intros Hc. split_cases Hc; injection Hc as <- <-; cbn;
    first [ left; reflexivity | right; eexists; split; reflexivity ].
Qed.

Lemma onedrive_refresh_at_most_one_post (user_name_ : str) (w w' : World) r :
  OneDriveProvider.refresh_token user_name_ w = (r, w') ->
  at_most_one_post (trace w) (trace w').
Proof.
  destruct r as [[]|e]; intros Hc.
  - destruct (onedrive_refresh_returned _ _ _ Hc) as (post & Htr & Hpost & _).
    right. eauto.
  - destruct (onedrive_refresh_raised _ _ _ _ Hc) as [Htr | (post & Htr & Hpost)];
      [left | right]; eauto.
Qed.

(** Whatever is stored and whatever the servers answer, [_get_valid_token]
    of either adapter sends no request, or exactly one, a POST to the token
    endpoint: a refresh is tried once and never repeated. *)
Theorem get_valid_token_refreshes_at_most_once (user_name_ : str) (w : World) :
  at_most_one_post (trace w)
    (trace (snd (GoogleProvider._get_valid_token user_name_ w)))
  /\ at_most_one_post (trace w)
       (trace (snd (OneDriveProvider._get_valid_token user_name_ w))).
Proof.
  split.
  - destruct (GoogleProvider._get_valid_token user_name_ w) as [r w'] eqn:Hc.
    cbn [snd]. revert Hc.
    unfold GoogleProvider._get_valid_token, _read_token_row,
      Effects.get_provider_token, Effects.get_connection_row, time_now,
      bind, lift, ret.
    intros Hc. split_cases Hc; injection Hc as <- <-; cbn;
      try (left; reflexivity);
      match goal with
      | E : GoogleProvider.refresh_token _ _ = _ |- _ =>
        apply google_refresh_at_most_one_post in E; exact E
      end.
  - destruct (OneDriveProvider._get_valid_token user_name_ w) as [r w'] eqn:Hc.
    cbn [snd]. revert Hc.
    unfold OneDriveProvider._get_valid_token, _read_token_row,
      Effects.get_provider_token, Effects.get_connection_row, time_now,
      bind, lift, ret.
    intros Hc. split_cases Hc; injection Hc as <- <-; cbn;
      try (left; reflexivity);
      match goal with
      | E : OneDriveProvider.refresh_token _ _ = _ |- _ =>
        apply onedrive_refresh_at_most_one_post in E; exact E
      end.
Qed.

End WithRuntime.

(** *** Ids taken from Google Drive links *)

Lemma take_while_id (s : str) :
  forallb GoogleProvider.is_id_char (GoogleProvider.take_while GoogleProvider.is_id_char s) = true.
Proof.
  induction s as [|c t IH]; [reflexivity|]. cbn [GoogleProvider.take_while].
  destruct (GoogleProvider.is_id_char c) eqn:Hc; [|reflexivity].
  cbn [forallb]. rewrite Hc, IH. reflexivity.
Qed.

Lemma take_while_all (i rest : str) :
  forallb GoogleProvider.is_id_char i = true ->
  match rest with
  | [] => True
  | c :: _ => GoogleProvider.is_id_char c = false
  end ->
  GoogleProvider.take_while GoogleProvider.is_id_char (i ++ rest) = i.
Proof.
  intros Hi Hrest. induction i as [|c t IH]; cbn [app GoogleProvider.take_while].
  - destruct rest as [|c r]; [reflexivity|].
    cbn [GoogleProvider.take_while]. rewrite Hrest. reflexivity.
  - cbn [forallb] in Hi. apply andb_prop in Hi as [Hc Ht].
    rewrite Hc, IH by exact Ht. reflexivity.
Qed.

Lemma search_id_after_some (prefix s i : str) :
  GoogleProvider.search_id_after prefix s = Some i ->
  i <> [] /\ forallb GoogleProvider.is_id_char i = true.
Proof.
  induction s as [|c t IH]; [discriminate|]. cbn [GoogleProvider.search_id_after].
  destruct (startswith (c :: t) prefix && nonempty _) eqn:Hm; [|exact IH].
  intros [= <-]. apply andb_prop in Hm as [_ Hne].
  split; [apply nonempty_inv; exact Hne | apply take_while_id].
Qed.

(** An id taken from a link is never empty; it consists of letters,
    digits, [_] and [-] only, unless the link as a whole was taken for an
    id, which then has 20 characters or more. *)
Theorem extracted_id_shape (link i : str) :
  GoogleProvider._extract_id_from_link link = Some i ->
  i <> []
  /\ (forallb GoogleProvider.is_id_char i = true
      \/ (i = link /\ (20 <= length link)%nat)).
Proof.
  unfold GoogleProvider._extract_id_from_link.
  destruct (list_find _ _) as [[n p]|].
  - intros Hs. apply search_id_after_some in Hs as [Hne Hid]. auto.
  - unfold GoogleProvider.looks_like_id.
    destruct (20 <=? length (GoogleProvider.take_while _ link))%nat eqn:Hlen;
      [|discriminate].
    cbn [andb]. destruct (_ || _) eqn:Hor; [|discriminate]. intros [= <-].
    apply Nat.leb_le in Hlen.
    assert (Hlink : (20 <= length link)%nat).
    { apply orb_prop in Hor as [Hor|Hor]; apply bool_decide_eq_true in Hor;
        apply (f_equal (@length N)) in Hor; rewrite ?length_app in Hor; lia. }
    split; [|right; split; [reflexivity | exact Hlink]].
    intros ->. cbn in Hlink. lia.
Qed.

(** The usual folder link gives back the folder id: whatever follows the
    id, a query string for instance, is left out. *)
Theorem folder_link_roundtrip (i rest : str) :
  i <> [] ->
  forallb GoogleProvider.is_id_char i = true ->
  match rest with
  | [] => True
  | c :: _ => GoogleProvider.is_id_char c = false
  end ->
  GoogleProvider._extract_id_from_link
    (py "https://drive.google.com/drive/folders/" ++ i ++ rest) = Some i.
Proof.
  intros Hne Hid Hrest.
  assert (Hs : GoogleProvider.search_id_after (py "/folders/")
                 (py "https://drive.google.com/drive/folders/" ++ i ++ rest)
               = Some i).
  { repeat match goal with
           | |- context [py ?s] =>
             let v := eval vm_compute in (py s) in change (py s) with v
           end.
    cbn -[GoogleProvider.take_while nonempty].
    assert (Hnil : startswith (i ++ rest) [] = true)
      by (destruct (i ++ rest); reflexivity).
    rewrite Hnil. change (drop 0 (i ++ rest)) with (i ++ rest).
    rewrite (take_while_all i rest Hid Hrest).
    rewrite nonempty_true by exact Hne. reflexivity. }
  unfold GoogleProvider._extract_id_from_link. cbv zeta.
  cbn [list_find]. rewrite Hs. cbn. exact Hs.
Qed.

Lemma extracted_id_shape_witness :
  py "1AbC_def-9" <> []
  /\ (forallb GoogleProvider.is_id_char (py "1AbC_def-9") = true
      \/ (py "1AbC_def-9" = py "https://drive.google.com/file/d/1AbC_def-9/view"
          /\ (20 <= length (py "https://drive.google.com/file/d/1AbC_def-9/view"))%nat)).
Proof.
  apply (extracted_id_shape (py "https://drive.google.com/file/d/1AbC_def-9/view")).
  vm_compute. reflexivity.
Defined.

Lemma folder_link_roundtrip_witness :
  GoogleProvider._extract_id_from_link
    (py "https://drive.google.com/drive/folders/" ++ py "1AbC_def-9"
     ++ py "?usp=sharing") = Some (py "1AbC_def-9").
Proof.
  apply folder_link_roundtrip; [discriminate | reflexivity | reflexivity].
Defined.

(** *** Documents without readable text *)

Section NoChunks.
Context `{Runtime}.

Lemma for_each_invariant {S X} (P : S -> Prop) (body : S -> X -> M S)
    (xs : list X) (s : S) (w : World) s' w' :
  P s ->
  (forall s x w s' w', P s -> body s x w = (Returned s', w') -> P s') ->
  for_each body xs s w = (Returned s', w') -> P s'.
Proof.
  intros Hs Hbody. revert s w Hs. induction xs as [|x xs IH]; intros s w Hs.
  - rewrite ChatFacts.for_each_nil. intros [= <- <-]. exact Hs.
  - rewrite ChatFacts.for_each_cons.
    destruct (body s x w) as [[s1|e] w1] eqn:Hb; [|discriminate].
    apply IH. eapply Hbody; eassumption.
Qed.

Lemma ofold_left_invariant {S X} (P : S -> Prop) (f : S -> X -> outcome S)
    (xs : list X) (s s' : S) :
  P s ->
  (forall s x s', P s -> f s x = Returned s' -> P s') ->
  ofold_left f xs s = Returned s' -> P s'.
Proof.
  intros Hs Hf. revert s Hs. induction xs as [|x xs IH]; intros s Hs; cbn.
  - intros [= <-]. exact Hs.
  - destruct (f s x) as [s1|e] eqn:Hx; [|discriminate]. cbn.
    apply IH. eapply Hf; eassumption.
Qed.

(** A document whose content is empty or begins with ["["] gives no chunk. *)
Lemma chunk_of_placeholder (d : doc) (s : str) :
  assoc d (py "content") = Some (JStr s) ->
  s = [] \/ is_placeholder s = true ->
  chunk_of d = Returned None.
Proof.
  intros Hc Hs. unfold chunk_of. rewrite Hc.
  change (default (JStr []) (Some (JStr s))) with (JStr s).
  destruct Hs as [-> | Hs]; [reflexivity|].
  destruct (truthy (JStr s)); [|reflexivity].
  cbn [as_str obind]. unfold is_placeholder in Hs. rewrite Hs. reflexivity.
Qed.

Lemma prepare_chunks_none (docs : list doc) :
  Forall (fun d => chunk_of d = Returned None) docs ->
  prepare_chunks docs = Returned [].
Proof.
  unfold prepare_chunks. generalize (@nil (json * json)).
  induction docs as [|d docs IH]; intros acc Hall; [reflexivity|].
  inversion Hall as [|? ? Hd Hrest]; subst.
  cbn [ofold_left]. rewrite Hd. cbn [obind]. apply IH. exact Hrest.
Qed.

(** The tag [chat_ask] puts on a document does not change its chunk. *)
Lemma chunk_of_tagged (d : doc) (p : json) :
  chunk_of (dict_set d (py "provider") p) = chunk_of d.
Proof.
  assert (Hother : forall k, k <> py "provider" ->
            assoc (dict_set d (py "provider") p) k = assoc d k).
  { intros k Hk. induction d as [|[k' v'] t IH]; cbn [dict_set assoc].
    - rewrite bool_decide_eq_false_2 by congruence. reflexivity.
    - destruct (bool_decide_reflect (k' = py "provider")) as [->|Hne];
        cbn [assoc].
      + rewrite !bool_decide_eq_false_2 by congruence. reflexivity.
      + destruct (bool_decide (k' = k)); [reflexivity | exact IH]. }
  unfold chunk_of. rewrite !Hother by discriminate. reflexivity.
Qed.

(** Every document of the Notion adapter has a content that begins with
    ["["]: once tagged by [chat_ask], none of them gives a chunk, so a
    question put to Notion alone finds documents but no text. *)
Theorem notion_documents_give_no_chunks user_name_ link max_files w docs w' :
  NotionProvider.enumerate_from_link user_name_ link max_files w
  = (Returned docs, w') ->
  prepare_chunks (map (fun d => dict_set d (py "provider") (JStr (py "notion"))) docs)
  = Returned [].
Proof.
  intros Hdocs. apply prepare_chunks_none. apply Forall_map.
  assert (Hall : Forall (fun d => chunk_of d = Returned None) docs).
  { revert Hdocs.
    unfold NotionProvider.enumerate_from_link, NotionProvider.search_pages,
      NotionProvider._get_token, _read_token_row, Effects.get_provider_token,
      Effects.get_connection_row, send.
    unfold bind at 1 2 3 4 5 6 7. unfold lift, ret.
    intros Hc.
    repeat match type of Hc with
           | context [match ?x with _ => _ end] =>
             lazymatch x with
             | context [match _ with _ => _ end] => fail
             | context [for_each] => fail
             | _ => let E := fresh "E" in destruct x eqn:E; try discriminate Hc
             end
           end;
      try (injection Hc as <- _; constructor);
      (eapply (for_each_invariant (fun ds => Forall (fun d => chunk_of d = Returned None) ds));
       [constructor | | exact Hc]);
      clear; intros ds item w ds' w' Hds Hbody;
      unfold bind, lift, ret in Hbody; split_cases Hbody;
      injection Hbody as <- _;
      (apply Forall_app; split; [exact Hds|]);
      (constructor; [|constructor]);
      (eapply chunk_of_placeholder; [reflexivity | right; reflexivity]). }
  eapply Forall_impl; [exact Hall|]. intros d Hd. cbn beta.
  rewrite chunk_of_tagged. exact Hd.
Qed.

Lemma ofold_left_appends {X D} (Q : D -> Prop)
    (f : list D -> X -> outcome (list D)) (xs : list X) (s s' : list D) :
  (forall s x s', f s x = Returned s' -> exists d, s' = s ++ [d] /\ Q d) ->
  ofold_left f xs s = Returned s' ->
  exists new, s' = s ++ new /\ length new = length xs /\ Forall Q new.
Proof.
  intros Hf. revert s. induction xs as [|x xs IH]; intros s; cbn [ofold_left].
  - intros [= <-]. exists []. rewrite app_nil_r. auto.
  - destruct (f s x) as [s1|e] eqn:Hx; [|discriminate]. cbn [obind].
    intros Hrest. destruct (Hf _ _ _ Hx) as (d & -> & Hd).
    destruct (IH _ Hrest) as (new & -> & Hlen & Hall).
    exists (d :: new). rewrite <- app_assoc. cbn. auto.
Qed.

(** The listing of the user's own drive has one document per item and at
    most [limit] of them, and none carries text: the content is empty for a
    folder and ["[OneDrive item]"] for a file. *)
Theorem own_drive_listing_has_no_text (r : Response) (limit : Z) docs :
  OneDriveProvider.drive_items r limit = Returned docs ->
  0 <= limit ->
  (length docs <= Z.to_nat limit)%nat
  /\ Forall (fun d => assoc d (py "content") = Some (JStr [])
                      \/ assoc d (py "content") = Some (JStr (py "[OneDrive item]")))
       docs
  /\ prepare_chunks docs = Returned [].
Proof.
  unfold OneDriveProvider.drive_items. intros Hdocs Hlimit.
  destruct (json_body r) as [js|]; [|discriminate]. cbn [obind] in Hdocs.
  destruct (get js (py "value") (JList [])) as [v|]; [|discriminate].
  cbn [obind] in Hdocs.
  destruct (slice_json v limit) as [its|] eqn:Hits; [|discriminate].
  cbn [obind] in Hdocs.
  assert (Hlen : (length its <= Z.to_nat limit)%nat).
  { destruct v; try discriminate. cbn in Hits. injection Hits as <-.
    rewrite ExtractFacts.slice_to_nonneg by exact Hlimit.
    rewrite length_firstn. lia. }
  eapply (ofold_left_appends
            (fun d => assoc d (py "content") = Some (JStr [])
                      \/ assoc d (py "content") = Some (JStr (py "[OneDrive item]"))))
    in Hdocs.
  - destruct Hdocs as (new & -> & Hn & Hall). cbn [app].
    split; [lia|]. split; [exact Hall|].
    apply prepare_chunks_none. eapply Forall_impl; [exact Hall|].
    intros d [Hd|Hd]; (eapply chunk_of_placeholder; [exact Hd|]);
      [left | right]; reflexivity.
  - clear. intros s it s'.
    destruct (get it (py "name") (JStr [])) as [nm|]; [|discriminate].
    cbn [obind]. destruct (key_in (py "folder") it) as [isf|]; [|discriminate].
    cbn [obind]. destruct (getitem it (py "id")) as [i|]; [|discriminate].
    cbn [obind]. destruct isf; intros [= <-]; eexists; (split; [reflexivity|]);
      [left | right]; reflexivity.
Qed.

End NoChunks.

Lemma notion_documents_give_no_chunks_witness :
  exists docs,
    fst (@NotionProvider.enumerate_from_link Demo.runtime (py "alice") [] 10
           Demo.three_providers) = Returned docs
    /\ length docs = 1%nat
    /\ @prepare_chunks
         (map (fun d => dict_set d (py "provider") (JStr (py "notion"))) docs)
       = Returned [].
Proof.
  destruct (@NotionProvider.enumerate_from_link Demo.runtime (py "alice") [] 10
              Demo.three_providers) as [r w'] eqn:Hrun.
  vm_compute in Hrun. injection Hrun as <- <-.
  eexists. split; [reflexivity|]. split; [reflexivity|].
  eapply (@notion_documents_give_no_chunks Demo.runtime (py "alice") [] 10
            Demo.three_providers).
  vm_compute. reflexivity.
Defined.

Lemma own_drive_listing_has_no_text_witness :
  exists docs,
    @OneDriveProvider.drive_items Demo.runtime
      {| status_code := 200; content := []; text := [];
         json_body := Returned Demo.drive_listing |} 50 = Returned docs
    /\ (length docs <= 50)%nat
    /\ @prepare_chunks docs = Returned [].
Proof.
  eexists. split; [vm_compute; reflexivity|].
  edestruct (@own_drive_listing_has_no_text Demo.runtime
               {| status_code := 200; content := []; text := [];
                  json_body := Returned Demo.drive_listing |} 50)
    as (Hlen & _ & Hnone).
  - vm_compute. reflexivity.
  - lia.
  - split; [exact Hlen | exact Hnone].
Defined.

Lemma google_without_connection_witness :
  @GoogleProvider.enumerate_from_link Demo.runtime (py "bob")
    (py "https://drive.google.com/file/d/F1/view") 30 Demo.download_scenario
  = (Returned [], tick_clock Demo.download_scenario).
Proof.
  apply (@google_without_connection Demo.runtime).
  vm_compute. reflexivity.
Defined.

Lemma valid_token_needs_no_refresh_witness :
  let w := Demo.unauthorized_scenario (Demo.token_reply 3600) in
  exists w',
    @OneDriveProvider._get_valid_token Demo.runtime (py "alice") w
    = (Returned (VStr (py "at-1")), w')
    /\ trace w' = trace w /\ db w' = db w.
Proof.
  intros w.
  edestruct (@valid_token_needs_no_refresh Demo.runtime (py "alice")
               OneDriveProvider.name w) as (w' & Hget & Htr & Hdb & _).
  - right. reflexivity.
  - vm_compute. reflexivity.
  - reflexivity.
  - vm_compute. discriminate.
  - exists w'. split; [exact Hget|]. split; assumption.
Defined.

End AdapterFacts.

(** ** More about [chat_ask] *)
Module ChatMore.
Import Storage Effects Extract Providers Registry ChatRouter ChatChunks Shapes.
Import ChatFacts.
Local Open Scope world_scope.

Section WithRuntime.
Context `{Runtime}.

(** The providers a request is put to: the one named, lower-cased, whether
    connected or not; otherwise those of Google, OneDrive and Notion, in
    this order, for which the user has a connection.  Nothing is changed. *)
Theorem providers_to_check_result (req : AskRequest) (user_name_ : str) (w : World) :
  let connected p :=
    if bool_decide (is_Some (Storage.get_connection_row (db w) user_name_ p))
    then [p] else [] in
  providers_to_check req user_name_ w
  = (Returned
       match ask_provider req with
       | Some p =>
         if nonempty p && negb (bool_decide (p = py "auto")) then [lower p]
         else connected (py "google") ++ connected (py "onedrive")
              ++ connected (py "notion")
       | None => connected (py "google") ++ connected (py "onedrive")
                 ++ connected (py "notion")
       end, w).
Proof.
  cbv zeta. unfold providers_to_check.
  assert (Hauto :
    for_each (fun ps p =>
        do row <- Effects.get_connection_row user_name_ p;
        ret (if bool_decide (is_Some row) then ps ++ [p] else ps))
      [py "google"; py "onedrive"; py "notion"] [] w
    = (Returned
         ((if bool_decide (is_Some (Storage.get_connection_row (db w) user_name_ (py "google")))
           then [py "google"] else [])
          ++ (if bool_decide (is_Some (Storage.get_connection_row (db w) user_name_ (py "onedrive")))
              then [py "onedrive"] else [])
          ++ (if bool_decide (is_Some (Storage.get_connection_row (db w) user_name_ (py "notion")))
              then [py "notion"] else [])), w)).
  { unfold for_each, propagate, assign, bind, ret, Effects.get_connection_row.
    cbn [for_in].
    repeat match goal with
           | |- context [bool_decide ?P] => destruct (bool_decide P)
           end; reflexivity. }
  destruct (ask_provider req) as [p|]; [|exact Hauto].
  destruct (nonempty p && negb (bool_decide (p = py "auto"))); [reflexivity | exact Hauto].
Qed.

End WithRuntime.

End ChatMore.

(** ** The OAuth callback of Google Drive *)
Module AuthFacts.
Import Py Storage Effects Extract Providers AuthGoogle StorageFacts AdapterFacts.

Section WithRuntime.
Context `{Runtime}.

(** What [bind_token] binds for one of the five keys. *)
Lemma bind_token_get token params k :
  bind_token token = Returned params ->
  In k token_keys ->
  match assoc token k with
  | Some j => exists v, adapt j = Returned v /\ params !! k = Some v
  | None => params !! k = None
  end.
Proof.
  unfold bind_token, token_keys.
  cbn [ofold_left]. unfold obind at 1 2 3 4 5.
  intros Hb Hk.
  destruct (assoc token (py "access_token")) as [j1|] eqn:E1;
    [destruct (adapt j1) as [v1|] eqn:A1; [|discriminate]|];
  (destruct (assoc token (py "refresh_token")) as [j2|] eqn:E2;
    [destruct (adapt j2) as [v2|] eqn:A2; [|discriminate]|]);
  (destruct (assoc token (py "token_type")) as [j3|] eqn:E3;
    [destruct (adapt j3) as [v3|] eqn:A3; [|discriminate]|]);
  (destruct (assoc token (py "scope")) as [j4|] eqn:E4;
    [destruct (adapt j4) as [v4|] eqn:A4; [|discriminate]|]);
  (destruct (assoc token (py "expires_at")) as [j5|] eqn:E5;
    [destruct (adapt j5) as [v5|] eqn:A5; [|discriminate]|]);
  cbn in Hb; injection Hb as <-;
  cbn [In] in Hk;
  destruct Hk as [<-|[<-|[<-|[<-|[<-|[]]]]]];
  rewrite ?E1, ?E2, ?E3, ?E4, ?E5;
  first [ eexists; split; [eassumption | vm_compute; reflexivity]
        | vm_compute; reflexivity ].
Qed.

Lemma callback_failure_db code state error (w w' : World) e :
  callback code state error w = (Raised e, w') -> db w' = db w.
Proof.
  unfold callback, _env, save_google_connection, getenv, http_post_form,
    http_get, send, time_now, bind, lift, ret, raise.
  intros Hc.
  split_cases Hc.
  all: try (injection Hc as _ <-; reflexivity).
Qed.

End WithRuntime.
End AuthFacts.
